(** * Feed-forward network with linear algebra: the NumPy notebook

    A shallow embedding of the code cells of the notebook
    "Feed Forward Neural Network with Linear Algebra" ([softmax],
    [cross_entropy], [build_model] and the cell that calls it), with the
    statements the description of the repository makes about them.

    Conventions of the embedding.
    - NumPy [float64] entries are real numbers ([R]); rounding, overflow
      and NaN are outside the model.
    - A 2-D array is a [matrix]: its shape and its entries by index; a 1-D
      array is a [vector].  The entries outside the shape are never looked
      at by a statement of this file.
    - A Python exception is a value of [pyerr]; a computation that may raise
      returns [exc A].
    - The local variables of [build_model] hold references: [vars] maps a
      name to a location and [heap] maps a location to the array stored
      there, so that an assignment [a = b] shares the array and [a += b]
      writes into it. *)

From Stdlib Require Import Reals Lra Lia.
From stdpp Require Import gmap strings.

Local Open Scope string_scope.
Local Open Scope nat_scope.

(** ** Exceptions *)

Inductive pyerr : Type :=
| KeyError (key : string)
| NameError (name : string)
| IndexError
| ValueError
| TypeError
| ZeroDivisionError
| LibraryError (code : nat).

Inductive exc (A : Type) : Type :=
| Ok (a : A)
| Raise (e : pyerr).
Arguments Ok {A} a.
Arguments Raise {A} e.

Definition exc_bind {A B} (c : exc A) (k : A -> exc B) : exc B :=
  match c with
  | Ok a => k a
  | Raise e => Raise e
  end.

Declare Scope exc_scope.
Delimit Scope exc_scope with exc.
Notation "'do' x <- c ; k" := (exc_bind c (fun x => k))
  (at level 10, x name, c at level 100, k at level 200) : exc_scope.

(** ** Arrays *)

Record matrix : Type := Matrix {
  nrows : nat;
  ncols : nat;
  item : nat -> nat -> R
}.

Record vector : Type := Vector {
  vlen : nat;
  vitem : nat -> R
}.

(** [rsum n f] is the sum of [f 0], ..., [f (n - 1)]. *)
Fixpoint rsum (n : nat) (f : nat -> R) : R :=
  match n with
  | O => 0%R
  | S k => (rsum k f + f k)%R
  end.

Module Np.

(** Element-wise functions keep the shape. *)
Definition map (f : R -> R) (a : matrix) : matrix :=
  Matrix (nrows a) (ncols a) (fun i j => f (item a i j)).

Definition vmap (f : R -> R) (v : vector) : vector :=
  Vector (vlen v) (fun j => f (vitem v j)).

Definition exp (a : matrix) : matrix := map Rtrigo_def.exp a.
Definition tanh (a : matrix) : matrix := map Rtrigo_def.tanh a.
Definition square (a : matrix) : matrix := map (fun x => (x * x)%R) a.
(** [np.power(a, 2)] *)
Definition power2 (a : matrix) : matrix := map (fun x => (x * x)%R) a.
(** [s * a] for a Python float [s]. *)
Definition scale (s : R) (a : matrix) : matrix := map (fun x => (s * x)%R) a.
Definition vscale (s : R) (v : vector) : vector := vmap (fun x => (s * x)%R) v.
(** [a / s] for a float [s]. *)
Definition div_scalar (a : matrix) (s : R) : matrix := map (fun x => (x / s)%R) a.
(** [1 - a] *)
Definition one_minus (a : matrix) : matrix := map (fun x => (1 - x)%R) a.

(** [np.sum(a)]: the sum of all the entries. *)
Definition sum (a : matrix) : R :=
  rsum (nrows a) (fun i => rsum (ncols a) (fun j => item a i j)).
Definition vsum (v : vector) : R := rsum (vlen v) (vitem v).

(** [np.sum(a, axis=1, keepdims=True)]: shape (r, 1). *)
Definition sum_axis1_keepdims (a : matrix) : matrix :=
  Matrix (nrows a) 1 (fun i _ => rsum (ncols a) (fun j => item a i j)).

(** [np.sum(a, axis=0, keepdims=True)]: shape (1, c). *)
Definition sum_axis0_keepdims (a : matrix) : matrix :=
  Matrix 1 (ncols a) (fun _ j => rsum (nrows a) (fun i => item a i j)).

(** [np.sum(a, axis=0)]: a 1-D array of shape (c,). *)
Definition sum_axis0 (a : matrix) : vector :=
  Vector (ncols a) (fun j => rsum (nrows a) (fun i => item a i j)).

(** [a.T] *)
Definition T (a : matrix) : matrix :=
  Matrix (ncols a) (nrows a) (fun i j => item a j i).

(** A 1-D array of shape (n,) broadcasts as a row of shape (1, n). *)
Definition as_row (v : vector) : matrix :=
  Matrix 1 (vlen v) (fun _ j => vitem v j).

(** Broadcasting of one axis: equal lengths, or one of them is 1. *)
Definition bdim (a b : nat) : option nat :=
  if (a =? b)%nat then Some a
  else if (a =? 1)%nat then Some b
  else if (b =? 1)%nat then Some a
  else None.

(** The index read along an axis of length [d] for the index [i] of the
    result: an axis of length 1 is repeated. *)
Definition bidx (d i : nat) : nat := if (d =? 1)%nat then O else i.

(** The array of shape (r, c) that combines [a] and [b] entry by entry. *)
Definition bcast (op : R -> R -> R) (r c : nat) (a b : matrix) : matrix :=
  Matrix r c (fun i j =>
    op (item a (bidx (nrows a) i) (bidx (ncols a) j))
       (item b (bidx (nrows b) i) (bidx (ncols b) j))).

Definition broadcast (op : R -> R -> R) (a b : matrix) : exc matrix :=
  match bdim (nrows a) (nrows b), bdim (ncols a) (ncols b) with
  | Some r, Some c => Ok (bcast op r c a b)
  | _, _ => Raise ValueError
  end.

Definition add : matrix -> matrix -> exc matrix := broadcast Rplus.
Definition multiply : matrix -> matrix -> exc matrix := broadcast Rmult.
Definition divide : matrix -> matrix -> exc matrix := broadcast Rdiv.

Definition matmul (a b : matrix) : matrix :=
  Matrix (nrows a) (ncols b)
    (fun i j => rsum (ncols a) (fun k => (item a i k * item b k j)%R)).

(** [a.dot(b)] of two 2-D arrays: the inner lengths must agree. *)
Definition dot (a b : matrix) : exc matrix :=
  if (ncols a =? nrows b)%nat then Ok (matmul a b) else Raise ValueError.

(** [a += b]: the result of broadcasting must have the shape of [a], the
    array that is written. *)
Definition iadd (a b : matrix) : exc matrix :=
  match broadcast Rplus a b with
  | Ok c =>
      if ((nrows c =? nrows a) && (ncols c =? ncols a))%nat then Ok c
      else Raise ValueError
  | Raise e => Raise e
  end.

(** An integer index into an axis of length [n]: negative indices count
    from the end, anything else out of range raises [IndexError]. *)
Definition index (n : nat) (y : Z) : exc nat :=
  if ((0 <=? y) && (y <? Z.of_nat n))%Z then Ok (Z.to_nat y)
  else if ((- Z.of_nat n <=? y) && (y <? 0))%Z then Ok (Z.to_nat (Z.of_nat n + y))
  else Raise IndexError.

End Np.

(** ** The activation function

<<
def softmax(values):
    exp_scores = np.exp(values)
    return exp_scores / np.sum(exp_scores, axis=1, keepdims=True)
>> *)
Definition softmax (values : matrix) : exc matrix :=
  let exp_scores := Np.exp values in
  Np.divide exp_scores (Np.sum_axis1_keepdims exp_scores).

(** ** Advanced indexing with [range(n)] and a label array *)

Local Open Scope exc_scope.

(** The column indices [Y] as positions in an axis of length [n]. *)
Fixpoint indices (n : nat) (Y : list Z) : exc (list nat) :=
  match Y with
  | [] => Ok []
  | y :: Y' =>
      do c <- Np.index n y;
      do cs <- indices n Y';
      Ok (c :: cs)
  end.

(** The positions selected by [a[range(r), Y]]: the two index arrays are
    broadcast against each other (equal lengths, or one of length 1), and
    every index must be inside the shape of [a]. *)
Definition fancy_positions (a : matrix) (r : nat) (Y : list Z)
  : exc (list (nat * nat)) :=
  do cs <- indices (ncols a) Y;
  if (r <=? nrows a)%nat then
    if (r =? length Y)%nat then Ok (zip (seq 0 r) cs)
    else if (length Y =? 1)%nat then
      Ok (List.map (fun i => (i, hd O cs)) (seq 0 r))
    else if (r =? 1)%nat then Ok (List.map (fun c => (O, c)) cs)
    else Raise IndexError
  else Raise IndexError.

(** [a[range(r), Y]]: a 1-D array with one entry per selected position. *)
Definition fancy_get (a : matrix) (r : nat) (Y : list Z) : exc vector :=
  do ps <- fancy_positions a r Y;
  Ok (Vector (length ps)
        (fun k => item a (fst (nth k ps (O, O))) (snd (nth k ps (O, O))))).

Definition selected (ps : list (nat * nat)) (i j : nat) : bool :=
  existsb (fun p => (fst p =? i)%nat && (snd p =? j)%nat) ps.

(** [a[range(r), Y] -= x]: the selected entries are read, [x] is taken
    off, and the results are written back to the same positions. *)
Definition fancy_isub (a : matrix) (r : nat) (Y : list Z) (x : R)
  : exc matrix :=
  do ps <- fancy_positions a r Y;
  Ok (Matrix (nrows a) (ncols a)
        (fun i j => if selected ps i j then (item a i j - x)%R
                    else item a i j)).

(** [d[key]] of a dictionary *)
Definition getitem {A} (d : gmap string A) (key : string) : exc A :=
  match d !! key with
  | Some a => Ok a
  | None => Raise (KeyError key)
  end.

(** ** The store of [build_model] *)

Inductive ndarray : Type :=
| Arr1 (v : vector)
| Arr2 (m : matrix).

(** What the notebook calls in matplotlib, IPython and [intro_utils] for
    its plots; the arrays are passed as they are at the time of the call. *)
Inductive plot_call (handle : Type) : Type :=
| MeshGrid (X : matrix)
| Subplots
| Scatter (ax : handle) (xs ys : vector) (c : option (list Z))
| Plot (model : gmap string matrix) (ax : handle) (X : matrix) (Y : list Z)
       (title : string) (xx yy : handle)
| PlotError (ax : handle) (train_loss test_loss : list R)
| ClearOutput
| DisplayGcf.
Arguments MeshGrid {handle} X.
Arguments Subplots {handle}.
Arguments Scatter {handle} ax xs ys c.
Arguments Plot {handle} model ax X Y title xx yy.
Arguments PlotError {handle} ax train_loss test_loss.
Arguments ClearOutput {handle}.
Arguments DisplayGcf {handle}.

Declare Scope py_scope.
Delimit Scope py_scope with py.

Section Notebook.

(** The state of the libraries: the random generator of NumPy, the
    figures of matplotlib, the output area of the notebook. *)
Variable world : Type.
(** Grids, figures and axes. *)
Variable handle : Type.
(** The list of (point, label) pairs given to [build_model]. *)
Variable dataset : Type.

(** [extract_data] of [intro_utils]: the points as a 2-D array and the
    labels as a 1-D integer array. *)
Variable extract_data : dataset -> exc (matrix * list Z).
(** [predict(model, X, get_probs=True)] of [intro_utils]. *)
Variable predict : gmap string matrix -> matrix -> exc matrix.
(** The entries drawn by one call of [np.random.randn]. *)
Variable randn : world -> (nat -> nat -> R) * world.
(** A plotting call: the objects it returns and its effect. *)
Variable plotting : plot_call handle -> world -> exc (list handle * world).
(** The value of [i % (epochs / 20) == 0] in floating-point arithmetic. *)
Variable plot_due : nat -> nat -> bool.

Record pystate : Type := PyState {
  heap : gmap nat ndarray;
  next : nat;
  vars : gmap string nat;
  model : gmap string nat;
  test_loss : list R;
  train_loss : list R;
  libs : world
}.

Definition M (A : Type) : Type := pystate -> exc (A * pystate).

Definition ret {A} (a : A) : M A := fun s => Ok (a, s).

Definition bind {A B} (c : M A) (k : A -> M B) : M B :=
  fun s =>
    match c s with
    | Ok (a, s') => k a s'
    | Raise e => Raise e
    end.

Definition lift {A} (c : exc A) : M A :=
  fun s =>
    match c with
    | Ok a => Ok (a, s)
    | Raise e => Raise e
    end.

Notation "'do' x <- c ; k" := (bind c (fun x => k))
  (at level 10, x name, c at level 100, k at level 200) : py_scope.
Notation "'run' c ; k" := (bind c (fun _ => k))
  (at level 10, c at level 100, k at level 200) : py_scope.
Local Open Scope py_scope.

Definition set_heap (h : gmap nat ndarray) (s : pystate) : pystate :=
  PyState h (next s) (vars s) (model s) (test_loss s) (train_loss s) (libs s).
Definition set_vars (v : gmap string nat) (s : pystate) : pystate :=
  PyState (heap s) (next s) v (model s) (test_loss s) (train_loss s) (libs s).
Definition set_model (d : gmap string nat) (s : pystate) : pystate :=
  PyState (heap s) (next s) (vars s) d (test_loss s) (train_loss s) (libs s).
Definition set_libs (w : world) (s : pystate) : pystate :=
  PyState (heap s) (next s) (vars s) (model s) (test_loss s) (train_loss s) w.

(** A new array object. *)
Definition alloc (v : ndarray) : M nat :=
  fun s =>
    Ok (next s,
        PyState (<[next s := v]> (heap s)) (S (next s)) (vars s) (model s)
                (test_loss s) (train_loss s) (libs s)).

(** The name [x] refers to the object at [l] from now on. *)
Definition setvar (x : string) (l : nat) : M unit :=
  fun s => Ok (tt, set_vars (<[x := l]> (vars s)) s).

Definition getvar (x : string) : M nat :=
  fun s =>
    match vars s !! x with
    | Some l => Ok (l, s)
    | None => Raise (NameError x)
    end.

Definition deref (l : nat) : M ndarray :=
  fun s =>
    match heap s !! l with
    | Some v => Ok (v, s)
    | None => Raise (NameError "")
    end.

(** [x = <new array>] *)
Definition assign (x : string) (v : ndarray) : M unit :=
  do l <- alloc v; setvar x l.

Definition load (x : string) : M ndarray := do l <- getvar x; deref l.

Definition load_matrix (x : string) : M matrix :=
  do v <- load x;
  match v with
  | Arr2 m => ret m
  | Arr1 _ => lift (Raise TypeError)
  end.

Definition load_vector (x : string) : M vector :=
  do v <- load x;
  match v with
  | Arr1 v => ret v
  | Arr2 _ => lift (Raise TypeError)
  end.

(** The array that [x] refers to is overwritten where it is. *)
Definition write (x : string) (v : ndarray) : M unit :=
  do l <- getvar x;
  fun s => Ok (tt, set_heap (<[l := v]> (heap s)) s).

(** The arrays a dictionary of references points to. *)
Definition arrays_of (d : gmap string nat) (h : gmap nat ndarray)
  : gmap string matrix :=
  omap (fun l => match h !! l with
                 | Some (Arr2 m) => Some m
                 | _ => None
                 end) d.

Definition call (c : plot_call handle) : M (list handle) :=
  fun s =>
    match plotting c (libs s) with
    | Ok (hs, w) => Ok (hs, set_libs w s)
    | Raise e => Raise e
    end.

(** [a[:, j]] *)
Definition column (a : matrix) (j : nat) : exc vector :=
  if (j <? ncols a)%nat then Ok (Vector (nrows a) (fun i => item a i j))
  else Raise IndexError.

(** [a, b = <sequence>] and [fig, (ax1, ax2, ax3) = <sequence>] *)
Definition unpack2 (hs : list handle) : M (handle * handle) :=
  match hs with
  | [a; b] => ret (a, b)
  | _ => lift (Raise ValueError)
  end.

Definition unpack4 (hs : list handle)
  : M (handle * handle * handle * handle) :=
  match hs with
  | [a; b; c; d] => ret (a, b, c, d)
  | _ => lift (Raise ValueError)
  end.

(** ** The cost function

<<
def cross_entropy(model, X, Y, regularization):
    hidden_weights, output_weights = model['HW'], model['OW']
    probs = predict(model, X, get_probs=True)
    num_examples = len(Y)
    corect_logprobs = -np.log(probs[range(num_examples), Y])
    data_loss = np.sum(corect_logprobs)
    data_loss += (regularization / 2) * (np.sum(np.square(hidden_weights))
                                         + np.sum(np.square(output_weights)))
    return 1. / num_examples * data_loss
>> *)
Definition cross_entropy (model : gmap string matrix) (X : matrix)
    (Y : list Z) (regularization : R) : exc R :=
  (do hidden_weights <- getitem model "HW";
   do output_weights <- getitem model "OW";
   do probs <- predict model X;
   let num_examples := length Y in
   do picked <- fancy_get probs num_examples Y;
   let corect_logprobs := Np.vmap Ropp (Np.vmap ln picked) in
   let data_loss := Np.vsum corect_logprobs in
   let data_loss :=
     (data_loss +
      (regularization / 2) *
      (Np.sum (Np.square hidden_weights) + Np.sum (Np.square output_weights)))%R in
   if (num_examples =? 0)%nat then Raise ZeroDivisionError
   else Ok (1 / INR num_examples * data_loss)%R)%exc.

(** ** One epoch of the training loop of [build_model] *)

(**
<<
hidden_values = X_train.dot(hidden_weights) + hidden_bias
hidden_activations = np.tanh(hidden_values)
output_values = hidden_activations.dot(output_weights) + output_bias
probs = softmax(output_values)
>> *)
Definition forward_propagation : M unit :=
  do X_train <- load_matrix "X_train";
  do hidden_weights <- load_matrix "hidden_weights";
  do xw <- lift (Np.dot X_train hidden_weights);
  do hidden_bias <- load_matrix "hidden_bias";
  do hidden_values <- lift (Np.add xw hidden_bias);
  run assign "hidden_values" (Arr2 hidden_values);
  do hidden_values <- load_matrix "hidden_values";
  run assign "hidden_activations" (Arr2 (Np.tanh hidden_values));
  do hidden_activations <- load_matrix "hidden_activations";
  do output_weights <- load_matrix "output_weights";
  do hw <- lift (Np.dot hidden_activations output_weights);
  do output_bias <- load_matrix "output_bias";
  do output_values <- lift (Np.add hw output_bias);
  run assign "output_values" (Arr2 output_values);
  do output_values <- load_matrix "output_values";
  do probs <- lift (softmax output_values);
  assign "probs" (Arr2 probs).

(**
<<
output_delta = probs
output_delta[range(len(X_train)), Y_train] -= 1
output_weights_delta = (hidden_activations.T).dot(output_delta)
output_bias_delta = np.sum(output_delta, axis=0, keepdims=True)
hidden_delta = output_delta.dot(output_weights.T) * (1 - np.power(hidden_activations, 2))
hidden_weights_delta = np.dot(X_train.T, hidden_delta)
hidden_bias_delta = np.sum(hidden_delta, axis=0)
>> *)
Definition share_probs : M unit :=
  do probs <- getvar "probs";
  setvar "output_delta" probs.

Definition subtract_targets (Y_train : list Z) : M unit :=
  do output_delta <- load_matrix "output_delta";
  do X_train <- load_matrix "X_train";
  do updated <- lift (fancy_isub output_delta (nrows X_train) Y_train 1);
  write "output_delta" (Arr2 updated).

Definition parameter_deltas : M unit :=
  do hidden_activations <- load_matrix "hidden_activations";
  do output_delta <- load_matrix "output_delta";
  do output_weights_delta <- lift (Np.dot (Np.T hidden_activations) output_delta);
  run assign "output_weights_delta" (Arr2 output_weights_delta);
  do output_delta <- load_matrix "output_delta";
  run assign "output_bias_delta" (Arr2 (Np.sum_axis0_keepdims output_delta));
  do output_delta <- load_matrix "output_delta";
  do output_weights <- load_matrix "output_weights";
  do back <- lift (Np.dot output_delta (Np.T output_weights));
  do hidden_activations <- load_matrix "hidden_activations";
  do hidden_delta <-
    lift (Np.multiply back (Np.one_minus (Np.power2 hidden_activations)));
  run assign "hidden_delta" (Arr2 hidden_delta);
  do X_train <- load_matrix "X_train";
  do hidden_delta <- load_matrix "hidden_delta";
  do hidden_weights_delta <- lift (Np.dot (Np.T X_train) hidden_delta);
  run assign "hidden_weights_delta" (Arr2 hidden_weights_delta);
  do hidden_delta <- load_matrix "hidden_delta";
  assign "hidden_bias_delta" (Arr1 (Np.sum_axis0 hidden_delta)).

Definition backpropagation (Y_train : list Z) : M unit :=
  run share_probs;
  run subtract_targets Y_train;
  parameter_deltas.

(**
<<
output_weights_delta += regularization * output_weights
hidden_weights_delta += regularization * hidden_weights
>> *)
Definition add_regularization (regularization : R) : M unit :=
  do output_weights_delta <- load_matrix "output_weights_delta";
  do output_weights <- load_matrix "output_weights";
  do owd <- lift (Np.iadd output_weights_delta
                    (Np.scale regularization output_weights));
  run write "output_weights_delta" (Arr2 owd);
  do hidden_weights_delta <- load_matrix "hidden_weights_delta";
  do hidden_weights <- load_matrix "hidden_weights";
  do hwd <- lift (Np.iadd hidden_weights_delta
                    (Np.scale regularization hidden_weights));
  write "hidden_weights_delta" (Arr2 hwd).

(**
<<
output_weights += -learning_rate * output_weights_delta
output_bias += -learning_rate * output_bias_delta
hidden_weights += -learning_rate * hidden_weights_delta
hidden_bias += -learning_rate * hidden_bias_delta
>> *)
Definition update_weights (learning_rate : R) : M unit :=
  do output_weights <- load_matrix "output_weights";
  do output_weights_delta <- load_matrix "output_weights_delta";
  do ow <- lift (Np.iadd output_weights
                   (Np.scale (- learning_rate) output_weights_delta));
  run write "output_weights" (Arr2 ow);
  do output_bias <- load_matrix "output_bias";
  do output_bias_delta <- load_matrix "output_bias_delta";
  do ob <- lift (Np.iadd output_bias
                   (Np.scale (- learning_rate) output_bias_delta));
  run write "output_bias" (Arr2 ob);
  do hidden_weights <- load_matrix "hidden_weights";
  do hidden_weights_delta <- load_matrix "hidden_weights_delta";
  do hw <- lift (Np.iadd hidden_weights
                   (Np.scale (- learning_rate) hidden_weights_delta));
  run write "hidden_weights" (Arr2 hw);
  do hidden_bias <- load_matrix "hidden_bias";
  do hidden_bias_delta <- load_vector "hidden_bias_delta";
  do hb <- lift (Np.iadd hidden_bias
                   (Np.as_row (Np.vscale (- learning_rate) hidden_bias_delta)));
  write "hidden_bias" (Arr2 hb).

(**
<<
model = {"HW": hidden_weights, "HB": hidden_bias,
         "OW": output_weights, "OB": output_bias}
>> *)
Definition rebuild_model : M unit :=
  do hidden_weights <- getvar "hidden_weights";
  do hidden_bias <- getvar "hidden_bias";
  do output_weights <- getvar "output_weights";
  do output_bias <- getvar "output_bias";
  fun s =>
    Ok (tt, set_model (<["OB" := output_bias]>
                      (<["OW" := output_weights]>
                      (<["HB" := hidden_bias]>
                      (<["HW" := hidden_weights]> ∅)))) s).

(** The dictionary [model] with the arrays its entries refer to now. *)
Definition load_model : M (gmap string matrix) :=
  fun s => Ok (arrays_of (model s) (heap s), s).

(** The handles made by the plotting code before the loop. *)
Record figure : Type := Figure {
  xx_train : handle; yy_train : handle;
  xx_test : handle; yy_test : handle;
  ax1 : handle; ax2 : handle; ax3 : handle
}.

(**
<<
plot(model, ax1, X_train, Y_train, "Train", xx_train, yy_train)
plot(model, ax2, X_test, Y_test, "Test", xx_test, yy_test)
plot_error(ax3, train_loss, test_loss)
display.clear_output(wait=True)
display.display(plt.gcf())
>> *)
Definition plot_results (fig : figure) (Y_train Y_test : list Z) : M unit :=
  do m <- load_model;
  do X_train <- load_matrix "X_train";
  run call (Plot m (ax1 fig) X_train Y_train "Train"
              (xx_train fig) (yy_train fig));
  do m <- load_model;
  do X_test <- load_matrix "X_test";
  run call (Plot m (ax2 fig) X_test Y_test "Test"
              (xx_test fig) (yy_test fig));
  do losses <- (fun s => Ok ((train_loss s, test_loss s), s));
  run call (PlotError (ax3 fig) (fst losses) (snd losses));
  run call ClearOutput;
  run call DisplayGcf;
  ret tt.

(**
<<
test_loss.append(cross_entropy(model, X_test, Y_test, regularization))
train_loss.append(cross_entropy(model, X_train, Y_train, regularization))
>> *)
Definition record_losses (Y_train Y_test : list Z) (regularization : R)
  : M unit :=
  do m <- load_model;
  do X_test <- load_matrix "X_test";
  do l <- lift (cross_entropy m X_test Y_test regularization);
  run (fun s => Ok (tt, PyState (heap s) (next s) (vars s) (model s)
                          (test_loss s ++ [l]) (train_loss s) (libs s)));
  do m <- load_model;
  do X_train <- load_matrix "X_train";
  do l <- lift (cross_entropy m X_train Y_train regularization);
  fun s => Ok (tt, PyState (heap s) (next s) (vars s) (model s)
                     (test_loss s) (train_loss s ++ [l]) (libs s)).

(** The body of [for i in range(1, epochs + 1)]. *)
Definition epoch (fig : figure) (Y_train Y_test : list Z) (epochs : nat)
    (learning_rate regularization : R) (i : nat) : M unit :=
  run forward_propagation;
  run backpropagation Y_train;
  run add_regularization regularization;
  run update_weights learning_rate;
  run rebuild_model;
  run (if plot_due i epochs then plot_results fig Y_train Y_test else ret tt);
  record_losses Y_train Y_test regularization.

Fixpoint for_each (l : list nat) (body : nat -> M unit) : M unit :=
  match l with
  | [] => ret tt
  | i :: l' => run body i; for_each l' body
  end.

(** ** [build_model] *)

(** [np.zeros((r, c))] *)
Definition zeros (r c : nat) : matrix := Matrix r c (fun _ _ => 0%R).

(** [np.random.randn(r, c)] *)
Definition random_randn (r c : nat) : M matrix :=
  fun s => Ok (Matrix r c (fst (randn (libs s))),
               set_libs (snd (randn (libs s))) s).

(**
<<
hidden_weights = np.random.randn(input_dimensions, hidden_dimensions) / np.sqrt(input_dimensions)
hidden_bias = np.zeros((1, hidden_dimensions))
output_weights = np.random.randn(hidden_dimensions, output_dimensions) / np.sqrt(hidden_dimensions)
output_bias = np.zeros((1, output_dimensions))
model = {"HW": hidden_weights, "Hb": hidden_bias,
         "OW": output_weights, "OB": output_bias}
>> *)
Definition initialize (input_dimensions hidden_dimensions output_dimensions : nat)
  : M unit :=
  do g <- random_randn input_dimensions hidden_dimensions;
  run assign "hidden_weights"
        (Arr2 (Np.div_scalar g (sqrt (INR input_dimensions))));
  run assign "hidden_bias" (Arr2 (zeros 1 hidden_dimensions));
  do g <- random_randn hidden_dimensions output_dimensions;
  run assign "output_weights"
        (Arr2 (Np.div_scalar g (sqrt (INR hidden_dimensions))));
  run assign "output_bias" (Arr2 (zeros 1 output_dimensions));
  do hidden_weights <- getvar "hidden_weights";
  do hidden_bias <- getvar "hidden_bias";
  do output_weights <- getvar "output_weights";
  do output_bias <- getvar "output_bias";
  fun s =>
    Ok (tt, set_model (<["OB" := output_bias]>
                      (<["OW" := output_weights]>
                      (<["Hb" := hidden_bias]>
                      (<["HW" := hidden_weights]> ∅)))) s).

(**
<<
xx_train, yy_train = mesh_grid(X_train)
xx_test, yy_test = mesh_grid(X_test)
fig, (ax1, ax2, ax3) = plt.subplots(1, 3, figsize=(24,8))
ax1.scatter(X_train[:, 0], X_train[:, 1], s=60, cmap=plt.cm.coolwarm)
ax2.scatter(X_test[:, 0], X_test[:, 1], c=Y_test, s=60, cmap=plt.cm.coolwarm)
>> *)
Definition prepare_plots (Y_test : list Z) : M figure :=
  do X_train <- load_matrix "X_train";
  do g <- call (MeshGrid X_train);
  do train_grid <- unpack2 g;
  do X_test <- load_matrix "X_test";
  do g <- call (MeshGrid X_test);
  do test_grid <- unpack2 g;
  do f <- call Subplots;
  do axes <- unpack4 f;
  let ax1 := snd (fst (fst axes)) in
  let ax2 := snd (fst axes) in
  let ax3 := snd axes in
  do X_train <- load_matrix "X_train";
  do xs <- lift (column X_train 0);
  do X_train <- load_matrix "X_train";
  do ys <- lift (column X_train 1);
  run call (Scatter ax1 xs ys None);
  do X_test <- load_matrix "X_test";
  do xs <- lift (column X_test 0);
  do X_test <- load_matrix "X_test";
  do ys <- lift (column X_test 1);
  run call (Scatter ax2 xs ys (Some Y_test));
  ret (Figure (fst train_grid) (snd train_grid) (fst test_grid) (snd test_grid)
              ax1 ax2 ax3).

(**
<<
X_train, Y_train = extract_data(train_data)
X_test, Y_test = extract_data(test_data)
>> *)
Definition load_data (train_data test_data : dataset)
  : M (list Z * list Z) :=
  do train <- lift (extract_data train_data);
  run assign "X_train" (Arr2 (fst train));
  let Y_train := snd train in
  do test <- lift (extract_data test_data);
  run assign "X_test" (Arr2 (fst test));
  let Y_test := snd test in
  ret (Y_train, Y_test).

(** The statements of [build_model] before the training loop. *)
Definition setup (train_data test_data : dataset)
    (input_dimensions hidden_dimensions output_dimensions : nat)
  : M (figure * (list Z * list Z)) :=
  do labels <- load_data train_data test_data;
  run initialize input_dimensions hidden_dimensions output_dimensions;
  do fig <- prepare_plots (snd labels);
  run (fun s => Ok (tt, PyState (heap s) (next s) (vars s) (model s)
                          [] [] (libs s)));
  ret (fig, labels).

Definition build_model (train_data test_data : dataset)
    (input_dimensions hidden_dimensions output_dimensions epochs : nat)
    (learning_rate regularization : R) : M unit :=
  do before <- setup train_data test_data
                 input_dimensions hidden_dimensions output_dimensions;
  let fig := fst before in
  let Y_train := fst (snd before) in
  let Y_test := snd (snd before) in
  for_each (seq 1 epochs)
    (epoch fig Y_train Y_test epochs learning_rate regularization).

(** The state [s] in which the body of a loop over [l] runs for [i],
    when the loop starts in [s0]. *)
Inductive reaches (body : nat -> M unit)
  : list nat -> pystate -> nat -> pystate -> Prop :=
| reaches_here i l s0 : reaches body (i :: l) s0 i s0
| reaches_later j l s0 s1 i s :
    body j s0 = Ok (tt, s1) ->
    reaches body l s1 i s ->
    reaches body (j :: l) s0 i s.

(** ** What the statements below are about *)

(** A computation that leaves the arrays and the names as they are. *)
Definition keeps_store {A} (c : M A) : Prop :=
  forall s a s', c s = Ok (a, s') ->
    heap s' = heap s /\ vars s' = vars s /\ next s' = next s.

(** The array a name refers to. *)
Definition array_at (s : pystate) (x : string) : option ndarray :=
  match vars s !! x with
  | Some l => heap s !! l
  | None => None
  end.

(** A state in which an epoch can start: the training points [X] and the
    four parameter arrays are bound, they are five different objects, no
    name refers to a location that is not allocated yet, and the shapes
    fit: [X] is (N, D), [hw] is (D, H), [hb] is (1, H), [ow] is (H, K),
    [ob] is (1, K), and there is one label per point, each a valid index
    into an axis of length K. *)
Record training_state (Y_train : list Z) (X hw hb ow ob : matrix)
    (s : pystate) : Prop := TrainingState {
  ts_X : array_at s "X_train" = Some (Arr2 X);
  ts_hw : array_at s "hidden_weights" = Some (Arr2 hw);
  ts_hb : array_at s "hidden_bias" = Some (Arr2 hb);
  ts_ow : array_at s "output_weights" = Some (Arr2 ow);
  ts_ob : array_at s "output_bias" = Some (Arr2 ob);
  ts_separate :
    NoDup [vars s !! "X_train"; vars s !! "hidden_weights";
           vars s !! "hidden_bias"; vars s !! "output_weights";
           vars s !! "output_bias"];
  ts_allocated : map_Forall (fun _ l => l < next s) (vars s);
  ts_shape_hw : nrows hw = ncols X;
  ts_shape_hb : nrows hb = 1 /\ ncols hb = ncols hw;
  ts_shape_ow : nrows ow = ncols hw;
  ts_shape_ob : nrows ob = 1 /\ ncols ob = ncols ow;
  ts_length : length Y_train = nrows X;
  ts_labels :
    Forall (fun y => (- Z.of_nat (ncols ow) <= y < Z.of_nat (ncols ow))%Z)
           Y_train
}.

End Notebook.

Notation "'do' x <- c ; k" := (bind _ c (fun x => k))
  (at level 10, x name, c at level 100, k at level 200) : py_scope.
Notation "'run' c ; k" := (bind _ c (fun _ => k))
  (at level 10, c at level 100, k at level 200) : py_scope.

Arguments PyState {world} heap next vars model test_loss train_loss libs.
Arguments heap {world} p.
Arguments next {world} p.
Arguments vars {world} p.
Arguments model {world} p.
Arguments test_loss {world} p.
Arguments train_loss {world} p.
Arguments libs {world} p.
Arguments ret {world A} a s.
Arguments bind {world A B} c k s.
Arguments lift {world A} c s.
Arguments alloc {world} v s.
Arguments setvar {world} x l s.
Arguments getvar {world} x s.
Arguments deref {world} l s.
Arguments assign {world} x v s.
Arguments load {world} x s.
Arguments load_matrix {world} x s.
Arguments load_vector {world} x s.
Arguments write {world} x v s.
Arguments set_heap {world} h s.
Arguments set_vars {world} v s.
Arguments set_model {world} d s.
Arguments set_libs {world} w s.
Arguments forward_propagation {world} s.
Arguments share_probs {world} s.
Arguments subtract_targets {world} Y_train s.
Arguments parameter_deltas {world} s.
Arguments backpropagation {world} Y_train s.
Arguments add_regularization {world} regularization s.
Arguments update_weights {world} learning_rate s.
Arguments rebuild_model {world} s.
Arguments load_model {world} s.
Arguments call {world handle} plotting c s.
Arguments unpack2 {world handle} hs s.
Arguments unpack4 {world handle} hs s.
Arguments plot_results {world handle} plotting fig Y_train Y_test s.
Arguments record_losses {world} predict Y_train Y_test regularization s.
Arguments epoch {world handle} predict plotting plot_due fig Y_train Y_test
  epochs learning_rate regularization i s.
Arguments for_each {world} l body s.
Arguments random_randn {world} randn r c s.
Arguments initialize {world} randn input_dimensions hidden_dimensions
  output_dimensions s.
Arguments prepare_plots {world handle} plotting Y_test s.
Arguments load_data {world dataset} extract_data train_data test_data s.
Arguments setup {world handle dataset} extract_data randn plotting
  train_data test_data input_dimensions hidden_dimensions output_dimensions s.
Arguments build_model {world handle dataset} extract_data predict randn
  plotting plot_due train_data test_data input_dimensions hidden_dimensions
  output_dimensions epochs learning_rate regularization s.
Arguments reaches {world} body _ _ _ _.
Arguments reaches_here {world} body i l s0.
Arguments reaches_later {world} body j l s0 s1 i s _ _.
Arguments keeps_store {world A} c.
Arguments array_at {world} s x.
Arguments training_state {world} Y_train X hw hb ow ob s.

(** ** The network as a function of its parameters

    The quantities the description names, written entry by entry:
    the hidden activations [tanh(X . HW + HB)], the output values, the
    softmax probabilities, the one-hot encoding of the labels and the
    summed cross-entropy of the forward pass. *)

Section Network.
Local Open Scope R_scope.

Definition hidden (X hw hb : matrix) (i j : nat) : R :=
  Rtrigo_def.tanh
    (rsum (ncols X) (fun k => item X i k * item hw k j) + item hb 0 j).

Definition scores (X hw hb ow ob : matrix) (i c : nat) : R :=
  rsum (ncols hw) (fun j => hidden X hw hb i j * item ow j c) + item ob 0 c.

Definition prob (X hw hb ow ob : matrix) (i c : nat) : R :=
  Rtrigo_def.exp (scores X hw hb ow ob i c) /
  rsum (ncols ow) (fun c' => Rtrigo_def.exp (scores X hw hb ow ob i c')).

(** The column that a label selects in an axis of length [K]. *)
Definition column_of (K : nat) (y : Z) : nat :=
  match Np.index K y with
  | Ok c => c
  | Raise _ => O
  end.

(** The column that the label of example [i] selects. *)
Definition label (K : nat) (Y : list Z) (i : nat) : nat :=
  match Y !! i with
  | Some y => column_of K y
  | None => O
  end.

Definition one_hot (K : nat) (Y : list Z) (i c : nat) : R :=
  if (label K Y i =? c)%nat then 1 else 0.

Definition summed_cross_entropy (X : matrix) (Y : list Z)
    (hw hb ow ob : matrix) : R :=
  rsum (nrows X)
    (fun i => - ln (prob X hw hb ow ob i (label (ncols ow) Y i))).

(** The array [a] with the entry at (i, j) replaced by [t]. *)
Definition with_item (a : matrix) (i j : nat) (t : R) : matrix :=
  Matrix (nrows a) (ncols a)
    (fun i' j' => if ((i' =? i) && (j' =? j))%nat then t else item a i' j').

End Network.
(** ** A small training state

    One training point with one feature and the label 1, one hidden unit
    and two classes, all the parameters zero; the libraries have no state
    ([unit]). *)

Module Example.

Definition X : matrix := Matrix 1 1 (fun _ _ => 1%R).
Definition Y : list Z := [1%Z].
Definition hw : matrix := Matrix 1 1 (fun _ _ => 0%R).
Definition hb : matrix := Matrix 1 1 (fun _ _ => 0%R).
Definition ow : matrix := Matrix 1 2 (fun _ _ => 0%R).
Definition ob : matrix := Matrix 1 2 (fun _ _ => 0%R).

Definition state : pystate unit :=
  PyState
    (<[4 := Arr2 ob]> (<[3 := Arr2 ow]> (<[2 := Arr2 hb]>
     (<[1 := Arr2 hw]> (<[0 := Arr2 X]> ∅)))))
    5
    (<["output_bias" := 4]> (<["output_weights" := 3]>
     (<["hidden_bias" := 2]> (<["hidden_weights" := 1]>
     (<["X_train" := 0]> ∅)))))
    ∅ [] [] tt.

(** A model dictionary and a [predict] that returns uniform
    probabilities for two classes. *)
Definition model : gmap string matrix :=
  <["OW" := ow]> (<["HW" := hw]> ∅).
Definition predict (m : gmap string matrix) (x : matrix) : exc matrix :=
  Ok (Matrix (nrows x) 2 (fun _ _ => (1 / 2)%R)).

End Example.

(** ** The code cells of the notebooks

    A notebook evaluates its code cells in one namespace.  A cell is
    written here as the global names it reads ([Use]) and binds ([Def]),
    in the order of the statements (the first read and the first binding
    of a name are listed; a [def] binds the name of the function, and a
    call of a function of the notebook reads, at the call, the global
    names its body reads).  Reading a name that is not bound raises
    [NameError]. *)

Inductive event : Type :=
| Use (x : string)
| Def (x : string).

Definition cell : Type := list event.

Fixpoint run_cell (c : cell) (names : gset string) : exc (gset string) :=
  match c with
  | [] => Ok names
  | Use x :: c' =>
      if decide (x ∈ names) then run_cell c' names else Raise (NameError x)
  | Def x :: c' => run_cell c' ({[x]} ∪ names)
  end.

Fixpoint run_cells (cs : list cell) (names : gset string)
  : exc (gset string) :=
  match cs with
  | [] => Ok names
  | c :: cs' =>
      match run_cell c names with
      | Ok names' => run_cells cs' names'
      | Raise e => Raise e
      end
  end.

(** The names of Python that the cells read. *)
Definition builtins : gset string :=
  {["print"; "range"; "len"; "str"; "list"; "zip"]}.

(** A cell is independent when it can be evaluated in a namespace that no
    other cell has touched. *)
Definition independent (c : cell) : Prop :=
  exists names, run_cell c builtins = Ok names.

Module LinearAlgebra.

Definition imports : cell :=
  [Def "sys"; Def "os"; Use "sys"; Use "os"; Def "matplotlib"; Def "np";
   Def "plt"; Use "plt";
   (* from intro_utils import * *)
   Def "extract_data"; Def "mesh_grid"; Def "plot"; Def "plot_error";
   Def "predict";
   Def "clear_output"; Def "display"; Def "make_moons";
   Def "precision_score"; Def "accuracy_score"].

Definition functions : cell := [Def "softmax"; Def "cross_entropy"].

Definition definition : cell := [Def "build_model"].

(** What the body of [softmax], [cross_entropy] and [build_model] reads
    when it is called. *)
Definition softmax_body : cell := [Use "np"].
Definition cross_entropy_body : cell :=
  [Use "predict"; Use "len"; Use "np"; Use "range"].
Definition build_model_body : cell :=
  ([Use "extract_data"; Use "np"; Use "mesh_grid"; Use "plt"; Use "range"]
   ++ [Use "softmax"] ++ softmax_body
   ++ [Use "len"; Use "plot"; Use "plot_error"; Use "display";
       Use "cross_entropy"] ++ cross_entropy_body)%list.

Definition training : cell :=
  ([Def "train_size"; Def "test_size";
   Use "make_moons"; Use "train_size"; Def "X_train"; Def "Y_train";
   Use "test_size"; Def "X_test"; Def "Y_test";
   Use "list"; Use "zip"; Use "X_train"; Use "Y_train"; Def "train_data";
   Use "X_test"; Use "Y_test"; Def "test_data";
   Def "LEARNING_RATE"; Def "REGULARIZATION"; Def "HIDDEN_DIMENSIONS";
   Def "EPOCHS";
   Use "build_model"; Use "train_data"; Use "test_data"; Use "EPOCHS";
   Use "HIDDEN_DIMENSIONS"; Use "REGULARIZATION"; Use "LEARNING_RATE"]
  ++ build_model_body)%list.

Definition notebook : list cell :=
  [imports; functions; definition; training].

End LinearAlgebra.

Module TensorflowIntro.

Definition imports : cell :=
  [Def "matplotlib"; Def "plt"; Use "plt"; Def "np"; Def "sys"; Def "os";
   Use "sys"; Use "os"; Def "utils"; Def "make_moons"; Def "clear_output";
   Def "tf"; Def "reset_default_graph"].

Definition data : cell :=
  [Def "train_size"; Def "val_size"; Def "test_size";
   Use "make_moons"; Use "train_size"; Def "X_train"; Def "Y_train";
   Use "test_size"; Def "X_val"; Def "Y_val"; Def "X_test"; Def "Y_test";
   Use "X_train"; Def "num_features"; Def "num_outputs"].

Definition graph : cell :=
  [Use "reset_default_graph"; Use "tf"; Use "num_features";
   Def "input_placeholder"; Def "ffn_layer";
   Use "ffn_layer"; Use "input_placeholder"; Use "num_outputs"; Def "l_1";
   Use "l_1"; Def "output"].

Definition tensorboard : cell :=
  [Use "tf"; Def "sess"; Use "sess"; Use "utils"; Def "tmp_def";
   Use "tmp_def"].

Definition cost : cell :=
  [Use "tf"; Use "num_outputs"; Def "y"; Use "y"; Use "output";
   Def "cross_entropy"; Use "cross_entropy"].

Definition optimizer : cell :=
  [Use "tf"; Def "optimizer"; Use "optimizer"; Use "cross_entropy";
   Def "grads_and_vars"; Use "grads_and_vars"; Def "train_op"].

Definition accuracy : cell :=
  [Use "tf"; Use "output"; Use "y"; Def "correct_prediction";
   Use "correct_prediction"; Def "accuracy"].

Definition training : cell :=
  [Def "pred"; Def "num_epochs"; Def "train_cost"; Def "val_cost";
   Def "val_acc"; Use "tf"; Def "gpu_opts"; Use "gpu_opts"; Def "sess";
   Def "init"; Use "sess"; Use "init"; Use "utils";
   (* the body of pred *)
   Use "pred"; Use "input_placeholder"; Use "output";
   Use "X_val"; Use "Y_val"; Use "plt";
   Use "range"; Use "num_epochs"; Def "e";
   Use "X_train"; Use "y"; Use "Y_train"; Use "num_outputs";
   Def "feed_dict_train"; Use "train_op"; Use "cross_entropy";
   Def "fetches_train"; Use "fetches_train"; Use "feed_dict_train";
   Def "res"; Use "train_cost"; Use "res";
   Def "feed_dict_valid"; Use "accuracy"; Def "fetches_valid";
   Use "fetches_valid"; Use "feed_dict_valid"; Use "val_cost";
   Use "val_acc"; Use "e"; Use "print"; Use "clear_output";
   Use "X_test"; Use "Y_test"; Def "feed_dict_test"; Def "fetches_test";
   Use "fetches_test"; Use "feed_dict_test"; Def "test_cost";
   Def "test_acc"; Use "test_cost"; Use "test_acc";
   Use "np"; Use "len"; Def "epoch"; Use "epoch"].

Definition notebook : list cell :=
  [imports; data; graph; tensorboard; cost; optimizer; accuracy;
   tensorboard; training].

End TensorflowIntro.

Module KerasIntro.

Definition imports : cell :=
  [Def "matplotlib"; Def "plt"; Use "plt"; Def "np"; Def "sys"; Def "os";
   Use "sys"; Use "os"; Def "utils"; Def "ffn_layer"; Def "make_moons";
   Def "clear_output"; Def "tf"; Def "reset_default_graph"].

Definition data : cell :=
  [Use "np"; Def "data"; Def "num_classes"; Use "data"; Def "x_train";
   Def "targets_train"; Def "x_valid"; Def "targets_valid"; Def "x_test";
   Def "targets_test"; Use "print"; Use "len"; Use "x_train"; Use "x_valid";
   Use "x_test"; Use "targets_train"; Use "targets_valid";
   Use "targets_test"; Def "idx"; Def "canvas"; Use "range"; Def "i";
   Def "j"; Use "canvas"; Use "i"; Use "j"; Use "idx"; Use "plt"].

Definition graph : cell :=
  [Use "reset_default_graph"; Use "x_train"; Def "num_features";
   Def "num_classes"; Def "num_l1_neurons"; Use "tf"; Use "num_features";
   Def "input_placeholder"; Use "ffn_layer"; Use "input_placeholder";
   Use "num_l1_neurons"; Def "layer1"; Use "layer1";
   Def "layer1_nonlinear"; Use "layer1_nonlinear"; Use "num_classes";
   Def "layer2"; Use "layer2"; Def "output"; Def "target_placeholder";
   Use "target_placeholder"; Use "output"; Def "cross_entropy";
   Use "cross_entropy"; Def "loss_tn"; Def "optimizer"; Use "optimizer";
   Use "loss_tn"; Def "train_op"].

Definition tensorboard : cell :=
  [Use "tf"; Def "sess"; Use "sess"; Use "utils"; Def "tmp_def";
   Use "tmp_def"].

Definition training : cell :=
  [Def "ConfusionMatrix"; Def "batch_size"; Def "num_epochs";
   Use "x_train"; Def "num_samples_train"; Use "num_samples_train";
   Use "batch_size"; Def "num_batches_train"; Use "x_valid";
   Def "num_samples_valid"; Use "num_samples_valid";
   Def "num_batches_valid"; Def "train_acc"; Def "train_loss";
   Def "valid_acc"; Def "valid_loss"; Def "test_acc"; Def "test_loss";
   Def "cur_loss"; Def "loss"; Use "range"; Use "num_epochs"; Def "epoch";
   Use "num_batches_train"; Def "i"; Use "i"; Def "idx"; Use "idx";
   Def "x_batch"; Use "targets_train"; Def "target_batch";
   Use "input_placeholder"; Use "x_batch"; Use "target_placeholder";
   Use "utils"; Use "target_batch"; Use "num_classes";
   Def "feed_dict_train"; Use "train_op"; Use "loss_tn";
   Def "fetches_train"; Use "sess"; Use "fetches_train";
   Use "feed_dict_train"; Def "_"; Def "batch_loss"; Use "cur_loss";
   Use "batch_loss"; Use "loss"; Use "ConfusionMatrix";
   Def "confusion_valid"; Def "confusion_train"; Def "targets_batch";
   Use "targets_batch"; Def "feed_dict_eval_train"; Use "output";
   Def "fetches_eval_train"; Use "fetches_eval_train";
   Use "feed_dict_eval_train"; Def "res"; Use "res"; Def "net_out";
   Use "np"; Use "net_out"; Def "preds"; Use "confusion_train";
   Use "preds"; Use "num_batches_valid"; Use "targets_valid";
   Use "confusion_valid"; Def "train_acc_cur"; Def "valid_acc_cur";
   Use "train_acc"; Use "train_acc_cur"; Use "valid_acc";
   Use "valid_acc_cur"; Use "print"; Use "epoch"; Use "clear_output";
   Use "len"; Use "plt"].

Definition keras_imports : cell :=
  [Use "reset_default_graph"; Def "Sequential"; Def "Dense";
   Def "Activation"; Def "K"; Def "model"].

Definition keras_model : cell :=
  [Use "K"; Def "session"; Use "model"; Use "x_train"; Def "num_features";
   Def "num_classes"; Def "num_l1_neurons"; Def "batch_size";
   Def "num_epochs"; Use "Sequential"; Def "model"; Use "Dense";
   Use "num_l1_neurons"; Use "num_features"; Use "Activation";
   Use "num_classes"].

Definition keras_tensorboard : cell :=
  [Use "tf"; Def "sess"; Use "sess"; Use "utils"; Def "tmp_def";
   Use "tmp_def"].

Definition fit : cell :=
  [Use "model"; Use "x_train"; Use "utils"; Use "targets_train";
   Use "num_classes"; Use "num_epochs"; Use "batch_size"].

Definition evaluate : cell :=
  [Use "model"; Use "x_test"; Use "utils"; Use "targets_test";
   Use "num_classes"; Def "loss"; Def "accuracy"; Use "print"; Use "loss";
   Use "accuracy"].

Definition empty : cell := [].

Definition notebook : list cell :=
  [imports; data; graph; tensorboard; training; keras_imports; keras_model;
   keras_tensorboard; fit; evaluate; empty].

End KerasIntro.

Module KerasBasics.

Definition imports : cell :=
  [Def "absolute_import"; Def "division"; Def "print_function"; Def "os";
   Def "sys"; Use "sys"; Use "os"; Def "utils"; Def "tf"; Def "keras";
   Def "K"; Def "Sequential"; Def "Model"; Def "Dense"; Def "Input";
   Def "categorical_crossentropy"; Def "categorical_accuracy"].

Definition data : cell :=
  [Def "input_data"; Use "input_data"; Def "mnist_data"].

Definition loop : cell := [Def "max_epoch"; Def "batch_size"; Def "train"].

(** What the body of [train] reads when it is called. *)
Definition train_body : cell :=
  [Use "tf"; Use "K"; Use "print"; Use "range"; Use "max_epoch";
   Use "mnist_data"; Use "batch_size"; Use "img"; Use "labels"; Use "utils"].

Definition methods : cell :=
  ([Def "method"; Use "print"; Use "str"; Use "method"; Use "tf";
    Def "img"; Def "labels"; Use "Dense"; Use "img"; Def "x"; Use "x";
    Def "preds"; Use "K"; Use "categorical_accuracy"; Use "labels";
    Use "preds"; Def "acc_value"; Use "categorical_crossentropy";
    Def "loss"; Def "optimizer"; Use "optimizer"; Use "loss";
    Def "train_op"; Use "train"; Use "train_op"; Use "acc_value"]
   ++ train_body ++ [Def "graph"; Use "utils"; Use "graph"])%list.

Definition empty : cell := [].

Definition notebook : list cell := [imports; data; loop; methods; empty].

End KerasBasics.

(** The four notebooks of the repository. *)
Definition notebooks : list (list cell) :=
  [LinearAlgebra.notebook; TensorflowIntro.notebook; KerasIntro.notebook;
   KerasBasics.notebook].

Definition independentb (c : cell) : bool :=
  match run_cell c builtins with
  | Ok _ => true
  | Raise _ => false
  end.

Definition runs_in_orderb (nb : list cell) : bool :=
  match run_cells nb builtins with
  | Ok _ => true
  | Raise _ => false
  end.

(** ** The states an epoch goes through

    The state after each block of statements, from the state [s] in which
    the epoch starts and the arrays [X], [hw], [hb], [ow], [ob] bound
    there.  The lemmas [forward_run], [backward_run], [regularize_run] and
    [update_run] show that the blocks compute exactly these states. *)

Section Stages.
Context {world : Type}.
Variables (Y : list Z) (X hw hb ow ob : matrix).
Variables (regularization learning_rate : R).

Definition hidden_values_v : matrix :=
  Np.bcast Rplus (nrows X) (ncols hw) (Np.matmul X hw) hb.
Definition hidden_activations_v : matrix := Np.tanh hidden_values_v.
Definition output_values_v : matrix :=
  Np.bcast Rplus (nrows X) (ncols ow) (Np.matmul hidden_activations_v ow) ob.
Definition probs_v : matrix :=
  Np.bcast Rdiv (nrows X) (ncols ow) (Np.exp output_values_v)
    (Np.sum_axis1_keepdims (Np.exp output_values_v)).

Definition forward_state (s : pystate world) : pystate world :=
  PyState (<[3 + next s := Arr2 probs_v]>
           (<[2 + next s := Arr2 output_values_v]>
           (<[1 + next s := Arr2 hidden_activations_v]>
           (<[next s := Arr2 hidden_values_v]> (heap s)))))
          (4 + next s)
          (<["probs" := 3 + next s]>
           (<["output_values" := 2 + next s]>
           (<["hidden_activations" := 1 + next s]>
           (<["hidden_values" := next s]> (vars s)))))
          (model s) (test_loss s) (train_loss s) (libs s).

Definition output_delta_v : matrix :=
  Matrix (nrows X) (ncols ow)
    (fun i j =>
       if selected (zip (seq 0 (nrows X)) (List.map (column_of (ncols ow)) Y)) i j
       then (item probs_v i j - 1)%R else item probs_v i j).

(** After [output_delta = probs] and the subtraction of the targets. *)
Definition targets_state (s : pystate world) : pystate world :=
  let s1 := forward_state s in
  PyState (<[3 + next s := Arr2 output_delta_v]> (heap s1)) (next s1)
          (<["output_delta" := 3 + next s]> (vars s1))
          (model s) (test_loss s) (train_loss s) (libs s).

Definition output_weights_delta_v : matrix :=
  Np.matmul (Np.T hidden_activations_v) output_delta_v.
Definition output_bias_delta_v : matrix :=
  Np.sum_axis0_keepdims output_delta_v.
Definition hidden_delta_v : matrix :=
  Np.bcast Rmult (nrows X) (nrows ow)
    (Np.matmul output_delta_v (Np.T ow))
    (Np.one_minus (Np.power2 hidden_activations_v)).
Definition hidden_weights_delta_v : matrix :=
  Np.matmul (Np.T X) hidden_delta_v.
Definition hidden_bias_delta_v : vector := Np.sum_axis0 hidden_delta_v.

Definition backward_state (s : pystate world) : pystate world :=
  let s2 := targets_state s in
  PyState (<[8 + next s := Arr1 hidden_bias_delta_v]>
           (<[7 + next s := Arr2 hidden_weights_delta_v]>
           (<[6 + next s := Arr2 hidden_delta_v]>
           (<[5 + next s := Arr2 output_bias_delta_v]>
           (<[4 + next s := Arr2 output_weights_delta_v]> (heap s2))))))
          (9 + next s)
          (<["hidden_bias_delta" := 8 + next s]>
           (<["hidden_weights_delta" := 7 + next s]>
           (<["hidden_delta" := 6 + next s]>
           (<["output_bias_delta" := 5 + next s]>
           (<["output_weights_delta" := 4 + next s]> (vars s2))))))
          (model s) (test_loss s) (train_loss s) (libs s).

Definition output_weights_delta_r : matrix :=
  Np.bcast Rplus (ncols hw) (ncols ow) output_weights_delta_v
    (Np.scale regularization ow).
Definition hidden_weights_delta_r : matrix :=
  Np.bcast Rplus (ncols X) (nrows ow) hidden_weights_delta_v
    (Np.scale regularization hw).

Definition regularized_state (s : pystate world) : pystate world :=
  let s3 := backward_state s in
  set_heap (<[7 + next s := Arr2 hidden_weights_delta_r]>
            (<[4 + next s := Arr2 output_weights_delta_r]> (heap s3))) s3.

Definition output_weights_u : matrix :=
  Np.bcast Rplus (nrows ow) (ncols ow) ow
    (Np.scale (- learning_rate) output_weights_delta_r).
Definition output_bias_u : matrix :=
  Np.bcast Rplus (nrows ob) (ncols ob) ob
    (Np.scale (- learning_rate) output_bias_delta_v).
Definition hidden_weights_u : matrix :=
  Np.bcast Rplus (nrows hw) (ncols hw) hw
    (Np.scale (- learning_rate) hidden_weights_delta_r).
Definition hidden_bias_u : matrix :=
  Np.bcast Rplus (nrows hb) (ncols hb) hb
    (Np.as_row (Np.vscale (- learning_rate) hidden_bias_delta_v)).

(** The location a name refers to. *)
Definition loc_of (s : pystate world) (x : string) : nat :=
  default O (vars s !! x).

Definition updated_state (s : pystate world) : pystate world :=
  let s4 := regularized_state s in
  set_heap (<[loc_of s "hidden_bias" := Arr2 hidden_bias_u]>
            (<[loc_of s "hidden_weights" := Arr2 hidden_weights_u]>
            (<[loc_of s "output_bias" := Arr2 output_bias_u]>
            (<[loc_of s "output_weights" := Arr2 output_weights_u]>
            (heap s4))))) s4.

End Stages.

(** ** The objective of the updates *)

(** The summed cross-entropy of the forward pass plus the regularization
    term of [cross_entropy], not yet divided by the number of examples. *)
Definition regularized_objective (X : matrix) (Y : list Z) (regularization : R)
    (hw hb ow ob : matrix) : R :=
  (summed_cross_entropy X Y hw hb ow ob +
   regularization / 2 * (Np.sum (Np.square hw) + Np.sum (Np.square ow)))%R.


(** ** The loop of [build_model]

    The state after the dictionary [model] is rebuilt, what the
    statements of the loop leave alone, and the store that the statements
    before the loop leave. *)

Section Loop.
Context {world : Type}.
Variables (Y : list Z) (X hw hb ow ob : matrix).
Variables (regularization learning_rate : R).

(** The dictionary built after the update, as references and as arrays. *)
Definition rebuilt_model (s : pystate world) : gmap string nat :=
  <["OB" := loc_of s "output_bias"]>
  (<["OW" := loc_of s "output_weights"]>
  (<["HB" := loc_of s "hidden_bias"]>
  (<["HW" := loc_of s "hidden_weights"]> ∅))).

Definition updated_model : gmap string matrix :=
  <["OB" := output_bias_u Y X hw hb ow ob learning_rate]>
  (<["OW" := output_weights_u Y X hw hb ow ob regularization learning_rate]>
  (<["HB" := hidden_bias_u Y X hw hb ow ob learning_rate]>
  (<["HW" := hidden_weights_u Y X hw hb ow ob regularization learning_rate]>
     ∅))).

Definition rebuilt_state (s : pystate world) : pystate world :=
  set_model (rebuilt_model s)
    (updated_state Y X hw hb ow ob regularization learning_rate s).

End Loop.

Section Frames.
Context {world : Type}.

(** A computation that leaves the two loss histories as they are. *)
Definition keeps_losses {A} (c : M world A) : Prop :=
  forall s a s', c s = Ok (a, s') ->
    test_loss s' = test_loss s /\ train_loss s' = train_loss s.

(** A computation that changes the state of the libraries at most. *)
Definition only_libs {A} (c : M world A) : Prop :=
  forall s a s', c s = Ok (a, s') -> s' = set_libs (libs s') s.

(** The arrays made before the loop are the objects [b], ..., [b + 5],
    and the test points are [Xt]. *)
Record loop_store (b : nat) (Xt : matrix) (s : pystate world) : Prop :=
  LoopStore {
    ls_X_train : vars s !! "X_train" = Some b;
    ls_X_test : vars s !! "X_test" = Some (1 + b);
    ls_hidden_weights : vars s !! "hidden_weights" = Some (2 + b);
    ls_hidden_bias : vars s !! "hidden_bias" = Some (3 + b);
    ls_output_weights : vars s !! "output_weights" = Some (4 + b);
    ls_output_bias : vars s !! "output_bias" = Some (5 + b);
    ls_test : heap s !! (1 + b) = Some (Arr2 Xt);
    ls_next : 6 + b <= next s
  }.

(** The arrays and the names that the statements before the loop add to
    a store whose next object is [b]. *)
Definition setup_heap (b : nat) (X Xt hw ow : matrix) (h k : nat)
    (hp : gmap nat ndarray) : gmap nat ndarray :=
  <[5 + b := Arr2 (zeros 1 k)]>
  (<[4 + b := Arr2 ow]>
  (<[3 + b := Arr2 (zeros 1 h)]>
  (<[2 + b := Arr2 hw]>
  (<[1 + b := Arr2 Xt]>
  (<[b := Arr2 X]> hp))))).

Definition setup_vars (b : nat) (v : gmap string nat) : gmap string nat :=
  <["output_bias" := 5 + b]>
  (<["output_weights" := 4 + b]>
  (<["hidden_bias" := 3 + b]>
  (<["hidden_weights" := 2 + b]>
  (<["X_test" := 1 + b]>
  (<["X_train" := b]> v))))).

End Frames.

(** ** A call of [build_model]

    One training point and the same test point with two features and the
    label 1, one hidden unit and two classes.  The data sets are given as
    the arrays that [extract_data] returns, [randn] draws zeros, the
    plotting calls return the handles that are unpacked and draw nothing,
    [predict] is the one of the small training state.  [state] is the
    store that the statements before the loop leave in a call that starts
    with an empty store. *)

Module Call.

Definition X : matrix := Matrix 1 2 (fun _ _ => 1%R).
Definition Y : list Z := [1%Z].
Definition hw : matrix := Matrix 2 1 (fun _ _ => 0%R).
Definition ow : matrix := Matrix 1 2 (fun _ _ => 0%R).
Definition extract_data (d : matrix * list Z) : exc (matrix * list Z) := Ok d.
Definition randn (w : unit) : (nat -> nat -> R) * unit := (fun _ _ => 0%R, w).
Definition plotting (c : plot_call unit) (w : unit) : exc (list unit * unit) :=
  match c with
  | MeshGrid _ => Ok ([tt; tt], w)
  | Subplots => Ok ([tt; tt; tt; tt], w)
  | _ => Ok ([], w)
  end.
Definition plot_due (i epochs : nat) : bool := (i =? epochs)%nat.
(** A [predict] that returns the probabilities of the forward pass for
    the parameters of [state], and one that fails. *)
Definition forward_predict (m : gmap string matrix) (x : matrix)
  : exc matrix :=
  Ok (Matrix (nrows x) 2 (prob x hw (zeros 1 1) ow (zeros 1 2))).
Definition no_predict (m : gmap string matrix) (x : matrix) : exc matrix :=
  Raise (LibraryError 1).
Definition fig : figure unit := Figure unit tt tt tt tt tt tt tt.
Definition start : pystate unit := PyState ∅ 0 ∅ ∅ [] [] tt.
Definition state : pystate unit :=
  PyState (setup_heap 0 X X hw ow 1 2 ∅) 6 (setup_vars 0 ∅) ∅ [] [] tt.

End Call.

(** ** The mini-batch loop of the notebook on Keras

    The cell of [4.FFN_Intro_Keras.ipynb] that trains the TensorFlow
    graph, from [batch_size = 100] to the end of its loop over the epochs
    (the import before and the plot after are left out):
<<
batch_size = 100
num_epochs = 100
num_samples_train = x_train.shape[0]
num_batches_train = num_samples_train // batch_size
num_samples_valid = x_valid.shape[0]
num_batches_valid = num_samples_valid // batch_size
train_acc, train_loss = [], []
valid_acc, valid_loss = [], []
test_acc, test_loss = [], []
cur_loss = 0
loss = []
for epoch in range(num_epochs):
    cur_loss = 0
    for i in range(num_batches_train):
        idx = range(i * batch_size, (i + 1) * batch_size)
        x_batch = x_train[idx]
        target_batch = targets_train[idx]
        feed_dict_train = {input_placeholder: x_batch,
                           target_placeholder: utils.onehot(target_batch, num_classes)}
        fetches_train = [train_op, loss_tn]
        _, batch_loss  = sess.run(fetches=fetches_train, feed_dict=feed_dict_train)
        cur_loss += batch_loss
    loss.append(cur_loss / batch_size)
    confusion_valid = ConfusionMatrix(num_classes)
    confusion_train = ConfusionMatrix(num_classes)
    for i in range(num_batches_train):
        idx = range(i * batch_size, (i + 1) * batch_size)
        x_batch = x_train[idx]
        targets_batch = targets_train[idx]
        feed_dict_eval_train = {...}
        fetches_eval_train = [output]
        res = sess.run(fetches=fetches_eval_train, feed_dict=feed_dict_eval_train)
        net_out = res[0]
        preds = np.argmax(net_out, axis=-1)
        confusion_train.batch_add(targets_batch, preds)
    confusion_valid = ConfusionMatrix(num_classes)
    for i in range(num_batches_valid):
        (the same with x_valid, targets_valid and confusion_valid)
    train_acc_cur = confusion_train.accuracy()
    valid_acc_cur = confusion_valid.accuracy()
    train_acc += [train_acc_cur]
    valid_acc += [valid_acc_cur]
    print("Epoch %i : Train Loss %e , Train acc %f,  Valid acc %f "
          % (epoch+1, loss[-1], train_acc_cur, valid_acc_cur))
    if epoch % (num_epochs - 10) == 0:
        clear_output()
>>
    The arrays enter by their lengths; a batch is given by the indices of
    its rows.  The graph, [utils.onehot], the confusion matrices and the
    output area are outside the notebook: what is called there is a
    [session_call], answered by the parameter [session]. *)

Module Minibatch.

Inductive session_call : Type :=
(** [sess.run([train_op, loss_tn], ...)] on a batch: the value of
    [loss_tn]. *)
| TrainStep (x_batch target_batch : list nat)
(** [sess.run([output], ...)], [np.argmax] and [batch_add] on a batch of
    the training ([true]) or of the validation data. *)
| Evaluate (train : bool) (x_batch targets_batch : list nat)
(** [ConfusionMatrix(num_classes)] *)
| NewConfusion (train : bool)
(** [confusion.accuracy()] *)
| Accuracy (train : bool)
| Print (epoch : nat) (loss train_acc valid_acc : R)
| ClearOutput.

(** The lists of the cell that the loop appends to. *)
Record histories : Type := Histories {
  loss : list R;
  train_acc : list R;
  valid_acc : list R
}.

(** [a // b] of two integers *)
Definition floordiv (a b : nat) : exc nat :=
  if (b =? 0)%nat then Raise ZeroDivisionError else Ok (a / b).

(** [a % b] of two integers: the sign of the result is that of [b]. *)
Definition pymod (a b : Z) : exc Z :=
  if (b =? 0)%Z then Raise ZeroDivisionError else Ok (a mod b)%Z.

(** [range(start, stop)] *)
Definition range (start stop : nat) : list nat := seq start (stop - start).

(** [a[idx]] for an array with [n] rows and a sequence of indices: the
    rows taken, by their indices. *)
Definition take (n : nat) (idx : list nat) : exc (list nat) :=
  if forallb (fun j => j <? n) idx then Ok idx else Raise IndexError.

Section Cell.
Variable world : Type.
Variable session : session_call -> world -> exc (R * world).

Local Open Scope exc_scope.

(** The first inner loop, from batch [i] on. *)
Fixpoint train_batches (n m batch_size : nat) (batches : list nat)
    (cur_loss : R) (w : world) : exc (R * world) :=
  match batches with
  | [] => Ok (cur_loss, w)
  | i :: rest =>
      let idx := range (i * batch_size) ((i + 1) * batch_size) in
      do x_batch <- take n idx;
      do target_batch <- take m idx;
      do r <- session (TrainStep x_batch target_batch) w;
      train_batches n m batch_size rest (cur_loss + fst r)%R (snd r)
  end.

(** The second and the third inner loop. *)
Fixpoint evaluate_batches (train : bool) (n m batch_size : nat)
    (batches : list nat) (w : world) : exc world :=
  match batches with
  | [] => Ok w
  | i :: rest =>
      let idx := range (i * batch_size) ((i + 1) * batch_size) in
      do x_batch <- take n idx;
      do targets_batch <- take m idx;
      do r <- session (Evaluate train x_batch targets_batch) w;
      evaluate_batches train n m batch_size rest (snd r)
  end.

(** The lengths of [x_train], [targets_train], [x_valid] and
    [targets_valid], and the numbers that the cell computes before the
    loop. *)
Record sizes : Type := Sizes {
  num_samples_train : nat;
  num_targets_train : nat;
  num_samples_valid : nat;
  num_targets_valid : nat;
  batch_size : nat;
  num_epochs : nat;
  num_batches_train : nat;
  num_batches_valid : nat
}.

(** The body of [for epoch in range(num_epochs)]. *)
Definition epoch_body (z : sizes) (epoch : nat) (s : histories * world)
  : exc (histories * world) :=
  let h := fst s in
  do r <- train_batches (num_samples_train z) (num_targets_train z)
            (batch_size z) (seq 0 (num_batches_train z)) 0%R (snd s);
  let cur_loss := fst r in
  (* [batch_size] is not 0 here: the cell has divided by it before the
     loop *)
  let loss := (loss h ++ [cur_loss / INR (batch_size z)])%list%R in
  do c <- session (NewConfusion false) (snd r);
  do c <- session (NewConfusion true) (snd c);
  do w <- evaluate_batches true (num_samples_train z) (num_targets_train z)
            (batch_size z) (seq 0 (num_batches_train z)) (snd c);
  do c <- session (NewConfusion false) w;
  do w <- evaluate_batches false (num_samples_valid z) (num_targets_valid z)
            (batch_size z) (seq 0 (num_batches_valid z)) (snd c);
  do train_acc_cur <- session (Accuracy true) w;
  do valid_acc_cur <- session (Accuracy false) (snd train_acc_cur);
  let train_acc := (train_acc h ++ [fst train_acc_cur])%list in
  let valid_acc := (valid_acc h ++ [fst valid_acc_cur])%list in
  do p <- session (Print (epoch + 1) (List.last loss 0%R) (fst train_acc_cur)
                     (fst valid_acc_cur)) (snd valid_acc_cur);
  do r <- pymod (Z.of_nat epoch) (Z.of_nat (num_epochs z) - 10);
  do w <- (if (r =? 0)%Z then
             do c <- session ClearOutput (snd p); Ok (snd c)
           else Ok (snd p));
  Ok (Histories loss train_acc valid_acc, w).

Fixpoint for_epochs (z : sizes) (epochs : list nat) (s : histories * world)
  : exc (histories * world) :=
  match epochs with
  | [] => Ok s
  | epoch :: rest =>
      do s' <- epoch_body z epoch s;
      for_epochs z rest s'
  end.

(** The cell, for arrays of these lengths. *)
Definition training_cell
    (n_train m_train n_valid m_valid batch_size num_epochs : nat) (w : world)
  : exc (histories * world) :=
  do num_batches_train <- floordiv n_train batch_size;
  do num_batches_valid <- floordiv n_valid batch_size;
  for_epochs
    (Sizes n_train m_train n_valid m_valid batch_size num_epochs
       num_batches_train num_batches_valid)
    (seq 0 num_epochs) (Histories [] [] [], w).

End Cell.

(** A graph for a run of the cell: every call returns, and every training
    step reports the loss [l]. *)
Definition steady (l : R) (c : session_call) (w : unit) : exc (R * unit) :=
  Ok (l, w).

End Minibatch.

(** ** The picture of the first digits in the notebook on Keras

    The end of the cell of [4.FFN_Intro_Keras.ipynb] that loads MNIST
    puts examples of [x_train], an array with one row of pixels for every
    example, on a canvas:
<<
idx = 0
canvas = np.zeros((28*10, 10*28))
for i in range(10):
    for j in range(10):
        canvas[i*28:(i+1)*28, j*28:(j+1)*28] = x_train[idx].reshape((28, 28))
        idx += 1
>>
*)

Module Canvas.

Local Open Scope exc_scope.

(** [a[idx]] for an array of two dimensions and an integer that is not
    negative *)
Definition row (a : matrix) (idx : nat) : exc vector :=
  if idx <? nrows a then Ok (Vector (ncols a) (fun j => item a idx j))
  else Raise IndexError.

(** [v.reshape((r, c))] *)
Definition reshape (v : vector) (r c : nat) : exc matrix :=
  if vlen v =? r * c then Ok (Matrix r c (fun a b => vitem v (a * c + b)))
  else Raise ValueError.

(** The slice [start:stop] of an axis of length [n], for bounds that are
    not negative: where it starts and how long it is. *)
Definition slice_start (start n : nat) : nat := Nat.min start n.
Definition slice_len (start stop n : nat) : nat :=
  Nat.min stop n - Nat.min start n.

(** An axis of length [d] can be repeated to the length [len]. *)
Definition fits (d len : nat) : bool := (d =? len) || (d =? 1).

(** [a[r0:r1, c0:c1] = b]: [b] is broadcast to the shape of the slice. *)
Definition set_slice (a : matrix) (r0 r1 c0 c1 : nat) (b : matrix)
  : exc matrix :=
  let h := slice_len r0 r1 (nrows a) in
  let w := slice_len c0 c1 (ncols a) in
  let r0 := slice_start r0 (nrows a) in
  let c0 := slice_start c0 (ncols a) in
  if fits (nrows b) h && fits (ncols b) w then
    Ok (Matrix (nrows a) (ncols a) (fun r c =>
          if (r0 <=? r) && (r <? r0 + h) && (c0 <=? c) && (c <? c0 + w)
          then item b (Np.bidx (nrows b) (r - r0)) (Np.bidx (ncols b) (c - c0))
          else item a r c))
  else Raise ValueError.

(** The inner loop, from column [j] on; the state is [canvas] and
    [idx]. *)
Fixpoint columns (x_train : matrix) (i : nat) (js : list nat)
    (s : matrix * nat) : exc (matrix * nat) :=
  match js with
  | [] => Ok s
  | j :: rest =>
      do v <- row x_train (snd s);
      do image <- reshape v 28 28;
      do canvas <- set_slice (fst s) (i * 28) ((i + 1) * 28)
                     (j * 28) ((j + 1) * 28) image;
      columns x_train i rest (canvas, snd s + 1)
  end.

Fixpoint rows (x_train : matrix) (rest_i : list nat) (s : matrix * nat)
  : exc (matrix * nat) :=
  match rest_i with
  | [] => Ok s
  | i :: rest =>
      do s' <- columns x_train i (seq 0 10) s;
      rows x_train rest s'
  end.

(** The statements above: [canvas] and [idx] at the end. *)
Definition tile (x_train : matrix) : exc (matrix * nat) :=
  rows x_train (seq 0 10) (zeros (28 * 10) (10 * 28), 0).

End Canvas.

(** The canvas when the first [t] examples have been put on it, the tiles
    row by row: the pixel in row [r] and column [c] belongs to the tile
    number 10 * (r // 28) + c // 28. *)
Definition shown (x_train : matrix) (t : nat) (canvas : matrix) : Prop :=
  nrows canvas = 280 /\ ncols canvas = 280 /\
  forall r c, r < 280 -> c < 280 ->
    item canvas r c =
      if 10 * (r / 28) + c / 28 <? t
      then item x_train (10 * (r / 28) + c / 28) (28 * (r mod 28) + c mod 28)
      else 0%R.

(** ** Sums *)

Section Sums.
Local Open Scope R_scope.

Lemma rsum_ext n f g :
  (forall k, (k < n)%nat -> f k = g k) -> rsum n f = rsum n g.
Proof.
  induction n as [|n IH]; intros H; simpl; [reflexivity|].
  rewrite IH by (intros; apply H; lia). rewrite H by lia. reflexivity.
Qed.

Lemma rsum_nonneg n f :
  (forall k, (k < n)%nat -> 0 <= f k) -> 0 <= rsum n f.
Proof.
  induction n as [|n IH]; intros H; simpl; [lra|].
  assert (0 <= rsum n f) by (apply IH; intros; apply H; lia).
  assert (0 <= f n) by (apply H; lia). lra.
Qed.

Lemma rsum_pos n f :
  (0 < n)%nat -> (forall k, (k < n)%nat -> 0 < f k) -> 0 < rsum n f.
Proof.
  intros Hn H. destruct n as [|n]; [lia|]. simpl.
  assert (0 <= rsum n f).
  { apply rsum_nonneg. intros k Hk. apply Rlt_le, H. lia. }
  assert (0 < f n) by (apply H; lia). lra.
Qed.

Lemma rsum_scal n f c : rsum n (fun k => f k * c) = rsum n f * c.
Proof. induction n as [|n IH]; simpl; [lra|]. rewrite IH. lra. Qed.

Lemma rsum_scal_l n f c : rsum n (fun k => c * f k) = c * rsum n f.
Proof. induction n as [|n IH]; simpl; [lra|]. rewrite IH. lra. Qed.

Lemma rsum_plus n f g :
  rsum n (fun k => f k + g k) = rsum n f + rsum n g.
Proof. induction n as [|n IH]; simpl; [lra|]. rewrite IH. lra. Qed.

Lemma rsum_minus n f g :
  rsum n (fun k => f k - g k) = rsum n f - rsum n g.
Proof. induction n as [|n IH]; simpl; [lra|]. rewrite IH. lra. Qed.

Lemma rsum_zero n : rsum n (fun _ => 0) = 0.
Proof. induction n as [|n IH]; simpl; [lra|]. rewrite IH. lra. Qed.

(** A sum with one nonzero term. *)
Lemma rsum_single n c (f : nat -> R) :
  rsum n (fun k => if (k =? c)%nat then f k else 0) =
  if (c <? n)%nat then f c else 0.
Proof.
  induction n as [|n IH]; simpl; [reflexivity|]. rewrite IH.
  destruct (Nat.eqb_spec n c) as [->|Hne].
  - rewrite (proj2 (Nat.ltb_ge c c)) by lia.
    rewrite (proj2 (Nat.ltb_lt c (S c))) by lia. lra.
  - destruct (Nat.ltb_spec c n), (Nat.ltb_spec c (S n)); try lia; lra.
Qed.

Lemma rsum_swap n m (f : nat -> nat -> R) :
  rsum n (fun i => rsum m (fun j => f i j)) =
  rsum m (fun j => rsum n (fun i => f i j)).
Proof.
  induction n as [|n IH]; simpl.
  - symmetry. apply rsum_zero.
  - rewrite IH. symmetry. apply rsum_plus.
Qed.

End Sums.

(** ** Shapes and broadcasting *)

Lemma bidx_lt d i : i < d -> Np.bidx d i = i.
Proof.
  intros H. unfold Np.bidx. destruct (Nat.eqb_spec d 1); [lia|reflexivity].
Qed.

Lemma bidx_one i : Np.bidx 1 i = 0.
Proof. reflexivity. Qed.

Lemma bdim_same d : Np.bdim d d = Some d.
Proof. unfold Np.bdim. rewrite Nat.eqb_refl. reflexivity. Qed.

Lemma bdim_one_r d : Np.bdim d 1 = Some d.
Proof.
  unfold Np.bdim. destruct (Nat.eqb_spec d 1) as [->|]; [reflexivity|].
  reflexivity.
Qed.

Lemma bdim_one_l d : Np.bdim 1 d = Some d.
Proof.
  unfold Np.bdim. destruct (Nat.eqb_spec 1 d) as [<-|]; reflexivity.
Qed.

(** ** softmax returns a probability distribution per row *)

Section Softmax.
Local Open Scope R_scope.

Lemma softmax_ok values :
  softmax values =
  Ok (Matrix (nrows values) (ncols values) (fun i j =>
        Rtrigo_def.exp (item values (Np.bidx (nrows values) i)
                                    (Np.bidx (ncols values) j)) /
        rsum (ncols values) (fun k =>
          Rtrigo_def.exp (item values (Np.bidx (nrows values) i) k)))).
Proof.
  unfold softmax, Np.divide, Np.broadcast. simpl.
  rewrite bdim_same, bdim_one_r. reflexivity.
Qed.






End Softmax.


(** ** Shapes of the results of the NumPy operations *)

Lemma dot_ok a b :
  ncols a = nrows b -> Np.dot a b = Ok (Np.matmul a b).
Proof. intros H. unfold Np.dot. rewrite H, Nat.eqb_refl. reflexivity. Qed.

(** (r, c) with (1, c): the row is repeated. *)
Lemma add_row_ok a b :
  nrows b = 1 -> ncols b = ncols a ->
  Np.add a b = Ok (Np.bcast Rplus (nrows a) (ncols a) a b).
Proof.
  intros Hr Hc. unfold Np.add, Np.broadcast.
  rewrite Hr, Hc, bdim_one_r, bdim_same. reflexivity.
Qed.

Lemma multiply_same_ok a b :
  nrows b = nrows a -> ncols b = ncols a ->
  Np.multiply a b = Ok (Np.bcast Rmult (nrows a) (ncols a) a b).
Proof.
  intros Hr Hc. unfold Np.multiply, Np.broadcast.
  rewrite Hr, Hc, !bdim_same. reflexivity.
Qed.

Lemma iadd_same_ok a b :
  nrows b = nrows a -> ncols b = ncols a ->
  Np.iadd a b = Ok (Np.bcast Rplus (nrows a) (ncols a) a b).
Proof.
  intros Hr Hc. unfold Np.iadd, Np.broadcast.
  rewrite Hr, Hc, !bdim_same. simpl. rewrite !Nat.eqb_refl. reflexivity.
Qed.

Lemma bcast_item op r c a b i j :
  nrows a = r -> ncols a = c -> i < r -> j < c ->
  item (Np.bcast op r c a b) i j =
  op (item a i j) (item b (Np.bidx (nrows b) i) (Np.bidx (ncols b) j)).
Proof.
  intros Hr Hc Hi Hj. simpl. rewrite !bidx_lt by lia. reflexivity.
Qed.

(** ** Running the statements of an epoch *)

Section Run.
Context {world : Type}.
Implicit Types (s : pystate world) (x : string) (l : nat).

Lemma bind_ok {A B} (c : M world A) (k : A -> M world B) s a s' :
  c s = Ok (a, s') -> bind c k s = k a s'.
Proof. intros H. unfold bind. rewrite H. reflexivity. Qed.

Lemma bind_raise {A B} (c : M world A) (k : A -> M world B) s e :
  c s = Raise e -> bind c k s = Raise e.
Proof. intros H. unfold bind. rewrite H. reflexivity. Qed.

Lemma lift_ok {A} (c : exc A) a s : c = Ok a -> lift c s = Ok (a, s).
Proof. intros ->. reflexivity. Qed.

Lemma getvar_ok x l s : vars s !! x = Some l -> getvar x s = Ok (l, s).
Proof. intros H. unfold getvar. rewrite H. reflexivity. Qed.

Lemma load_ok x l v s :
  vars s !! x = Some l -> heap s !! l = Some v -> load x s = Ok (v, s).
Proof.
  intros Hx Hl. unfold load. rewrite (bind_ok _ _ _ _ _ (getvar_ok _ _ _ Hx)).
  unfold deref. rewrite Hl. reflexivity.
Qed.

Lemma load_matrix_ok x l m s :
  vars s !! x = Some l -> heap s !! l = Some (Arr2 m) ->
  load_matrix x s = Ok (m, s).
Proof.
  intros Hx Hl. unfold load_matrix.
  rewrite (bind_ok _ _ _ _ _ (load_ok _ _ _ _ Hx Hl)). reflexivity.
Qed.

Lemma load_vector_ok x l v s :
  vars s !! x = Some l -> heap s !! l = Some (Arr1 v) ->
  load_vector x s = Ok (v, s).
Proof.
  intros Hx Hl. unfold load_vector.
  rewrite (bind_ok _ _ _ _ _ (load_ok _ _ _ _ Hx Hl)). reflexivity.
Qed.

Lemma assign_ok x v s :
  assign x v s =
  Ok (tt, PyState (<[next s := v]> (heap s)) (S (next s))
            (<[x := next s]> (vars s)) (model s) (test_loss s)
            (train_loss s) (libs s)).
Proof. reflexivity. Qed.

Lemma write_ok x l v s :
  vars s !! x = Some l ->
  write x v s = Ok (tt, set_heap (<[l := v]> (heap s)) s).
Proof.
  intros Hx. unfold write. rewrite (bind_ok _ _ _ _ _ (getvar_ok _ _ _ Hx)).
  reflexivity.
Qed.

Lemma array_at_inv s x v :
  array_at s x = Some v ->
  exists l, vars s !! x = Some l /\ heap s !! l = Some v.
Proof.
  unfold array_at. destruct (vars s !! x) as [l|]; [|discriminate].
  intros H. exists l. split; [reflexivity|assumption].
Qed.

End Run.

(** ** Labels as column indices *)

Lemma index_in_range K y :
  (- Z.of_nat K <= y < Z.of_nat K)%Z -> Np.index K y = Ok (column_of K y).
Proof.
  intros Hy. unfold column_of, Np.index.
  destruct (0 <=? y)%Z eqn:E0, (y <? Z.of_nat K)%Z eqn:E1; simpl;
    try reflexivity.
  - lia.
  - destruct (- Z.of_nat K <=? y)%Z eqn:E2, (y <? 0)%Z eqn:E3; simpl;
      try reflexivity; lia.
  - lia.
Qed.

Lemma column_of_lt K y :
  (- Z.of_nat K <= y < Z.of_nat K)%Z -> column_of K y < K.
Proof.
  intros Hy. unfold column_of, Np.index.
  destruct (0 <=? y)%Z eqn:E0, (y <? Z.of_nat K)%Z eqn:E1; simpl; try lia.
  destruct (- Z.of_nat K <=? y)%Z eqn:E2, (y <? 0)%Z eqn:E3; simpl; lia.
Qed.

Lemma indices_ok K Y :
  Forall (fun y => (- Z.of_nat K <= y < Z.of_nat K)%Z) Y ->
  indices K Y = Ok (List.map (column_of K) Y).
Proof.
  induction 1 as [|y Y Hy _ IH]; simpl; [reflexivity|].
  rewrite (index_in_range _ _ Hy). simpl. rewrite IH. reflexivity.
Qed.

Lemma label_lt K Y i :
  Forall (fun y => (- Z.of_nat K <= y < Z.of_nat K)%Z) Y ->
  i < length Y -> label K Y i < K.
Proof.
  intros HF Hi. unfold label.
  destruct (Y !! i) as [y|] eqn:E.
  - apply column_of_lt. rewrite Forall_forall in HF. apply HF.
    eapply list_elem_of_lookup_2, E.
  - apply lookup_ge_None in E. lia.
Qed.

(** The positions [(a, c_a), (a + 1, c_(a+1)), ...] hold (i, j) exactly
    when [j] is the column paired with [i]. *)
Lemma selected_zip_seq (cs : list nat) a i j :
  selected (zip (seq a (length cs)) cs) i j =
  ((a <=? i)%nat && match cs !! (i - a) with
                     | Some c => (c =? j)%nat
                     | None => false
                     end).
Proof.
  revert a. induction cs as [|c cs IH]; intros a.
  - simpl. rewrite andb_false_r. reflexivity.
  - change (selected (zip (seq a (length (c :: cs))) (c :: cs)) i j)
      with (((a =? i)%nat && (c =? j)%nat)
            || selected (zip (seq (S a) (length cs)) cs) i j).
    rewrite IH.
    destruct (Nat.eqb_spec a i) as [->|Hne].
    + rewrite Nat.sub_diag, Nat.leb_refl.
      replace (S i <=? i) with false by (symmetry; apply Nat.leb_gt; lia).
      change ((c :: cs) !! 0) with (Some c).
      destruct (c =? j); reflexivity.
    + destruct (Nat.leb_spec (S a) i), (Nat.leb_spec a i);
        try lia; try reflexivity.
      replace (i - a) with (S (i - S a)) by lia. reflexivity.
Qed.

Lemma selected_labels K Y i j :
  selected (zip (seq 0 (length Y)) (List.map (column_of K) Y)) i j =
  match Y !! i with
  | Some _ => (label K Y i =? j)%nat
  | None => false
  end.
Proof.
  rewrite <- (length_map (column_of K) Y) at 1.
  rewrite selected_zip_seq. simpl. rewrite Nat.sub_0_r.
  unfold label. rewrite list_lookup_fmap.
  destruct (Y !! i); reflexivity.
Qed.

Lemma fancy_isub_ok a N Y x :
  nrows a = N -> length Y = N ->
  Forall (fun y => (- Z.of_nat (ncols a) <= y < Z.of_nat (ncols a))%Z) Y ->
  fancy_isub a N Y x =
  Ok (Matrix (nrows a) (ncols a)
        (fun i j =>
           if selected (zip (seq 0 N) (List.map (column_of (ncols a)) Y)) i j
           then (item a i j - x)%R else item a i j)).
Proof.
  intros Hr HY HF. unfold fancy_isub, fancy_positions.
  rewrite (indices_ok _ _ HF). simpl.
  rewrite Hr, Nat.leb_refl, HY, Nat.eqb_refl. reflexivity.
Qed.

Lemma fancy_get_ok a Y :
  length Y <= nrows a ->
  Forall (fun y => (- Z.of_nat (ncols a) <= y < Z.of_nat (ncols a))%Z) Y ->
  exists v, fancy_get a (length Y) Y = Ok v /\ vlen v = length Y /\
    forall i, i < length Y -> vitem v i = item a i (label (ncols a) Y i).
Proof.
  intros Hr HF. unfold fancy_get, fancy_positions.
  rewrite (indices_ok _ _ HF). simpl.
  rewrite (proj2 (Nat.leb_le _ _) Hr), Nat.eqb_refl. simpl.
  eexists. split; [reflexivity|]. simpl.
  assert (HL : length (zip (seq 0 (length Y)) (List.map (column_of (ncols a)) Y))
               = length Y).
  { rewrite length_zip_with, length_seq, length_map. lia. }
  split; [exact HL|]. intros i Hi.
  assert (Hn : zip (seq 0 (length Y)) (List.map (column_of (ncols a)) Y) !! i
               = Some (i, label (ncols a) Y i)).
  { rewrite lookup_zip_with, lookup_seq_lt by lia. simpl.
    rewrite list_lookup_fmap. unfold label.
    destruct (Y !! i) eqn:E; [reflexivity|].
    apply lookup_ge_None in E. lia. }
  rewrite (nth_lookup_Some _ _ _ _ Hn). reflexivity.
Qed.

(** ** The blocks of an epoch compute the stage states *)

Ltac proj :=
  cbn [heap next vars model test_loss train_loss libs
       set_heap set_vars set_model set_libs].
Ltac stages :=
  unfold updated_state, regularized_state, backward_state, targets_state,
    forward_state.
Ltac look_vars :=
  stages; proj;
  repeat first [rewrite lookup_insert_eq | rewrite lookup_insert_ne by done];
  first [eassumption | reflexivity].
Ltac look_heap :=
  stages; proj;
  repeat first [rewrite lookup_insert_eq | rewrite lookup_insert_ne by lia];
  first [eassumption | reflexivity].
Ltac step_load :=
  erewrite bind_ok by (eapply load_matrix_ok; [look_vars | look_heap]).
Ltac step_assign := rewrite (bind_ok _ _ _ _ _ (assign_ok _ _ _)).
Ltac step_write := erewrite bind_ok by (eapply write_ok; look_vars).
Ltac step_lift tac := erewrite bind_ok by (apply lift_ok; tac).

Section Epoch.
Context {world : Type}.
Implicit Types (s : pystate world) (Y : list Z) (X hw hb ow ob : matrix).

(** The five arrays of a training state, where they are stored. *)
Lemma training_state_locs Y X hw hb ow ob s :
  training_state Y X hw hb ow ob s ->
  exists lX lhw lhb low lob,
    (vars s !! "X_train" = Some lX /\ heap s !! lX = Some (Arr2 X)) /\
    (vars s !! "hidden_weights" = Some lhw /\ heap s !! lhw = Some (Arr2 hw)) /\
    (vars s !! "hidden_bias" = Some lhb /\ heap s !! lhb = Some (Arr2 hb)) /\
    (vars s !! "output_weights" = Some low /\ heap s !! low = Some (Arr2 ow)) /\
    (vars s !! "output_bias" = Some lob /\ heap s !! lob = Some (Arr2 ob)) /\
    (lX < next s /\ lhw < next s /\ lhb < next s /\ low < next s /\
     lob < next s) /\
    (lX <> lhw /\ lX <> lhb /\ lX <> low /\ lX <> lob /\ lhw <> lhb /\
     lhw <> low /\ lhw <> lob /\ lhb <> low /\ lhb <> lob /\ low <> lob).
Proof.
  intros [HX Hhw Hhb How Hob Hsep Hal _ _ _ _ _ _].
  apply array_at_inv in HX as (lX & VX & HX).
  apply array_at_inv in Hhw as (lhw & Vhw & Hhw).
  apply array_at_inv in Hhb as (lhb & Vhb & Hhb).
  apply array_at_inv in How as (low & Vow & How).
  apply array_at_inv in Hob as (lob & Vob & Hob).
  exists lX, lhw, lhb, low, lob.
  pose proof (Hal _ _ VX). pose proof (Hal _ _ Vhw). pose proof (Hal _ _ Vhb).
  pose proof (Hal _ _ Vow). pose proof (Hal _ _ Vob). simpl in *.
  rewrite VX, Vhw, Vhb, Vow, Vob in Hsep.
  repeat match goal with
         | H : NoDup (_ :: _) |- _ => apply NoDup_cons in H as [? ?]
         end.
  repeat match goal with
         | H : _ ∉ _ :: _ |- _ => apply not_elem_of_cons in H as [? ?]
         end.
  repeat split; try assumption; congruence.
Qed.

Lemma forward_run Y X hw hb ow ob s :
  training_state Y X hw hb ow ob s ->
  forward_propagation s = Ok (tt, forward_state X hw hb ow ob s).
Proof.
  intros T.
  destruct (training_state_locs _ _ _ _ _ _ _ T)
    as (lX & lhw & lhb & low & lob & [VX HX] & [Vhw Hhw] & [Vhb Hhb] &
        [Vow How] & [Vob Hob] & Hlt & Hne).
  destruct T as [_ _ _ _ _ _ _ Shw [Shb1 Shb2] Sow [Sob1 Sob2] _ _].
  unfold forward_propagation.
  step_load. step_load. step_lift ltac:(apply dot_ok; lia).
  step_load. step_lift ltac:(apply add_row_ok; simpl; lia).
  step_assign. step_load. step_assign. step_load. step_load.
  step_lift ltac:(apply dot_ok; simpl; lia).
  step_load. step_lift ltac:(apply add_row_ok; simpl; lia).
  step_assign. step_load. step_lift ltac:(apply softmax_ok).
  rewrite assign_ok. reflexivity.
Qed.

Lemma targets_run Y X hw hb ow ob s :
  training_state Y X hw hb ow ob s ->
  bind share_probs (fun _ => subtract_targets Y)
    (forward_state X hw hb ow ob s) =
  Ok (tt, targets_state Y X hw hb ow ob s).
Proof.
  intros T.
  destruct (training_state_locs _ _ _ _ _ _ _ T)
    as (lX & lhw & lhb & low & lob & [VX HX] & [Vhw Hhw] & [Vhb Hhb] &
        [Vow How] & [Vob Hob] & Hlt & Hne).
  destruct T as [_ _ _ _ _ _ _ Shw [Shb1 Shb2] Sow [Sob1 Sob2] HY HL].
  unfold share_probs, subtract_targets.
  erewrite bind_ok.
  2:{ erewrite bind_ok by (apply getvar_ok; look_vars). reflexivity. }
  step_load. step_load.
  step_lift ltac:(apply fancy_isub_ok; [reflexivity|exact HY|exact HL]).
  erewrite write_ok by look_vars. reflexivity.
Qed.

Lemma deltas_run Y X hw hb ow ob s :
  training_state Y X hw hb ow ob s ->
  parameter_deltas (targets_state Y X hw hb ow ob s) =
  Ok (tt, backward_state Y X hw hb ow ob s).
Proof.
  intros T.
  destruct (training_state_locs _ _ _ _ _ _ _ T)
    as (lX & lhw & lhb & low & lob & [VX HX] & [Vhw Hhw] & [Vhb Hhb] &
        [Vow How] & [Vob Hob] & Hlt & Hne).
  destruct T as [_ _ _ _ _ _ _ Shw [Shb1 Shb2] Sow [Sob1 Sob2] HY HL].
  unfold parameter_deltas.
  step_load. step_load. step_lift ltac:(apply dot_ok; reflexivity).
  step_assign. step_load. step_assign. step_load. step_load.
  step_lift ltac:(apply dot_ok; reflexivity).
  step_load. step_lift ltac:(apply multiply_same_ok; simpl; lia).
  step_assign. step_load. step_load.
  step_lift ltac:(apply dot_ok; reflexivity).
  step_assign. step_load.
  rewrite assign_ok. reflexivity.
Qed.

Lemma backward_run Y X hw hb ow ob s :
  training_state Y X hw hb ow ob s ->
  backpropagation Y (forward_state X hw hb ow ob s) =
  Ok (tt, backward_state Y X hw hb ow ob s).
Proof.
  intros T. unfold backpropagation.
  pose proof (targets_run _ _ _ _ _ _ _ T) as Ht.
  unfold bind in Ht |- *.
  destruct (share_probs (forward_state X hw hb ow ob s)) as [[[] s1]|];
    [|discriminate].
  rewrite Ht. apply deltas_run, T.
Qed.

Lemma regularize_run Y X hw hb ow ob regularization s :
  training_state Y X hw hb ow ob s ->
  add_regularization regularization (backward_state Y X hw hb ow ob s) =
  Ok (tt, regularized_state Y X hw hb ow ob regularization s).
Proof.
  intros T.
  destruct (training_state_locs _ _ _ _ _ _ _ T)
    as (lX & lhw & lhb & low & lob & [VX HX] & [Vhw Hhw] & [Vhb Hhb] &
        [Vow How] & [Vob Hob] & Hlt & Hne).
  destruct T as [_ _ _ _ _ _ _ Shw [Shb1 Shb2] Sow [Sob1 Sob2] HY HL].
  unfold add_regularization.
  step_load. step_load. step_lift ltac:(apply iadd_same_ok; simpl; lia).
  step_write. step_load. step_load.
  step_lift ltac:(apply iadd_same_ok; simpl; lia).
  erewrite write_ok by look_vars. reflexivity.
Qed.

Lemma update_run Y X hw hb ow ob regularization learning_rate s :
  training_state Y X hw hb ow ob s ->
  update_weights learning_rate
    (regularized_state Y X hw hb ow ob regularization s) =
  Ok (tt, updated_state Y X hw hb ow ob regularization learning_rate s).
Proof.
  intros T.
  destruct (training_state_locs _ _ _ _ _ _ _ T)
    as (lX & lhw & lhb & low & lob & [VX HX] & [Vhw Hhw] & [Vhb Hhb] &
        [Vow How] & [Vob Hob] & Hlt & Hne).
  destruct T as [_ _ _ _ _ _ _ Shw [Shb1 Shb2] Sow [Sob1 Sob2] HY HL].
  unfold update_weights.
  step_load. step_load. step_lift ltac:(apply iadd_same_ok; simpl; lia).
  step_write. step_load. step_load.
  step_lift ltac:(apply iadd_same_ok; simpl; lia).
  step_write. step_load. step_load.
  step_lift ltac:(apply iadd_same_ok; simpl; lia).
  step_write. step_load.
  erewrite bind_ok by (eapply load_vector_ok; [look_vars | look_heap]).
  step_lift ltac:(apply iadd_same_ok; simpl; lia).
  erewrite write_ok by look_vars.
  unfold updated_state, loc_of. rewrite Vhw, Vhb, Vow, Vob. reflexivity.
Qed.

End Epoch.

(** ** Derivatives *)

Section Calculus.
Local Open Scope R_scope.

Lemma D_ext (f g : R -> R) x l :
  (forall t, f t = g t) -> derivable_pt_lim f x l -> derivable_pt_lim g x l.
Proof.
  intros E H eps Heps. destruct (H eps Heps) as [d Hd]. exists d.
  intros h Hh Hlt. rewrite <- !E. apply Hd; assumption.
Qed.

Lemma D_value (f : R -> R) x l l' :
  l = l' -> derivable_pt_lim f x l -> derivable_pt_lim f x l'.
Proof. intros ->. exact (fun H => H). Qed.

Lemma D_const c x : derivable_pt_lim (fun _ => c) x 0.
Proof. apply (derivable_pt_lim_const c x). Qed.

Lemma D_id x : derivable_pt_lim (fun t => t) x 1.
Proof. apply (derivable_pt_lim_id x). Qed.

Lemma D_plus (f g : R -> R) x l1 l2 :
  derivable_pt_lim f x l1 -> derivable_pt_lim g x l2 ->
  derivable_pt_lim (fun t => f t + g t) x (l1 + l2).
Proof. intros Hf Hg. apply (derivable_pt_lim_plus f g x l1 l2 Hf Hg). Qed.

Lemma D_minus (f g : R -> R) x l1 l2 :
  derivable_pt_lim f x l1 -> derivable_pt_lim g x l2 ->
  derivable_pt_lim (fun t => f t - g t) x (l1 - l2).
Proof. intros Hf Hg. apply (derivable_pt_lim_minus f g x l1 l2 Hf Hg). Qed.

Lemma D_opp (f : R -> R) x l :
  derivable_pt_lim f x l -> derivable_pt_lim (fun t => - f t) x (- l).
Proof. intros Hf. apply (derivable_pt_lim_opp f x l Hf). Qed.

Lemma D_scal_l (f : R -> R) c x l :
  derivable_pt_lim f x l -> derivable_pt_lim (fun t => c * f t) x (c * l).
Proof. intros Hf. apply (derivable_pt_lim_scal f c x l Hf). Qed.

Lemma D_scal_r (f : R -> R) c x l :
  derivable_pt_lim f x l -> derivable_pt_lim (fun t => f t * c) x (l * c).
Proof.
  intros Hf. apply (D_ext (fun t => c * f t)); [intros; ring|].
  apply (D_value _ _ (c * l)); [ring|]. apply D_scal_l, Hf.
Qed.

Lemma D_comp (f g : R -> R) x l1 l2 :
  derivable_pt_lim f x l1 -> derivable_pt_lim g (f x) l2 ->
  derivable_pt_lim (fun t => g (f t)) x (l2 * l1).
Proof. intros Hf Hg. apply (derivable_pt_lim_comp f g x l1 l2 Hf Hg). Qed.

Lemma D_rsum n (f : R -> nat -> R) (l : nat -> R) x :
  (forall k, (k < n)%nat -> derivable_pt_lim (fun t => f t k) x (l k)) ->
  derivable_pt_lim (fun t => rsum n (f t)) x (rsum n l).
Proof.
  induction n as [|n IH]; intros H; simpl.
  - apply D_const.
  - apply D_plus; [apply IH; intros; apply H; lia | apply H; lia].
Qed.

Lemma cosh_pos x : 0 < cosh x.
Proof.
  unfold cosh. pose proof (exp_pos x). pose proof (exp_pos (- x)). lra.
Qed.

Lemma cosh2_sinh2 x : cosh x * cosh x - sinh x * sinh x = 1.
Proof.
  unfold cosh, sinh.
  replace ((exp x + exp (- x)) / 2 * ((exp x + exp (- x)) / 2) -
           (exp x - exp (- x)) / 2 * ((exp x - exp (- x)) / 2))
    with (exp x * exp (- x)) by field.
  rewrite <- exp_plus, Rplus_opp_r. apply exp_0.
Qed.

Lemma D_tanh x :
  derivable_pt_lim Rtrigo_def.tanh x
    (1 - Rtrigo_def.tanh x * Rtrigo_def.tanh x).
Proof.
  pose proof (cosh_pos x) as Hc.
  apply (D_value _ _ ((cosh x * cosh x - sinh x * sinh x) / (cosh x)²)).
  - unfold Rtrigo_def.tanh, Rsqr. field. lra.
  - apply (derivable_pt_lim_div sinh cosh x (cosh x) (sinh x)).
    + apply derivable_pt_lim_sinh.
    + apply derivable_pt_lim_cosh.
    + lra.
Qed.

(** The loss of one example as a function of its output values: if the
    output value of class [c] moves with derivative [s' c], the negative
    log-probability of the target class [y] moves with the derivative
    sum over [c] of (p_c - [c = y]) * s'_c. *)
Lemma D_softmax_loss K (y : nat) (sc : R -> nat -> R) (s' : nat -> R) x :
  (y < K)%nat ->
  (forall c, (c < K)%nat -> derivable_pt_lim (fun t => sc t c) x (s' c)) ->
  derivable_pt_lim
    (fun t => - ln (exp (sc t y) / rsum K (fun c => exp (sc t c)))) x
    (rsum K (fun c =>
       (exp (sc x c) / rsum K (fun c' => exp (sc x c')) -
        (if (y =? c)%nat then 1 else 0)) * s' c)).
Proof.
  intros Hy Hs.
  set (S := fun t => rsum K (fun c => exp (sc t c))).
  assert (HSpos : forall t, 0 < S t).
  { intros t. apply rsum_pos; [lia|]. intros. apply exp_pos. }
  assert (DS : derivable_pt_lim S x (rsum K (fun c => exp (sc x c) * s' c))).
  { apply (D_rsum K (fun t c => exp (sc t c))). intros c Hc.
    apply (D_comp (fun t => sc t c) exp); [apply Hs, Hc|].
    apply derivable_pt_lim_exp. }
  assert (DE : derivable_pt_lim (fun t => exp (sc t y)) x
                 (exp (sc x y) * s' y)).
  { apply (D_comp (fun t => sc t y) exp); [apply Hs, Hy|].
    apply derivable_pt_lim_exp. }
  pose proof (HSpos x) as HSx. pose proof (exp_pos (sc x y)) as HEx.
  apply (D_value _ _
    (- (/ (exp (sc x y) / S x) *
        ((exp (sc x y) * s' y * S x -
          rsum K (fun c => exp (sc x c) * s' c) * exp (sc x y)) / (S x)²)))).
  - transitivity
      (rsum K (fun c => exp (sc x c) * s' c) / S x - s' y).
    + unfold Rsqr. field. split; lra.
    + symmetry.
      rewrite (rsum_ext _ _ (fun c => exp (sc x c) * s' c * / S x -
                               (if (c =? y)%nat then s' c else 0))).
      * rewrite rsum_minus, rsum_scal, rsum_single.
        rewrite (proj2 (Nat.ltb_lt y K) Hy). reflexivity.
      * intros c Hc. fold (S x). rewrite (Nat.eqb_sym y c).
        destruct (c =? y)%nat; field; lra.
  - apply D_opp.
    apply (D_comp (fun t => exp (sc t y) / S t) ln).
    + apply (derivable_pt_lim_div (fun t => exp (sc t y)) S x _ _ DE DS). lra.
    + apply derivable_pt_lim_ln. apply Rdiv_lt_0_compat; assumption.
Qed.

End Calculus.

(** ** The arrays of an epoch, entry by entry *)

Ltac bidx_in_range :=
  repeat match goal with
         | |- context [Np.bidx ?d ?i] =>
             rewrite (bidx_lt d i) by (simpl in *; lia)
         end.

Section Entries.
Local Open Scope R_scope.
Variables (Y : list Z) (X hw hb ow ob : matrix).
Hypothesis shape_hb : nrows hb = 1%nat /\ ncols hb = ncols hw.
Hypothesis shape_ow : nrows ow = ncols hw.
Hypothesis shape_ob : nrows ob = 1%nat /\ ncols ob = ncols ow.
Hypothesis length_Y : length Y = nrows X.
Hypothesis labels_Y :
  Forall (fun y => (- Z.of_nat (ncols ow) <= y < Z.of_nat (ncols ow))%Z) Y.

Lemma hidden_activations_item i j :
  (i < nrows X)%nat -> (j < ncols hw)%nat ->
  item (hidden_activations_v X hw hb) i j = hidden X hw hb i j.
Proof.
  intros Hi Hj. destruct shape_hb as [Hr Hc].
  unfold hidden_activations_v, hidden_values_v, hidden. simpl.
  rewrite Hr, Hc, bidx_one. bidx_in_range. reflexivity.
Qed.

Lemma output_values_item i c :
  (i < nrows X)%nat -> (c < ncols ow)%nat ->
  item (output_values_v X hw hb ow ob) i c = scores X hw hb ow ob i c.
Proof.
  intros Hi Hc. destruct shape_ob as [Hr Hcb].
  unfold output_values_v, scores.
  rewrite bcast_item by (simpl; lia || reflexivity).
  rewrite Hr, Hcb, bidx_one. bidx_in_range.
  f_equal. simpl Np.matmul. cbn [item ncols Np.tanh Np.map hidden_values_v Np.bcast].
  apply rsum_ext. intros j Hj.
  rewrite <- (hidden_activations_item i j Hi Hj). reflexivity.
Qed.

Lemma probs_item i c :
  (i < nrows X)%nat -> (c < ncols ow)%nat ->
  item (probs_v X hw hb ow ob) i c = prob X hw hb ow ob i c.
Proof.
  intros Hi Hc. unfold probs_v, prob.
  rewrite bcast_item by (simpl; lia || reflexivity).
  cbn [Np.sum_axis1_keepdims Np.exp Np.map item nrows ncols].
  cbn [output_values_v Np.bcast nrows]. bidx_in_range.
  change (Np.bcast Rplus (nrows X) (ncols ow)
            (Np.matmul (hidden_activations_v X hw hb) ow) ob)
    with (output_values_v X hw hb ow ob).
  rewrite (output_values_item i c Hi Hc). f_equal.
  apply rsum_ext. intros c' Hc'. simpl in Hc'.
  rewrite (output_values_item i c' Hi Hc'). reflexivity.
Qed.

Lemma output_delta_item i c :
  (i < nrows X)%nat -> (c < ncols ow)%nat ->
  item (output_delta_v Y X hw hb ow ob) i c =
  prob X hw hb ow ob i c - one_hot (ncols ow) Y i c.
Proof.
  intros Hi Hc. unfold output_delta_v. cbn [item].
  rewrite <- length_Y, selected_labels. rewrite (probs_item i c Hi Hc).
  unfold one_hot. destruct (Y !! i) eqn:E.
  - destruct (label (ncols ow) Y i =? c)%nat; lra.
  - apply lookup_ge_None in E. lia.
Qed.

Lemma output_weights_delta_item a b :
  item (output_weights_delta_v Y X hw hb ow ob) a b =
  rsum (nrows X) (fun i =>
    item (hidden_activations_v X hw hb) i a *
    item (output_delta_v Y X hw hb ow ob) i b).
Proof. reflexivity. Qed.

Lemma output_bias_delta_item i b :
  item (output_bias_delta_v Y X hw hb ow ob) i b =
  rsum (nrows X) (fun i => item (output_delta_v Y X hw hb ow ob) i b).
Proof. reflexivity. Qed.

Lemma hidden_delta_item i j :
  (i < nrows X)%nat -> (j < ncols hw)%nat ->
  item (hidden_delta_v Y X hw hb ow ob) i j =
  rsum (ncols ow) (fun c =>
    item (output_delta_v Y X hw hb ow ob) i c * item ow j c) *
  (1 - item (hidden_activations_v X hw hb) i j *
       item (hidden_activations_v X hw hb) i j).
Proof.
  intros Hi Hj. unfold hidden_delta_v.
  rewrite bcast_item by (simpl; lia || reflexivity).
  cbn [Np.one_minus Np.power2 Np.map nrows ncols item
       hidden_activations_v Np.tanh hidden_values_v Np.bcast].
  bidx_in_range. reflexivity.
Qed.

Lemma hidden_weights_delta_item a b :
  item (hidden_weights_delta_v Y X hw hb ow ob) a b =
  rsum (nrows X) (fun i =>
    item X i a * item (hidden_delta_v Y X hw hb ow ob) i b).
Proof. reflexivity. Qed.

Lemma hidden_bias_delta_item b :
  vitem (hidden_bias_delta_v Y X hw hb ow ob) b =
  rsum (nrows X) (fun i => item (hidden_delta_v Y X hw hb ow ob) i b).
Proof. reflexivity. Qed.

End Entries.

(** ** The gradient of the summed cross-entropy *)

Section Gradient.
Local Open Scope R_scope.
Variables (Y : list Z) (X hw hb ow ob : matrix).
Hypothesis length_Y : length Y = nrows X.
Hypothesis labels_Y :
  Forall (fun y => (- Z.of_nat (ncols ow) <= y < Z.of_nat (ncols ow))%Z) Y.

(** The derivative of one entry of an array in the entry that moves. *)
Lemma D_with_item (m : matrix) a b i j x :
  derivable_pt_lim (fun t => item (with_item m a b t) i j) x
    (if ((i =? a) && (j =? b))%nat then 1 else 0).
Proof.
  simpl. destruct ((i =? a) && (j =? b))%nat; [apply D_id | apply D_const].
Qed.

Lemma with_item_same (m : matrix) a b i j :
  item (with_item m a b (item m a b)) i j = item m i j.
Proof.
  simpl. destruct (Nat.eqb_spec i a) as [->|]; [|reflexivity].
  destruct (Nat.eqb_spec j b) as [->|]; reflexivity.
Qed.

Lemma hidden_same_hw a b i j :
  hidden X (with_item hw a b (item hw a b)) hb i j = hidden X hw hb i j.
Proof.
  unfold hidden. f_equal. f_equal. apply rsum_ext. intros k _.
  rewrite with_item_same. reflexivity.
Qed.

Lemma hidden_same_hb a b i j :
  hidden X hw (with_item hb a b (item hb a b)) i j = hidden X hw hb i j.
Proof. unfold hidden. rewrite with_item_same. reflexivity. Qed.

Lemma scores_same_hw a b i c :
  scores X (with_item hw a b (item hw a b)) hb ow ob i c =
  scores X hw hb ow ob i c.
Proof.
  unfold scores. f_equal. apply rsum_ext. intros j _.
  rewrite hidden_same_hw. reflexivity.
Qed.

Lemma scores_same_hb a b i c :
  scores X hw (with_item hb a b (item hb a b)) ow ob i c =
  scores X hw hb ow ob i c.
Proof.
  unfold scores. f_equal. apply rsum_ext. intros j _.
  rewrite hidden_same_hb. reflexivity.
Qed.

Lemma scores_same_ow a b i c :
  scores X hw hb (with_item ow a b (item ow a b)) ob i c =
  scores X hw hb ow ob i c.
Proof.
  unfold scores. f_equal. apply rsum_ext. intros j _.
  rewrite with_item_same. reflexivity.
Qed.

Lemma scores_same_ob a b i c :
  scores X hw hb ow (with_item ob a b (item ob a b)) i c =
  scores X hw hb ow ob i c.
Proof. unfold scores. rewrite with_item_same. reflexivity. Qed.

(** How the output values move with one entry of each parameter. *)
Lemma D_scores_ow a b i c :
  (a < ncols hw)%nat ->
  derivable_pt_lim
    (fun t => scores X hw hb (with_item ow a b t) ob i c) (item ow a b)
    (if (c =? b)%nat then hidden X hw hb i a else 0).
Proof.
  intros Ha. unfold scores.
  apply (D_value _ _
    (rsum (ncols hw) (fun j =>
       hidden X hw hb i j * (if ((j =? a) && (c =? b))%nat then 1 else 0))
     + 0)).
  - rewrite Rplus_0_r.
    rewrite (rsum_ext _ _ (fun j => if (j =? a)%nat
               then hidden X hw hb i j * (if (c =? b)%nat then 1 else 0)
               else 0)).
    + rewrite rsum_single, (proj2 (Nat.ltb_lt _ _) Ha).
      destruct (c =? b)%nat; ring.
    + intros j _. destruct (j =? a)%nat; simpl; ring.
  - apply D_plus; [|apply D_const].
    apply (D_rsum _ (fun t j =>
             hidden X hw hb i j * item (with_item ow a b t) j c)).
    intros j _. apply D_scal_l, D_with_item.
Qed.

Lemma D_scores_ob b i c :
  derivable_pt_lim
    (fun t => scores X hw hb ow (with_item ob 0 b t) i c) (item ob 0 b)
    (if (c =? b)%nat then 1 else 0).
Proof.
  unfold scores.
  apply (D_value _ _ (0 + (if ((0 =? 0) && (c =? b))%nat then 1 else 0))).
  - simpl. ring.
  - apply D_plus; [apply D_const | apply D_with_item].
Qed.

Lemma D_hidden_hw a b i j :
  (a < ncols X)%nat ->
  derivable_pt_lim (fun t => hidden X (with_item hw a b t) hb i j)
    (item hw a b)
    ((1 - hidden X hw hb i j * hidden X hw hb i j) *
     (if (j =? b)%nat then item X i a else 0)).
Proof.
  intros Ha. unfold hidden.
  set (z := fun t =>
    rsum (ncols X) (fun k => item X i k * item (with_item hw a b t) k j) +
    item hb 0 j).
  assert (Hz : z (item hw a b) =
               rsum (ncols X) (fun k => item X i k * item hw k j) + item hb 0 j).
  { unfold z. f_equal. apply rsum_ext. intros k _.
    rewrite with_item_same. reflexivity. }
  rewrite <- Hz.
  apply (D_comp z Rtrigo_def.tanh); [|apply D_tanh].
  apply (D_value _ _
    (rsum (ncols X) (fun k =>
       item X i k * (if ((k =? a) && (j =? b))%nat then 1 else 0)) + 0)).
  - rewrite Rplus_0_r.
    rewrite (rsum_ext _ _ (fun k => if (k =? a)%nat
               then item X i k * (if (j =? b)%nat then 1 else 0) else 0)).
    + rewrite rsum_single, (proj2 (Nat.ltb_lt _ _) Ha).
      destruct (j =? b)%nat; ring.
    + intros k _. destruct (k =? a)%nat; simpl; ring.
  - unfold z. apply D_plus; [|apply D_const].
    apply (D_rsum _ (fun t k => item X i k * item (with_item hw a b t) k j)).
    intros k _. apply D_scal_l, D_with_item.
Qed.

Lemma D_hidden_hb b i j :
  derivable_pt_lim (fun t => hidden X hw (with_item hb 0 b t) i j)
    (item hb 0 b)
    ((1 - hidden X hw hb i j * hidden X hw hb i j) *
     (if (j =? b)%nat then 1 else 0)).
Proof.
  unfold hidden.
  set (z := fun t =>
    rsum (ncols X) (fun k => item X i k * item hw k j) +
    item (with_item hb 0 b t) 0 j).
  assert (Hz : z (item hb 0 b) =
               rsum (ncols X) (fun k => item X i k * item hw k j) + item hb 0 j).
  { unfold z. rewrite with_item_same. reflexivity. }
  rewrite <- Hz.
  apply (D_comp z Rtrigo_def.tanh); [|apply D_tanh].
  apply (D_value _ _ (0 + (if ((0 =? 0) && (j =? b))%nat then 1 else 0))).
  - simpl. ring.
  - unfold z. apply D_plus; [apply D_const | apply D_with_item].
Qed.

Lemma D_scores_hw a b i c :
  (a < ncols X)%nat -> (b < ncols hw)%nat ->
  derivable_pt_lim
    (fun t => scores X (with_item hw a b t) hb ow ob i c) (item hw a b)
    ((1 - hidden X hw hb i b * hidden X hw hb i b) * item X i a * item ow b c).
Proof.
  intros Ha Hb. unfold scores.
  apply (D_ext (fun t =>
    rsum (ncols hw) (fun j =>
      hidden X (with_item hw a b t) hb i j * item ow j c) + item ob 0 c));
    [intros; reflexivity|].
  apply (D_value _ _
    (rsum (ncols hw) (fun j =>
       (1 - hidden X hw hb i j * hidden X hw hb i j) *
       (if (j =? b)%nat then item X i a else 0) * item ow j c) + 0)).
  - rewrite Rplus_0_r.
    rewrite (rsum_ext _ _ (fun j => if (j =? b)%nat
               then (1 - hidden X hw hb i j * hidden X hw hb i j) *
                    item X i a * item ow j c
               else 0)).
    + rewrite rsum_single, (proj2 (Nat.ltb_lt _ _) Hb). reflexivity.
    + intros j _. destruct (j =? b)%nat; ring.
  - apply D_plus; [|apply D_const].
    apply (D_rsum _ (fun t j =>
             hidden X (with_item hw a b t) hb i j * item ow j c)).
    intros j _. apply D_scal_r, D_hidden_hw, Ha.
Qed.

Lemma D_scores_hb b i c :
  (b < ncols hw)%nat ->
  derivable_pt_lim
    (fun t => scores X hw (with_item hb 0 b t) ow ob i c) (item hb 0 b)
    ((1 - hidden X hw hb i b * hidden X hw hb i b) * item ow b c).
Proof.
  intros Hb. unfold scores.
  apply (D_value _ _
    (rsum (ncols hw) (fun j =>
       (1 - hidden X hw hb i j * hidden X hw hb i j) *
       (if (j =? b)%nat then 1 else 0) * item ow j c) + 0)).
  - rewrite Rplus_0_r.
    rewrite (rsum_ext _ _ (fun j => if (j =? b)%nat
               then (1 - hidden X hw hb i j * hidden X hw hb i j) * item ow j c
               else 0)).
    + rewrite rsum_single, (proj2 (Nat.ltb_lt _ _) Hb). reflexivity.
    + intros j _. destruct (j =? b)%nat; ring.
  - apply D_plus; [|apply D_const].
    apply (D_rsum _ (fun t j =>
             hidden X hw (with_item hb 0 b t) i j * item ow j c)).
    intros j _. apply D_scal_r, D_hidden_hb.
Qed.

(** The summed loss of all the examples when the output values move. *)
Lemma D_loss (sc : R -> nat -> nat -> R) (s' : nat -> nat -> R) x :
  (forall i c, (i < nrows X)%nat -> (c < ncols ow)%nat ->
     derivable_pt_lim (fun t => sc t i c) x (s' i c)) ->
  derivable_pt_lim
    (fun t => rsum (nrows X) (fun i =>
       - ln (exp (sc t i (label (ncols ow) Y i)) /
             rsum (ncols ow) (fun c => exp (sc t i c))))) x
    (rsum (nrows X) (fun i => rsum (ncols ow) (fun c =>
       (exp (sc x i c) / rsum (ncols ow) (fun c' => exp (sc x i c')) -
        one_hot (ncols ow) Y i c) * s' i c))).
Proof.
  intros Hs.
  apply (D_rsum _ (fun t i =>
    - ln (exp (sc t i (label (ncols ow) Y i)) /
          rsum (ncols ow) (fun c => exp (sc t i c))))).
  intros i Hi. unfold one_hot.
  apply (D_softmax_loss (ncols ow) (label (ncols ow) Y i)
           (fun t c => sc t i c) (s' i)).
  - apply label_lt; [exact labels_Y | lia].
  - intros c Hc. apply Hs; assumption.
Qed.

(** The loss at the parameters as they are. *)
Lemma loss_value (sc : nat -> nat -> R) i c :
  (forall i c, sc i c = scores X hw hb ow ob i c) ->
  exp (sc i c) / rsum (ncols ow) (fun c' => exp (sc i c')) =
  prob X hw hb ow ob i c.
Proof.
  intros E. unfold prob. rewrite E. f_equal.
  apply rsum_ext. intros c' _. rewrite E. reflexivity.
Qed.

Lemma gradient_output_weights a b :
  (a < ncols hw)%nat -> (b < ncols ow)%nat ->
  derivable_pt_lim
    (fun t => summed_cross_entropy X Y hw hb (with_item ow a b t) ob)
    (item ow a b)
    (rsum (nrows X) (fun i =>
       hidden X hw hb i a *
       (prob X hw hb ow ob i b - one_hot (ncols ow) Y i b))).
Proof.
  intros Ha Hb.
  apply (D_value _ _ (rsum (nrows X) (fun i => rsum (ncols ow) (fun c =>
    (exp (scores X hw hb (with_item ow a b (item ow a b)) ob i c) /
     rsum (ncols ow) (fun c' =>
       exp (scores X hw hb (with_item ow a b (item ow a b)) ob i c')) -
     one_hot (ncols ow) Y i c) *
    (if (c =? b)%nat then hidden X hw hb i a else 0))))).
  - apply rsum_ext. intros i _.
    rewrite (rsum_ext _ _ (fun c => if (c =? b)%nat
      then (prob X hw hb ow ob i c - one_hot (ncols ow) Y i c) *
           hidden X hw hb i a
      else 0)).
    + rewrite rsum_single, (proj2 (Nat.ltb_lt _ _) Hb). ring.
    + intros c _.
      rewrite (loss_value
        (scores X hw hb (with_item ow a b (item ow a b)) ob) i c)
        by (intros; apply scores_same_ow).
      destruct (c =? b)%nat; ring.
  - apply (D_loss (fun t i c => scores X hw hb (with_item ow a b t) ob i c)).
    intros i c _ _. apply D_scores_ow, Ha.
Qed.

Lemma gradient_output_bias b :
  (b < ncols ow)%nat ->
  derivable_pt_lim
    (fun t => summed_cross_entropy X Y hw hb ow (with_item ob 0 b t))
    (item ob 0 b)
    (rsum (nrows X) (fun i =>
       prob X hw hb ow ob i b - one_hot (ncols ow) Y i b)).
Proof.
  intros Hb.
  apply (D_value _ _ (rsum (nrows X) (fun i => rsum (ncols ow) (fun c =>
    (exp (scores X hw hb ow (with_item ob 0 b (item ob 0 b)) i c) /
     rsum (ncols ow) (fun c' =>
       exp (scores X hw hb ow (with_item ob 0 b (item ob 0 b)) i c')) -
     one_hot (ncols ow) Y i c) *
    (if (c =? b)%nat then 1 else 0))))).
  - apply rsum_ext. intros i _.
    rewrite (rsum_ext _ _ (fun c => if (c =? b)%nat
      then prob X hw hb ow ob i c - one_hot (ncols ow) Y i c else 0)).
    + rewrite rsum_single, (proj2 (Nat.ltb_lt _ _) Hb). reflexivity.
    + intros c _.
      rewrite (loss_value
        (scores X hw hb ow (with_item ob 0 b (item ob 0 b))) i c)
        by (intros; apply scores_same_ob).
      destruct (c =? b)%nat; ring.
  - apply (D_loss (fun t i c => scores X hw hb ow (with_item ob 0 b t) i c)).
    intros i c _ _. apply D_scores_ob.
Qed.

Lemma gradient_hidden_weights a b :
  (a < ncols X)%nat -> (b < ncols hw)%nat ->
  derivable_pt_lim
    (fun t => summed_cross_entropy X Y (with_item hw a b t) hb ow ob)
    (item hw a b)
    (rsum (nrows X) (fun i =>
       item X i a *
       (rsum (ncols ow) (fun c =>
          (prob X hw hb ow ob i c - one_hot (ncols ow) Y i c) * item ow b c) *
        (1 - hidden X hw hb i b * hidden X hw hb i b)))).
Proof.
  intros Ha Hb.
  apply (D_value _ _ (rsum (nrows X) (fun i => rsum (ncols ow) (fun c =>
    (exp (scores X (with_item hw a b (item hw a b)) hb ow ob i c) /
     rsum (ncols ow) (fun c' =>
       exp (scores X (with_item hw a b (item hw a b)) hb ow ob i c')) -
     one_hot (ncols ow) Y i c) *
    ((1 - hidden X hw hb i b * hidden X hw hb i b) * item X i a *
     item ow b c))))).
  - apply rsum_ext. intros i _.
    rewrite (rsum_ext _ _ (fun c =>
      (prob X hw hb ow ob i c - one_hot (ncols ow) Y i c) * item ow b c *
      ((1 - hidden X hw hb i b * hidden X hw hb i b) * item X i a))).
    + rewrite rsum_scal. ring.
    + intros c _.
      rewrite (loss_value
        (scores X (with_item hw a b (item hw a b)) hb ow ob) i c)
        by (intros; apply scores_same_hw).
      ring.
  - apply (D_loss (fun t i c => scores X (with_item hw a b t) hb ow ob i c)).
    intros i c _ _. apply D_scores_hw; assumption.
Qed.

Lemma gradient_hidden_bias b :
  (b < ncols hw)%nat ->
  derivable_pt_lim
    (fun t => summed_cross_entropy X Y hw (with_item hb 0 b t) ow ob)
    (item hb 0 b)
    (rsum (nrows X) (fun i =>
       rsum (ncols ow) (fun c =>
         (prob X hw hb ow ob i c - one_hot (ncols ow) Y i c) * item ow b c) *
       (1 - hidden X hw hb i b * hidden X hw hb i b))).
Proof.
  intros Hb.
  apply (D_value _ _ (rsum (nrows X) (fun i => rsum (ncols ow) (fun c =>
    (exp (scores X hw (with_item hb 0 b (item hb 0 b)) ow ob i c) /
     rsum (ncols ow) (fun c' =>
       exp (scores X hw (with_item hb 0 b (item hb 0 b)) ow ob i c')) -
     one_hot (ncols ow) Y i c) *
    ((1 - hidden X hw hb i b * hidden X hw hb i b) * item ow b c))))).
  - apply rsum_ext. intros i _.
    rewrite (rsum_ext _ _ (fun c =>
      (prob X hw hb ow ob i c - one_hot (ncols ow) Y i c) * item ow b c *
      (1 - hidden X hw hb i b * hidden X hw hb i b))).
    + rewrite rsum_scal. reflexivity.
    + intros c _.
      rewrite (loss_value
        (scores X hw (with_item hb 0 b (item hb 0 b)) ow ob) i c)
        by (intros; apply scores_same_hb).
      ring.
  - apply (D_loss (fun t i c => scores X hw (with_item hb 0 b t) ow ob i c)).
    intros i c _ _. apply D_scores_hb; assumption.
Qed.

End Gradient.

(** ** What every epoch computes *)

Section EpochClaims.
Context {world : Type}.
Implicit Types (s : pystate world) (Y : list Z) (X hw hb ow ob : matrix).
Local Open Scope R_scope.

Lemma array_at_intro s x l v :
  vars s !! x = Some l -> heap s !! l = Some v -> array_at s x = Some v.
Proof. intros Hx Hl. unfold array_at. rewrite Hx. exact Hl. Qed.


(** The first blocks of an epoch, one after the other. *)
Lemma epoch_blocks_run Y X hw hb ow ob regularization learning_rate s :
  training_state Y X hw hb ow ob s ->
  forward_propagation s = Ok (tt, forward_state X hw hb ow ob s) /\
  bind forward_propagation (fun _ => backpropagation Y) s =
    Ok (tt, backward_state Y X hw hb ow ob s) /\
  bind forward_propagation (fun _ =>
    bind (backpropagation Y) (fun _ => add_regularization regularization)) s =
    Ok (tt, regularized_state Y X hw hb ow ob regularization s) /\
  bind forward_propagation (fun _ =>
    bind (backpropagation Y) (fun _ =>
      bind (add_regularization regularization) (fun _ =>
        update_weights learning_rate))) s =
    Ok (tt, updated_state Y X hw hb ow ob regularization learning_rate s).
Proof.
  intros T.
  pose proof (forward_run _ _ _ _ _ _ _ T) as H1.
  pose proof (backward_run _ _ _ _ _ _ _ T) as H2.
  pose proof (regularize_run _ _ _ _ _ _ regularization _ T) as H3.
  pose proof (update_run _ _ _ _ _ _ regularization learning_rate _ T) as H4.
  repeat split.
  - exact H1.
  - rewrite (bind_ok _ _ _ _ _ H1). exact H2.
  - rewrite (bind_ok _ _ _ _ _ H1), (bind_ok _ _ _ _ _ H2). exact H3.
  - rewrite (bind_ok _ _ _ _ _ H1), (bind_ok _ _ _ _ _ H2),
      (bind_ok _ _ _ _ _ H3). exact H4.
Qed.





End EpochClaims.

(** ** The cost function *)

Section CrossEntropy.
Variable predict : gmap string matrix -> matrix -> exc matrix.
Local Open Scope R_scope.


End CrossEntropy.

(** ** Every epoch of [build_model] starts in a training state *)

Section Frame.
Context {world handle : Type}.
Implicit Types (s : pystate world).

Lemma bind_inv {A B} (c : M world A) (k : A -> M world B) s b s' :
  bind c k s = Ok (b, s') ->
  exists a s1, c s = Ok (a, s1) /\ k a s1 = Ok (b, s').
Proof.
  unfold bind. destruct (c s) as [[a s1]|e]; [|discriminate].
  intros H. exists a, s1. split; [reflexivity | exact H].
Qed.

Lemma keeps_bind {A B} (c : M world A) (k : A -> M world B) :
  keeps_store c -> (forall a, keeps_store (k a)) -> keeps_store (bind c k).
Proof.
  intros Hc Hk s b s' H. apply bind_inv in H as (a & s1 & H1 & H2).
  destruct (Hc _ _ _ H1) as (E1 & E2 & E3).
  destruct (Hk a _ _ _ H2) as (F1 & F2 & F3).
  repeat split; congruence.
Qed.

Lemma keeps_ret {A} (a : A) : keeps_store (world := world) (ret a).
Proof. intros s a' s' [= _ <-]. repeat split. Qed.

Lemma keeps_lift {A} (c : exc A) : keeps_store (world := world) (lift c).
Proof.
  intros s x s'. unfold lift. destruct c as [y|e]; [|discriminate].
  intros [= _ <-]. repeat split.
Qed.

Lemma keeps_getvar x : keeps_store (world := world) (getvar x).
Proof.
  intros s a s'. unfold getvar. destruct (vars s !! x); [|discriminate].
  intros [= _ <-]. repeat split.
Qed.

Lemma keeps_load_matrix x : keeps_store (world := world) (load_matrix x).
Proof.
  unfold load_matrix, load. apply keeps_bind.
  - apply keeps_bind; [apply keeps_getvar|]. intros l s a s'. unfold deref.
    destruct (heap s !! l); [|discriminate]. intros [= _ <-]. repeat split.
  - intros [v|m]; [apply keeps_lift | apply keeps_ret].
Qed.

Lemma keeps_load_model : keeps_store (world := world) load_model.
Proof. intros s a s' [= _ <-]. repeat split. Qed.

Lemma keeps_call plotting (c : plot_call handle) :
  keeps_store (world := world) (call plotting c).
Proof.
  intros s a s'. unfold call.
  destruct (plotting c (libs s)) as [[hs w]|]; [|discriminate].
  intros [= _ <-]. repeat split.
Qed.

Lemma keeps_unpack2 (hs : list handle) :
  keeps_store (world := world) (unpack2 hs).
Proof.
  unfold unpack2. destruct hs as [|a [|b [|c hs]]];
    first [apply keeps_lift | apply keeps_ret].
Qed.

Lemma keeps_unpack4 (hs : list handle) :
  keeps_store (world := world) (unpack4 hs).
Proof.
  unfold unpack4. destruct hs as [|a [|b [|c [|d [|e hs]]]]];
    first [apply keeps_lift | apply keeps_ret].
Qed.

Lemma keeps_rebuild_model : keeps_store (world := world) rebuild_model.
Proof.
  unfold rebuild_model.
  repeat (apply keeps_bind; [apply keeps_getvar | intros ?]).
  intros s u s' [= _ <-]. repeat split.
Qed.

Ltac keeps :=
  repeat first
    [ apply keeps_ret | apply keeps_lift | apply keeps_load_matrix
    | apply keeps_load_model | apply keeps_call | apply keeps_unpack2
    | apply keeps_unpack4 | apply keeps_getvar
    | apply keeps_bind; [|intros ?] ].

Lemma keeps_plot_results plotting (fig : figure handle) Y_train Y_test :
  keeps_store (world := world) (plot_results plotting fig Y_train Y_test).
Proof.
  unfold plot_results. keeps.
  intros s u s' [= _ <-]. repeat split.
Qed.

Lemma keeps_record_losses predict Y_train Y_test regularization :
  keeps_store (world := world)
    (record_losses predict Y_train Y_test regularization).
Proof.
  unfold record_losses. keeps.
  - intros s u s' [= _ <-]. repeat split.
  - intros s u s' [= _ <-]. repeat split.
Qed.

Lemma keeps_prepare_plots plotting Y_test :
  keeps_store (world := world)
    (prepare_plots (handle := handle) plotting Y_test).
Proof. unfold prepare_plots. keeps. Qed.

End Frame.

Section Invariant.
Context {world handle dataset : Type}.
Variable extract_data : dataset -> exc (matrix * list Z).
Variable predict : gmap string matrix -> matrix -> exc matrix.
Variable randn : world -> (nat -> nat -> R) * world.
Variable plotting : plot_call handle -> world -> exc (list handle * world).
Variable plot_due : nat -> nat -> bool.
Implicit Types (s : pystate world) (Y : list Z) (X hw hb ow ob : matrix).

Lemma training_state_same_store Y X hw hb ow ob s s' :
  heap s' = heap s -> vars s' = vars s -> next s' = next s ->
  training_state Y X hw hb ow ob s -> training_state Y X hw hb ow ob s'.
Proof.
  intros Eh Ev En [HX Hhw Hhb How Hob Hsep Hal S1 S2 S3 S4 HY HL].
  unfold array_at in *.
  constructor; unfold array_at; rewrite ?Eh, ?Ev, ?En; assumption.
Qed.

(** The update keeps the training state, with the new parameters. *)
Lemma updated_training_state Y X hw hb ow ob regularization learning_rate s :
  training_state Y X hw hb ow ob s ->
  training_state Y X
    (hidden_weights_u Y X hw hb ow ob regularization learning_rate)
    (hidden_bias_u Y X hw hb ow ob learning_rate)
    (output_weights_u Y X hw hb ow ob regularization learning_rate)
    (output_bias_u Y X hw hb ow ob learning_rate)
    (updated_state Y X hw hb ow ob regularization learning_rate s).
Proof.
  intros T.
  destruct (training_state_locs _ _ _ _ _ _ _ T)
    as (lX & lhw & lhb & low & lob & [VX HX] & [Vhw Hhw] & [Vhb Hhb] &
        [Vow How] & [Vob Hob] & Hlt & Hne).
  destruct T as [_ _ _ _ _ Hsep Hal Shw [Shb1 Shb2] Sow [Sob1 Sob2] HY HL].
  assert (Lhw : loc_of s "hidden_weights" = lhw)
    by (unfold loc_of; rewrite Vhw; reflexivity).
  assert (Lhb : loc_of s "hidden_bias" = lhb)
    by (unfold loc_of; rewrite Vhb; reflexivity).
  assert (Low : loc_of s "output_weights" = low)
    by (unfold loc_of; rewrite Vow; reflexivity).
  assert (Lob : loc_of s "output_bias" = lob)
    by (unfold loc_of; rewrite Vob; reflexivity).
  assert (Hv : forall x,
    x = "X_train" \/ x = "hidden_weights" \/ x = "hidden_bias" \/
    x = "output_weights" \/ x = "output_bias" ->
    vars (updated_state Y X hw hb ow ob regularization learning_rate s) !! x =
    vars s !! x).
  { intros x Hx. stages. proj.
    destruct Hx as [->|[->|[->|[->| ->]]]];
      rewrite !lookup_insert_ne by done; reflexivity. }
  constructor.
  - eapply array_at_intro; [rewrite Hv by tauto; exact VX|].
    stages; proj; rewrite ?Lhw, ?Lhb, ?Low, ?Lob.
    rewrite !lookup_insert_ne by lia. exact HX.
  - eapply array_at_intro; [rewrite Hv by tauto; exact Vhw|].
    stages; proj; rewrite ?Lhw, ?Lhb, ?Low, ?Lob.
    repeat first [rewrite lookup_insert_eq | rewrite lookup_insert_ne by lia].
    reflexivity.
  - eapply array_at_intro; [rewrite Hv by tauto; exact Vhb|].
    stages; proj; rewrite ?Lhw, ?Lhb, ?Low, ?Lob.
    repeat first [rewrite lookup_insert_eq | rewrite lookup_insert_ne by lia].
    reflexivity.
  - eapply array_at_intro; [rewrite Hv by tauto; exact Vow|].
    stages; proj; rewrite ?Lhw, ?Lhb, ?Low, ?Lob.
    repeat first [rewrite lookup_insert_eq | rewrite lookup_insert_ne by lia].
    reflexivity.
  - eapply array_at_intro; [rewrite Hv by tauto; exact Vob|].
    stages; proj; rewrite ?Lhw, ?Lhb, ?Low, ?Lob.
    repeat first [rewrite lookup_insert_eq | rewrite lookup_insert_ne by lia].
    reflexivity.
  - rewrite !Hv by tauto. exact Hsep.
  - stages. proj.
    repeat (apply map_Forall_insert_2; [lia|]).
    intros x l Hx. specialize (Hal x l Hx). simpl in Hal. lia.
  - simpl. exact Shw.
  - simpl. split; assumption.
  - simpl. exact Sow.
  - simpl. split; assumption.
  - exact HY.
  - exact HL.
Qed.

Lemma epoch_training_state fig Y Y_test epochs learning_rate regularization
    i X hw hb ow ob s s' :
  training_state Y X hw hb ow ob s ->
  epoch predict plotting plot_due fig Y Y_test epochs learning_rate
    regularization i s = Ok (tt, s') ->
  exists hw' hb' ow' ob', training_state Y X hw' hb' ow' ob' s'.
Proof.
  intros T He.
  destruct (epoch_blocks_run _ _ _ _ _ _ regularization learning_rate _ T)
    as (H1 & _ & _ & _).
  pose proof (backward_run _ _ _ _ _ _ _ T) as H2.
  pose proof (regularize_run _ _ _ _ _ _ regularization _ T) as H3.
  pose proof (update_run _ _ _ _ _ _ regularization learning_rate _ T) as H4.
  unfold epoch in He.
  rewrite (bind_ok _ _ _ _ _ H1), (bind_ok _ _ _ _ _ H2),
    (bind_ok _ _ _ _ _ H3), (bind_ok _ _ _ _ _ H4) in He.
  assert (K : keeps_store (world := world)
    (bind rebuild_model (fun _ =>
       bind (if plot_due i epochs
             then plot_results plotting fig Y Y_test else ret tt) (fun _ =>
         record_losses predict Y Y_test regularization)))).
  { apply keeps_bind; [apply keeps_rebuild_model|]. intros _.
    apply keeps_bind; [|intros _; apply keeps_record_losses].
    destruct (plot_due i epochs);
      [apply keeps_plot_results | apply keeps_ret]. }
  destruct (K _ _ _ He) as (Eh & Ev & En).
  eexists _, _, _, _.
  eapply training_state_same_store; [exact Eh | exact Ev | exact En|].
  apply updated_training_state, T.
Qed.

Lemma reaches_training_state fig Y Y_test epochs learning_rate regularization
    l i X hw hb ow ob s0 s :
  training_state Y X hw hb ow ob s0 ->
  reaches (epoch predict plotting plot_due fig Y Y_test epochs learning_rate
             regularization) l s0 i s ->
  exists hw' hb' ow' ob', training_state Y X hw' hb' ow' ob' s.
Proof.
  intros T Hr. revert hw hb ow ob T.
  induction Hr as [i l s0 | j l s0 s1 i s Hj Hr IH]; intros hw hb ow ob T.
  - exists hw, hb, ow, ob. exact T.
  - destruct (epoch_training_state _ _ _ _ _ _ _ _ _ _ _ _ _ _ T Hj)
      as (hw' & hb' & ow' & ob' & T').
    apply (IH _ _ _ _ T').
Qed.

(** What [initialize] leaves: four new arrays of the shapes
    (input, hidden), (1, hidden), (hidden, output) and (1, output), bound
    to the four parameter names, and the dictionary [model]. *)
Lemma initialize_run d h k s :
  exists s' hw ow,
    initialize randn d h k s = Ok (tt, s') /\
    heap s' =
      <[3 + next s := Arr2 (zeros 1 k)]>
      (<[2 + next s := Arr2 ow]>
      (<[1 + next s := Arr2 (zeros 1 h)]>
      (<[next s := Arr2 hw]> (heap s)))) /\
    vars s' =
      <["output_bias" := 3 + next s]>
      (<["output_weights" := 2 + next s]>
      (<["hidden_bias" := 1 + next s]>
      (<["hidden_weights" := next s]> (vars s)))) /\
    next s' = 4 + next s /\
    model s' =
      <["OB" := 3 + next s]> (<["OW" := 2 + next s]>
      (<["Hb" := 1 + next s]> (<["HW" := next s]> ∅))) /\
    (nrows hw = d /\ ncols hw = h) /\ (nrows ow = h /\ ncols ow = k).
Proof.
  eexists _, _, _. split.
  - unfold initialize, random_randn.
    erewrite bind_ok by reflexivity. step_assign. step_assign.
    erewrite bind_ok by reflexivity. step_assign. step_assign.
    erewrite bind_ok by (apply getvar_ok; look_vars).
    erewrite bind_ok by (apply getvar_ok; look_vars).
    erewrite bind_ok by (apply getvar_ok; look_vars).
    erewrite bind_ok by (apply getvar_ok; look_vars).
    reflexivity.
  - repeat split; reflexivity.
Qed.

(** The state in which the loop of [build_model] starts: when the
    training points have [input_dimensions] columns and one valid label
    each, it is a training state. *)
Lemma setup_training_state train_data test_data d h k s fig Y Y_test s0 :
  setup extract_data randn plotting train_data test_data d h k s =
    Ok ((fig, (Y, Y_test)), s0) ->
  map_Forall (fun _ l => l < next s) (vars s) ->
  exists X hw hb ow ob,
    extract_data train_data = Ok (X, Y) /\
    (nrows hw = d /\ ncols hw = h) /\ (nrows hb = 1 /\ ncols hb = h) /\
    (nrows ow = h /\ ncols ow = k) /\ (nrows ob = 1 /\ ncols ob = k) /\
    (ncols X = d -> length Y = nrows X ->
     Forall (fun y => (- Z.of_nat k <= y < Z.of_nat k)%Z) Y ->
     training_state Y X hw hb ow ob s0).
Proof.
  intros Hs Hal. unfold setup in Hs.
  apply bind_inv in Hs as ([Ya Yb] & s4 & Hd & Hs).
  unfold load_data in Hd.
  apply bind_inv in Hd as ([X Y'] & s1 & H1 & Hd).
  unfold lift in H1. destruct (extract_data train_data) as [[X0 Y0]|];
    [|discriminate]. injection H1 as -> -> <-.
  apply bind_inv in Hd as ([] & s2 & H2 & Hd).
  rewrite assign_ok in H2. injection H2 as <-.
  apply bind_inv in Hd as ([Xt Yt] & s3 & H3 & Hd).
  unfold lift in H3. destruct (extract_data test_data) as [[X1 Y1]|];
    [|discriminate]. injection H3 as -> -> <-.
  apply bind_inv in Hd as ([] & s4' & H4 & Hd).
  rewrite assign_ok in H4. injection H4 as <-.
  injection Hd as <- <- <-.
  apply bind_inv in Hs as ([] & s5 & H5 & Hs).
  match type of H5 with initialize _ _ _ _ ?s = _ =>
    destruct (initialize_run d h k s)
      as (s5' & hw & ow & Hi & Eh & Ev & En & _ & Shw & Sow)
  end.
  rewrite Hi in H5. injection H5 as <-.
  apply bind_inv in Hs as (fig' & s6 & H6 & Hs).
  apply keeps_prepare_plots in H6 as (Fh & Fv & Fn).
  apply bind_inv in Hs as ([] & s7 & H7 & Hs).
  injection H7 as <-. injection Hs as <- <- <- <-.
  cbn [fst snd] in *.
  exists X, hw, (zeros 1 h), ow, (zeros 1 k).
  split; [reflexivity|]. split; [exact Shw|]. split; [split; reflexivity|].
  split; [exact Sow|]. split; [split; reflexivity|].
  intros SX HY HL. destruct Shw as [Shw1 Shw2]. destruct Sow as [Sow1 Sow2].
  proj. cbn [heap vars next] in Eh, Ev, En.
  assert (Hheap : forall l v, heap s5' !! l = Some v -> heap s6 !! l = Some v)
    by (intros l v; rewrite Fh; exact (fun H => H)).
  constructor; unfold array_at; proj; rewrite ?Fv, ?Fh, ?Fn, ?Ev, ?Eh, ?En.
  1-5: repeat first [rewrite lookup_insert_eq
                    | rewrite lookup_insert_ne by done];
       cbv iota beta;
       repeat first [rewrite lookup_insert_eq
                    | rewrite lookup_insert_ne by lia];
       reflexivity.
  - repeat first [rewrite lookup_insert_eq | rewrite lookup_insert_ne by done].
    repeat (apply NoDup_cons_2;
            [ let H := fresh in
              rewrite ?elem_of_cons, elem_of_nil; intros H;
              repeat (destruct H as [H|H]; [injection H; lia|]);
              exact H
            | ]).
    apply NoDup_nil_2.
  - repeat (apply map_Forall_insert_2; [lia|]).
    intros x l Hx. specialize (Hal x l Hx). simpl in Hal. lia.
  - lia.
  - simpl. split; [reflexivity | lia].
  - lia.
  - simpl. split; [reflexivity | lia].
  - exact HY.
  - rewrite Sow2. exact HL.
Qed.

(** Every epoch of [build_model] starts in a training state, when
    [extract_data] gives training points with [input_dimensions] columns
    and one valid label for each of them. *)
Lemma build_model_training_state train_data test_data d h k epochs
    learning_rate regularization s fig Y Y_test s0 X i si :
  setup extract_data randn plotting train_data test_data d h k s =
    Ok ((fig, (Y, Y_test)), s0) ->
  map_Forall (fun _ l => l < next s) (vars s) ->
  extract_data train_data = Ok (X, Y) ->
  ncols X = d -> length Y = nrows X ->
  Forall (fun y => (- Z.of_nat k <= y < Z.of_nat k)%Z) Y ->
  reaches (epoch predict plotting plot_due fig Y Y_test epochs learning_rate
             regularization) (seq 1 epochs) s0 i si ->
  exists hw hb ow ob, training_state Y X hw hb ow ob si.
Proof.
  intros Hs Hal Hx SX HY HL Hr.
  destruct (setup_training_state _ _ _ _ _ _ _ _ _ _ Hs Hal)
    as (X' & hw & hb & ow & ob & Hx' & _ & _ & _ & _ & T).
  rewrite Hx in Hx'. injection Hx' as <-.
  eapply reaches_training_state; [apply T; assumption | exact Hr].
Qed.

(** C8: the dictionary that [build_model] builds before the loop has the
    key 'Hb', not 'HB': its keys are 'HW', 'Hb', 'OW', 'OB', which is not
    the key set 'HW', 'HB', 'OW', 'OB' of the dictionary rebuilt in every
    epoch. *)
Theorem initial_model_has_key_Hb d h k (s : pystate world) :
  exists s', initialize randn d h k s = Ok (tt, s') /\
    dom (model s') = ({["HW"; "Hb"; "OW"; "OB"]} : gset string) /\
    ("HB" ∉ dom (model s')) /\
    dom (model s') <> ({["HW"; "HB"; "OW"; "OB"]} : gset string).
Proof.
  destruct (initialize_run d h k s) as (s' & hw & ow & Hi & _ & _ & _ & Hm & _).
  exists s'. split; [exact Hi|]. rewrite Hm.
  assert (E : dom (<["OB" := 3 + next s]> (<["OW" := 2 + next s]>
                (<["Hb" := 1 + next s]> (<["HW" := next s]>
                  (∅ : gmap string nat))))) =
              ({["HW"; "Hb"; "OW"; "OB"]} : gset string)).
  { rewrite !dom_insert_L, dom_empty_L.
    apply (bool_decide_unpack _). vm_compute. reflexivity. }
  rewrite E. split; [reflexivity|].
  split; apply (bool_decide_unpack _); vm_compute; reflexivity.
Qed.

(** The dictionary rebuilt after the update has the four keys
    'HW', 'HB', 'OW', 'OB'. *)
Lemma rebuilt_model_keys (s s' : pystate world) :
  rebuild_model s = Ok (tt, s') ->
  dom (model s') = ({["HW"; "HB"; "OW"; "OB"]} : gset string).
Proof.
  unfold rebuild_model. intros H.
  apply bind_inv in H as (l1 & s1 & _ & H).
  apply bind_inv in H as (l2 & s2 & _ & H).
  apply bind_inv in H as (l3 & s3 & _ & H).
  apply bind_inv in H as (l4 & s4 & _ & H).
  injection H as <-. cbn [model set_model].
  rewrite !dom_insert_L, dom_empty_L.
  apply (bool_decide_unpack _). vm_compute. reflexivity.
Qed.

End Invariant.

(** ** Exceptions are not handled *)

Section Exceptions.
Context {world handle dataset : Type}.
Variable extract_data : dataset -> exc (matrix * list Z).
Variable predict : gmap string matrix -> matrix -> exc matrix.
Variable randn : world -> (nat -> nat -> R) * world.
Variable plotting : plot_call handle -> world -> exc (list handle * world).
Variable plot_due : nat -> nat -> bool.
Implicit Types (s : pystate world) (e : pyerr).

(** A sequence raises exactly when its first part raises, or its first
    part returns and the rest raises. *)
Lemma bind_raise_iff {A B} (c : M world A) (k : A -> M world B) s e :
  bind c k s = Raise e <->
  c s = Raise e \/ exists a s1, c s = Ok (a, s1) /\ k a s1 = Raise e.
Proof.
  unfold bind. destruct (c s) as [[a s1]|e'].
  - split.
    + intros H. right. exists a, s1. split; [reflexivity | exact H].
    + intros [H|(a' & s1' & H1 & H2)]; [discriminate|].
      injection H1 as <- <-. exact H2.
  - split.
    + intros [= ->]. left. reflexivity.
    + intros [[= ->]|(a' & s1' & H1 & _)]; [reflexivity | discriminate].
Qed.


Lemma exc_bind_raise_iff {A B} (c : exc A) (k : A -> exc B) e :
  exc_bind c k = Raise e <->
  c = Raise e \/ exists a, c = Ok a /\ k a = Raise e.
Proof.
  destruct c as [a|e']; simpl.
  - split.
    + intros H. right. exists a. split; [reflexivity | exact H].
    + intros [H|(a' & H1 & H2)]; [discriminate|].
      injection H1 as <-. exact H2.
  - split.
    + intros [= ->]. left. reflexivity.
    + intros [[= ->]|(a' & H1 & _)]; [reflexivity | discriminate].
Qed.

Lemma for_each_raise_iff (body : nat -> M world unit) l s0 e :
  for_each l body s0 = Raise e <->
  exists i s, reaches body l s0 i s /\ body i s = Raise e.
Proof.
  revert s0. induction l as [|j l IH]; intros s0; simpl.
  - split; [discriminate|]. intros (i & s & Hr & _). inversion Hr.
  - rewrite bind_raise_iff. split.
    + intros [H|([] & s1 & H1 & H2)].
      * exists j, s0. split; [constructor | exact H].
      * apply IH in H2 as (i & s & Hr & He). exists i, s.
        split; [econstructor; eassumption | exact He].
    + intros (i & s & Hr & He).
      inversion Hr as [i' l' s0' | j' l' s0' s1 i' s' Hj Hr']; subst.
      * left. exact He.
      * right. exists tt, s1. split; [exact Hj|].
        apply IH. exists i, s. split; assumption.
Qed.

Lemma lift_raise_iff {A} (c : exc A) s e :
  lift (world := world) c s = Raise e <-> c = Raise e.
Proof. unfold lift. destruct c; split; congruence. Qed.

Lemma ret_no_raise {A} (a : A) s e : ret (world := world) a s <> Raise e.
Proof. discriminate. Qed.


Lemma getitem_raise_iff {A} (d : gmap string A) key e :
  getitem d key = Raise e <-> d !! key = None /\ e = KeyError key.
Proof.
  unfold getitem. destruct (d !! key); split.
  - discriminate.
  - intros [? _]. discriminate.
  - intros [= <-]. split; reflexivity.
  - intros [_ ->]. reflexivity.
Qed.


Lemma load_matrix_state x s m s' :
  load_matrix x s = Ok (m, s') -> s' = s.
Proof.
  unfold load_matrix, load, getvar, deref, bind.
  destruct (vars s !! x) as [l|]; [|discriminate].
  destruct (heap s !! l) as [[v|m']|]; try discriminate.
  intros [= _ <-]. reflexivity.
Qed.

(** [record_losses] as the sequence of its four steps. *)
Lemma record_losses_steps Y_train Y_test regularization s :
  record_losses predict Y_train Y_test regularization s =
  match load_matrix "X_test" s with
  | Raise e => Raise e
  | Ok (X_test, _) =>
    match cross_entropy predict (arrays_of (model s) (heap s)) X_test Y_test
            regularization with
    | Raise e => Raise e
    | Ok l1 =>
      match load_matrix "X_train" s with
      | Raise e => Raise e
      | Ok (X_train, _) =>
        match cross_entropy predict (arrays_of (model s) (heap s)) X_train
                Y_train regularization with
        | Raise e => Raise e
        | Ok l2 =>
            Ok (tt, PyState (heap s) (next s) (vars s) (model s)
                      (test_loss s ++ [l1]) (train_loss s ++ [l2]) (libs s))
        end
      end
    end
  end.
Proof.
  unfold record_losses, load_model, load_matrix, load, getvar, deref, bind,
    lift, ret.
  destruct (vars s !! "X_test") as [lt|]; [|reflexivity].
  destruct (heap s !! lt) as [[v|Xt]|]; try reflexivity.
  destruct (cross_entropy predict (arrays_of (model s) (heap s)) Xt Y_test
              regularization) as [l1|]; [|reflexivity].
  cbn [vars heap model test_loss train_loss next libs].
  destruct (vars s !! "X_train") as [lr|]; [|reflexivity].
  cbn [vars heap model test_loss train_loss next libs].
  destruct (heap s !! lr) as [[v|Xr]|]; try reflexivity.
  cbn [vars heap model test_loss train_loss next libs].
  destruct (cross_entropy predict (arrays_of (model s) (heap s)) Xr Y_train
              regularization) as [l2|]; reflexivity.
Qed.





(** [build_model] raises exactly what the statements before the loop or
    an epoch of the loop raise. *)
Lemma build_model_raise_iff train_data test_data d h k epochs learning_rate
    regularization s e :
  build_model extract_data predict randn plotting plot_due train_data
    test_data d h k epochs learning_rate regularization s = Raise e <->
  setup extract_data randn plotting train_data test_data d h k s = Raise e \/
  exists fig Y_train Y_test s0 i si,
    setup extract_data randn plotting train_data test_data d h k s =
      Ok ((fig, (Y_train, Y_test)), s0) /\
    reaches (epoch predict plotting plot_due fig Y_train Y_test epochs
               learning_rate regularization) (seq 1 epochs) s0 i si /\
    epoch predict plotting plot_due fig Y_train Y_test epochs learning_rate
      regularization i si = Raise e.
Proof.
  unfold build_model. rewrite bind_raise_iff. split.
  - intros [H|([fig [Ya Yb]] & s0 & H0 & H)]; [left; exact H|].
    right. apply for_each_raise_iff in H as (i & si & Hr & He).
    exists fig, Ya, Yb, s0, i, si. repeat split; assumption.
  - intros [H|(fig & Ya & Yb & s0 & i & si & H0 & Hr & He)]; [left; exact H|].
    right. exists (fig, (Ya, Yb)), s0. split; [exact H0|].
    apply for_each_raise_iff. exists i, si. split; assumption.
Qed.


End Exceptions.

(** ** The code cells share a namespace *)

Lemma independentb_spec c : independentb c = true <-> independent c.
Proof.
  unfold independentb, independent.
  destruct (run_cell c builtins) as [names|e]; split.
  - intros _. exists names. reflexivity.
  - reflexivity.
  - discriminate.
  - intros [names H]. discriminate.
Qed.

Lemma runs_in_orderb_spec nb :
  runs_in_orderb nb = true -> exists names, run_cells nb builtins = Ok names.
Proof.
  unfold runs_in_orderb. destruct (run_cells nb builtins) as [names|e].
  - intros _. exists names. reflexivity.
  - discriminate.
Qed.

(** The cell that calls [build_model], evaluated on its own, stops at the
    first name that another cell binds. *)
Lemma training_cell_needs_make_moons :
  run_cell LinearAlgebra.training builtins = Raise (NameError "make_moons").
Proof. vm_compute. reflexivity. Qed.

Lemma tensorflow_training_cell_needs_tf :
  run_cell TensorflowIntro.training builtins = Raise (NameError "tf").
Proof. vm_compute. reflexivity. Qed.

(** C7, as stated, fails: not every code cell of every notebook is
    independent of the other code cells. *)
Lemma cells_are_not_all_independent :
  ~ (forall nb, nb ∈ notebooks -> forall c, c ∈ nb -> independent c).
Proof.
  intros H.
  assert (Hi : independent LinearAlgebra.training).
  { apply (H LinearAlgebra.notebook).
    - unfold notebooks. apply list_elem_of_here.
    - unfold LinearAlgebra.notebook.
      do 3 apply list_elem_of_further. apply list_elem_of_here. }
  destruct Hi as [names Hn].
  rewrite training_cell_needs_make_moons in Hn. discriminate.
Qed.

(** C7, amended: in every notebook, every code cell can be evaluated
    after the code cells before it: each name it reads is built in, bound
    by the cell or bound by an earlier cell.  The independent cells are
    the cells that only import or define, and the empty cells; the other
    cells need the cells before them. *)
Theorem cells_run_in_order :
  (forall nb, nb ∈ notebooks -> exists names, run_cells nb builtins = Ok names) /\
  List.map (List.map independentb) notebooks =
    [[true; true; true; false];
     [true; false; false; false; false; false; false; false; false];
     [true; false; false; false; false; false; false; false; false; false;
      true];
     [true; true; true; false; true]].
Proof.
  split.
  - intros nb Hnb. unfold notebooks in Hnb.
    repeat (apply elem_of_cons in Hnb as [->|Hnb];
            [apply runs_in_orderb_spec; vm_compute; reflexivity|]).
    apply elem_of_nil in Hnb. destruct Hnb.
  - vm_compute. reflexivity.
Qed.

(** ** The statements at the small training state *)

Lemma example_training_state :
  training_state Example.Y Example.X Example.hw Example.hb Example.ow
    Example.ob Example.state.
Proof.
  constructor; try reflexivity.
  - apply (bool_decide_unpack _). vm_compute. reflexivity.
  - apply (bool_decide_unpack _). vm_compute. reflexivity.
  - split; reflexivity.
  - split; reflexivity.
  - repeat constructor; simpl; lia.
Defined.





(** ** The update is a step of gradient descent *)

Section Objective.
Local Open Scope R_scope.
Variables (Y : list Z) (X hw hb ow ob : matrix) (regularization : R).
Hypothesis length_Y : length Y = nrows X.
Hypothesis labels_Y :
  Forall (fun y => (- Z.of_nat (ncols ow) <= y < Z.of_nat (ncols ow))%Z) Y.

Lemma D_square_item (m : matrix) a b i j :
  derivable_pt_lim
    (fun t => item (with_item m a b t) i j * item (with_item m a b t) i j)
    (item m a b)
    (if ((i =? a) && (j =? b))%nat then 2 * item m a b else 0).
Proof.
  apply (D_value _ _
    ((if ((i =? a) && (j =? b))%nat then 1 else 0) *
       item (with_item m a b (item m a b)) i j +
     item (with_item m a b (item m a b)) i j *
       (if ((i =? a) && (j =? b))%nat then 1 else 0))).
  - rewrite with_item_same.
    destruct (Nat.eqb_spec i a) as [->|]; simpl; [|ring].
    destruct (Nat.eqb_spec j b) as [->|]; simpl; ring.
  - apply (derivable_pt_lim_mult
             (fun t => item (with_item m a b t) i j)
             (fun t => item (with_item m a b t) i j));
      apply D_with_item.
Qed.

(** The derivative of the sum of the squares of an array in one of its
    entries is twice the entry. *)
Lemma D_sum_square (m : matrix) a b :
  (a < nrows m)%nat -> (b < ncols m)%nat ->
  derivable_pt_lim (fun t => Np.sum (Np.square (with_item m a b t)))
    (item m a b) (2 * item m a b).
Proof.
  intros Ha Hb.
  apply (D_ext (fun t => rsum (nrows m) (fun i => rsum (ncols m) (fun j =>
           item (with_item m a b t) i j * item (with_item m a b t) i j))));
    [intros; reflexivity|].
  apply (D_value _ _ (rsum (nrows m) (fun i => rsum (ncols m) (fun j =>
           if ((i =? a) && (j =? b))%nat then 2 * item m a b else 0)))).
  - rewrite (rsum_ext _ _ (fun i => if (i =? a)%nat
               then (if (b <? ncols m)%nat then 2 * item m a b else 0)
               else 0)).
    + rewrite rsum_single, (proj2 (Nat.ltb_lt _ _) Ha),
        (proj2 (Nat.ltb_lt _ _) Hb). reflexivity.
    + intros i _. destruct (i =? a)%nat; simpl.
      * apply (rsum_single (ncols m) b (fun _ => 2 * item m a b)).
      * apply rsum_zero.
  - apply (D_rsum _ (fun t i => rsum (ncols m) (fun j =>
             item (with_item m a b t) i j * item (with_item m a b t) i j))).
    intros i _.
    apply (D_rsum _ (fun t j =>
             item (with_item m a b t) i j * item (with_item m a b t) i j)).
    intros j _. apply D_square_item.
Qed.

Lemma objective_gradient_hidden_weights a b :
  (a < nrows hw)%nat -> (b < ncols hw)%nat -> nrows hw = ncols X ->
  derivable_pt_lim
    (fun t => regularized_objective X Y regularization
                (with_item hw a b t) hb ow ob)
    (item hw a b)
    (rsum (nrows X) (fun i =>
       item X i a *
       (rsum (ncols ow) (fun c =>
          (prob X hw hb ow ob i c - one_hot (ncols ow) Y i c) * item ow b c) *
        (1 - hidden X hw hb i b * hidden X hw hb i b))) +
     regularization * item hw a b).
Proof.
  intros Ha Hb Shw. unfold regularized_objective.
  eapply D_value; [|apply D_plus;
    [apply (gradient_hidden_weights Y X hw hb ow ob length_Y labels_Y a b);
       [lia | exact Hb]
    |apply (D_scal_l (fun t => Np.sum (Np.square (with_item hw a b t)) +
                               Np.sum (Np.square ow)));
     apply (D_plus (fun t => Np.sum (Np.square (with_item hw a b t))));
       [apply D_sum_square; assumption | apply D_const]]].
  field.
Qed.

Lemma objective_gradient_output_weights a b :
  (a < nrows ow)%nat -> (b < ncols ow)%nat -> nrows ow = ncols hw ->
  derivable_pt_lim
    (fun t => regularized_objective X Y regularization
                hw hb (with_item ow a b t) ob)
    (item ow a b)
    (rsum (nrows X) (fun i =>
       hidden X hw hb i a *
       (prob X hw hb ow ob i b - one_hot (ncols ow) Y i b)) +
     regularization * item ow a b).
Proof.
  intros Ha Hb Sow. unfold regularized_objective.
  eapply D_value; [|apply D_plus;
    [apply (gradient_output_weights Y X hw hb ow ob length_Y labels_Y a b);
       [lia | exact Hb]
    |apply (D_scal_l (fun t => Np.sum (Np.square hw) +
                               Np.sum (Np.square (with_item ow a b t))));
     apply (D_plus (fun _ => Np.sum (Np.square hw))
                   (fun t => Np.sum (Np.square (with_item ow a b t))));
       [apply D_const | apply D_sum_square; assumption]]].
  field.
Qed.

Lemma objective_gradient_hidden_bias b :
  (b < ncols hw)%nat ->
  derivable_pt_lim
    (fun t => regularized_objective X Y regularization
                hw (with_item hb 0 b t) ow ob)
    (item hb 0 b)
    (rsum (nrows X) (fun i =>
       rsum (ncols ow) (fun c =>
         (prob X hw hb ow ob i c - one_hot (ncols ow) Y i c) * item ow b c) *
       (1 - hidden X hw hb i b * hidden X hw hb i b))).
Proof.
  intros Hb. unfold regularized_objective.
  eapply D_value; [|apply D_plus;
    [apply (gradient_hidden_bias Y X hw hb ow ob length_Y labels_Y b Hb)
    |apply D_const]].
  ring.
Qed.

Lemma objective_gradient_output_bias b :
  (b < ncols ow)%nat ->
  derivable_pt_lim
    (fun t => regularized_objective X Y regularization
                hw hb ow (with_item ob 0 b t))
    (item ob 0 b)
    (rsum (nrows X) (fun i =>
       prob X hw hb ow ob i b - one_hot (ncols ow) Y i b)).
Proof.
  intros Hb. unfold regularized_objective.
  eapply D_value; [|apply D_plus;
    [apply (gradient_output_bias Y X hw hb ow ob length_Y labels_Y b Hb)
    |apply D_const]].
  ring.
Qed.

End Objective.

Section Descent.
Context {world : Type}.
Implicit Types (s : pystate world) (Y : list Z) (X hw hb ow ob : matrix).
Local Open Scope R_scope.

(** The entries of the updated parameters. *)
Lemma updated_items Y X hw hb ow ob regularization learning_rate :
  nrows hw = ncols X -> (nrows hb = 1 /\ ncols hb = ncols hw)%nat ->
  nrows ow = ncols hw -> (nrows ob = 1 /\ ncols ob = ncols ow)%nat ->
  (forall a b, (a < nrows hw)%nat -> (b < ncols hw)%nat ->
     item (hidden_weights_u Y X hw hb ow ob regularization learning_rate) a b =
     item hw a b - learning_rate *
       (item (hidden_weights_delta_v Y X hw hb ow ob) a b +
        regularization * item hw a b)) /\
  (forall b, (b < ncols hw)%nat ->
     item (hidden_bias_u Y X hw hb ow ob learning_rate) 0 b =
     item hb 0 b - learning_rate *
       vitem (hidden_bias_delta_v Y X hw hb ow ob) b) /\
  (forall a b, (a < nrows ow)%nat -> (b < ncols ow)%nat ->
     item (output_weights_u Y X hw hb ow ob regularization learning_rate) a b =
     item ow a b - learning_rate *
       (item (output_weights_delta_v Y X hw hb ow ob) a b +
        regularization * item ow a b)) /\
  (forall b, (b < ncols ow)%nat ->
     item (output_bias_u Y X hw hb ow ob learning_rate) 0 b =
     item ob 0 b - learning_rate *
       item (output_bias_delta_v Y X hw hb ow ob) 0 b).
Proof.
  intros Shw [Shb1 Shb2] Sow [Sob1 Sob2].
  split; [|split; [|split]].
  - intros a b Ha Hb. unfold hidden_weights_u.
    rewrite bcast_item by (simpl in *; lia || reflexivity).
    cbn [Np.scale Np.map nrows ncols item hidden_weights_delta_r Np.bcast].
    bidx_in_range. ring.
  - intros b Hb. unfold hidden_bias_u.
    rewrite bcast_item by (simpl in *; lia || reflexivity).
    cbn [Np.as_row Np.vscale Np.vmap nrows ncols item vitem vlen
         hidden_bias_delta_v Np.sum_axis0].
    rewrite ?bidx_one. bidx_in_range. ring.
  - intros a b Ha Hb. unfold output_weights_u.
    rewrite bcast_item by (simpl in *; lia || reflexivity).
    cbn [Np.scale Np.map nrows ncols item output_weights_delta_r Np.bcast].
    bidx_in_range. ring.
  - intros b Hb. unfold output_bias_u.
    rewrite bcast_item by (simpl in *; lia || reflexivity).
    cbn [Np.scale Np.map nrows ncols item output_bias_delta_v
         Np.sum_axis0_keepdims].
    rewrite ?bidx_one. bidx_in_range. ring.
Qed.

(** The deltas of the backward pass, entry by entry. *)
Lemma delta_items Y X hw hb ow ob :
  nrows hw = ncols X -> (nrows hb = 1 /\ ncols hb = ncols hw)%nat ->
  nrows ow = ncols hw -> (nrows ob = 1 /\ ncols ob = ncols ow)%nat ->
  length Y = nrows X ->
  (forall a b, (a < nrows hw)%nat -> (b < ncols hw)%nat ->
     item (hidden_weights_delta_v Y X hw hb ow ob) a b =
     rsum (nrows X) (fun i =>
       item X i a *
       (rsum (ncols ow) (fun c =>
          (prob X hw hb ow ob i c - one_hot (ncols ow) Y i c) * item ow b c) *
        (1 - hidden X hw hb i b * hidden X hw hb i b)))) /\
  (forall b, (b < ncols hw)%nat ->
     vitem (hidden_bias_delta_v Y X hw hb ow ob) b =
     rsum (nrows X) (fun i =>
       rsum (ncols ow) (fun c =>
         (prob X hw hb ow ob i c - one_hot (ncols ow) Y i c) * item ow b c) *
       (1 - hidden X hw hb i b * hidden X hw hb i b))) /\
  (forall a b, (a < nrows ow)%nat -> (b < ncols ow)%nat ->
     item (output_weights_delta_v Y X hw hb ow ob) a b =
     rsum (nrows X) (fun i =>
       hidden X hw hb i a *
       (prob X hw hb ow ob i b - one_hot (ncols ow) Y i b))) /\
  (forall b, (b < ncols ow)%nat ->
     item (output_bias_delta_v Y X hw hb ow ob) 0 b =
     rsum (nrows X) (fun i =>
       prob X hw hb ow ob i b - one_hot (ncols ow) Y i b)).
Proof.
  intros Shw Shb Sow Sob HY.
  pose proof (hidden_activations_item Y X hw hb ow ob Shb Sow Sob HY) as Eha.
  pose proof (output_delta_item Y X hw hb ow ob Shb Sow Sob HY) as Eod.
  pose proof (hidden_delta_item Y X hw hb ow ob Shb Sow Sob HY) as Ehd.
  split; [|split; [|split]].
  - intros a b Ha Hb. rewrite hidden_weights_delta_item.
    apply rsum_ext. intros i Hi.
    rewrite Ehd, Eha by lia. f_equal. f_equal.
    apply rsum_ext. intros c Hc. rewrite Eod by lia. reflexivity.
  - intros b Hb. rewrite hidden_bias_delta_item.
    apply rsum_ext. intros i Hi.
    rewrite Ehd, Eha by lia. f_equal.
    apply rsum_ext. intros c Hc. rewrite Eod by lia. reflexivity.
  - intros a b Ha Hb. rewrite output_weights_delta_item.
    apply rsum_ext. intros i Hi. rewrite Eha, Eod by lia. reflexivity.
  - intros b Hb. rewrite output_bias_delta_item.
    apply rsum_ext. intros i Hi. rewrite Eod by lia. reflexivity.
Qed.

(** X1: the four blocks of an epoch, run one after the other from a state
    in which an epoch starts, return, and they are one step of gradient
    descent on the regularized objective: every entry of
    [hidden_weights], [hidden_bias], [output_weights] and [output_bias]
    becomes its old value minus learning_rate times the derivative, in
    that entry and at the old parameters, of the summed cross-entropy
    plus (regularization / 2) times the sum of the squares of the two
    weight arrays. *)
Theorem epoch_is_gradient_step Y X hw hb ow ob regularization learning_rate
    s :
  training_state Y X hw hb ow ob s ->
  exists s4 hw' hb' ow' ob',
    bind forward_propagation (fun _ =>
      bind (backpropagation Y) (fun _ =>
        bind (add_regularization regularization) (fun _ =>
          update_weights learning_rate))) s = Ok (tt, s4) /\
    (array_at s4 "hidden_weights" = Some (Arr2 hw') /\
     array_at s4 "hidden_bias" = Some (Arr2 hb') /\
     array_at s4 "output_weights" = Some (Arr2 ow') /\
     array_at s4 "output_bias" = Some (Arr2 ob')) /\
    (forall a b, (a < nrows hw)%nat -> (b < ncols hw)%nat ->
       exists g,
         derivable_pt_lim
           (fun t => regularized_objective X Y regularization
                       (with_item hw a b t) hb ow ob) (item hw a b) g /\
         item hw' a b = item hw a b - learning_rate * g) /\
    (forall b, (b < ncols hb)%nat ->
       exists g,
         derivable_pt_lim
           (fun t => regularized_objective X Y regularization
                       hw (with_item hb 0 b t) ow ob) (item hb 0 b) g /\
         item hb' 0 b = item hb 0 b - learning_rate * g) /\
    (forall a b, (a < nrows ow)%nat -> (b < ncols ow)%nat ->
       exists g,
         derivable_pt_lim
           (fun t => regularized_objective X Y regularization
                       hw hb (with_item ow a b t) ob) (item ow a b) g /\
         item ow' a b = item ow a b - learning_rate * g) /\
    (forall b, (b < ncols ob)%nat ->
       exists g,
         derivable_pt_lim
           (fun t => regularized_objective X Y regularization
                       hw hb ow (with_item ob 0 b t)) (item ob 0 b) g /\
         item ob' 0 b = item ob 0 b - learning_rate * g).
Proof.
  intros T.
  destruct (epoch_blocks_run _ _ _ _ _ _ regularization learning_rate _ T)
    as (_ & _ & _ & H4).
  pose proof (updated_training_state (fun _ _ => true) _ _ _ _ _ _
                regularization learning_rate _ T) as [_ Uhw Uhb Uow Uob _ _ _ _ _ _ _ _].
  destruct T as [_ _ _ _ _ _ _ Shw Shb Sow Sob HY HL].
  destruct (updated_items Y X hw hb ow ob regularization learning_rate
              Shw Shb Sow Sob) as (I1 & I2 & I3 & I4).
  destruct (delta_items Y X hw hb ow ob Shw Shb Sow Sob HY)
    as (E1 & E2 & E3 & E4).
  eexists _, _, _, _, _. split; [exact H4|].
  split; [exact (conj Uhw (conj Uhb (conj Uow Uob)))|].
  split; [|split; [|split]].
  - intros a b Ha Hb. eexists. split.
    + apply (objective_gradient_hidden_weights Y X hw hb ow ob regularization
               HY HL a b Ha Hb Shw).
    + rewrite I1, E1 by assumption. reflexivity.
  - intros b Hb. eexists. split.
    + apply (objective_gradient_hidden_bias Y X hw hb ow ob regularization
               HY HL b). destruct Shb. lia.
    + rewrite I2, E2 by (destruct Shb; lia). reflexivity.
  - intros a b Ha Hb. eexists. split.
    + apply (objective_gradient_output_weights Y X hw hb ow ob regularization
               HY HL a b Ha Hb Sow).
    + rewrite I3, E3 by assumption. reflexivity.
  - intros b Hb. eexists. split.
    + apply (objective_gradient_output_bias Y X hw hb ow ob regularization
               HY HL b). destruct Sob. lia.
    + rewrite I4, E4 by (destruct Sob; lia). reflexivity.
Qed.

End Descent.

Lemma epoch_is_gradient_step_witness :
  exists s4 ow' g,
    bind forward_propagation (fun _ =>
      bind (backpropagation Example.Y) (fun _ =>
        bind (add_regularization 1) (fun _ => update_weights 1)))
      Example.state = Ok (tt, s4) /\
    array_at s4 "output_weights" = Some (Arr2 ow') /\
    derivable_pt_lim
      (fun t => regularized_objective Example.X Example.Y 1 Example.hw
                  Example.hb (with_item Example.ow 0 1 t) Example.ob)
      (item Example.ow 0 1) g /\
    item ow' 0 1 = (item Example.ow 0 1 - 1 * g)%R.
Proof.
  destruct (epoch_is_gradient_step Example.Y Example.X Example.hw Example.hb
              Example.ow Example.ob 1 1 Example.state example_training_state)
    as (s4 & hw' & hb' & ow' & ob' & Hrun & (_ & _ & How & _) & _ & _ & Hg & _).
  destruct (Hg 0 1) as (g & Hd & Hi); [simpl; lia | simpl; lia |].
  exists s4, ow', g. repeat split; assumption.
Defined.

(** ** Softmax and the cost function *)

Section Shift.
Local Open Scope R_scope.



End Shift.

Lemma index_ok_inv K y c :
  Np.index K y = Ok c -> (- Z.of_nat K <= y < Z.of_nat K)%Z.
Proof.
  unfold Np.index.
  destruct (0 <=? y)%Z eqn:E0, (y <? Z.of_nat K)%Z eqn:E1; simpl;
    try (intros _; lia);
    destruct (- Z.of_nat K <=? y)%Z eqn:E2, (y <? 0)%Z eqn:E3; simpl;
    try discriminate; intros _; lia.
Qed.

Lemma index_raise K y e : Np.index K y = Raise e -> e = IndexError.
Proof.
  unfold Np.index.
  destruct ((0 <=? y)%Z && (y <? Z.of_nat K)%Z); [discriminate|].
  destruct ((- Z.of_nat K <=? y)%Z && (y <? 0)%Z); [discriminate|].
  intros [= <-]. reflexivity.
Qed.

(** The labels are column indices exactly when each of them is in
    [-K, K); otherwise the look-up raises [IndexError]. *)
Lemma indices_ok_inv K Y cs :
  indices K Y = Ok cs ->
  Forall (fun y => (- Z.of_nat K <= y < Z.of_nat K)%Z) Y.
Proof.
  revert cs. induction Y as [|y Y IH]; intros cs; simpl.
  - intros _. constructor.
  - destruct (Np.index K y) as [c|] eqn:E; simpl; [|discriminate].
    destruct (indices K Y) as [cs'|] eqn:E'; simpl; [|discriminate].
    intros _. constructor; [eapply index_ok_inv, E | eapply IH; reflexivity].
Qed.

Lemma indices_raise K Y :
  ~ Forall (fun y => (- Z.of_nat K <= y < Z.of_nat K)%Z) Y ->
  indices K Y = Raise IndexError.
Proof.
  induction Y as [|y Y IH]; intros HF; simpl.
  - destruct HF. constructor.
  - destruct (Np.index K y) as [c|e] eqn:E; simpl.
    + destruct (indices K Y) as [cs'|e] eqn:E'; simpl.
      * destruct HF. constructor; [eapply index_ok_inv, E|].
        eapply indices_ok_inv, E'.
      * assert (H : @Raise (list nat) e = Raise IndexError).
        { apply IH. intros HF'. apply HF.
          constructor; [eapply index_ok_inv, E | exact HF']. }
        injection H as ->. reflexivity.
    + apply index_raise in E as ->. reflexivity.
Qed.

Lemma fancy_positions_ok_inv a r Y ps :
  fancy_positions a r Y = Ok ps ->
  Forall (fun y => (- Z.of_nat (ncols a) <= y < Z.of_nat (ncols a))%Z) Y /\
  r <= nrows a /\ (r = length Y \/ length Y = 1 \/ r = 1).
Proof.
  unfold fancy_positions.
  destruct (indices (ncols a) Y) as [cs|] eqn:E; simpl; [|discriminate].
  apply indices_ok_inv in E.
  destruct (Nat.leb_spec r (nrows a)); [|discriminate].
  destruct (Nat.eqb_spec r (length Y)); [intros _; repeat split; tauto|].
  destruct (Nat.eqb_spec (length Y) 1); [intros _; repeat split; tauto|].
  destruct (Nat.eqb_spec r 1); [intros _; repeat split; tauto|].
  discriminate.
Qed.

Lemma fancy_get_ok_inv a Y v :
  fancy_get a (length Y) Y = Ok v ->
  length Y <= nrows a /\
  Forall (fun y => (- Z.of_nat (ncols a) <= y < Z.of_nat (ncols a))%Z) Y.
Proof.
  unfold fancy_get.
  destruct (fancy_positions a (length Y) Y) as [ps|] eqn:E; [|discriminate].
  apply fancy_positions_ok_inv in E as (HF & Hr & _).
  intros _. split; assumption.
Qed.

Section Cost.
Variable predict : gmap string matrix -> matrix -> exc matrix.
Local Open Scope R_scope.

Lemma sum_square_nonneg m : 0 <= Np.sum (Np.square m).
Proof.
  unfold Np.sum. apply rsum_nonneg. intros i _. apply rsum_nonneg.
  intros j _. cbn [Np.square Np.map item]. nra.
Qed.

(** What [cross_entropy] returns, when it returns. *)
Lemma cross_entropy_ok_inv model X Y r l :
  cross_entropy predict model X Y r = Ok l ->
  exists hw ow p,
    model !! "HW" = Some hw /\ model !! "OW" = Some ow /\
    predict model X = Ok p /\
    (0 < length Y <= nrows p)%nat /\
    Forall (fun y => (- Z.of_nat (ncols p) <= y < Z.of_nat (ncols p))%Z) Y /\
    l = 1 / INR (length Y) *
        (rsum (length Y) (fun i => - ln (item p i (label (ncols p) Y i))) +
         r / 2 * (Np.sum (Np.square hw) + Np.sum (Np.square ow))).
Proof.
  unfold cross_entropy, getitem.
  destruct (model !! "HW") as [hw|]; simpl; [|discriminate].
  destruct (model !! "OW") as [ow|]; simpl; [|discriminate].
  destruct (predict model X) as [p|]; simpl; [|discriminate].
  destruct (fancy_get p (length Y) Y) as [v|] eqn:Ev; simpl; [|discriminate].
  destruct (Nat.eqb_spec (length Y) 0) as [|Hn]; [discriminate|].
  intros [= <-].
  destruct (fancy_get_ok_inv _ _ _ Ev) as (Hr & HF).
  destruct (fancy_get_ok p Y Hr HF) as (v' & Hv' & Hlen & Hitem).
  rewrite Ev in Hv'. injection Hv' as <-.
  exists hw, ow, p. repeat split; try reflexivity; try assumption; try lia.
  f_equal. f_equal.
  unfold Np.vsum. cbn [Np.vmap vlen vitem]. rewrite Hlen.
  apply rsum_ext. intros i Hi. rewrite Hitem by exact Hi. reflexivity.
Qed.

(** X3: the loss that [cross_entropy] returns is not negative, when the
    entries of the array that [predict] returns are in (0, 1] and the
    regularization is not negative. *)
Theorem cross_entropy_nonneg model X Y r l :
  cross_entropy predict model X Y r = Ok l ->
  (forall p i j, predict model X = Ok p ->
     (i < nrows p)%nat -> (j < ncols p)%nat -> 0 < item p i j <= 1) ->
  0 <= r ->
  0 <= l.
Proof.
  intros Hl Hp Hr.
  apply cross_entropy_ok_inv in Hl
    as (hw & ow & p & _ & _ & Ep & [Hn Hrows] & HF & ->).
  assert (Hpos : 0 < INR (length Y)) by (apply lt_0_INR; lia).
  apply Rmult_le_pos.
  - apply Rlt_le. unfold Rdiv. rewrite Rmult_1_l.
    apply Rinv_0_lt_compat, Hpos.
  - apply Rplus_le_le_0_compat.
    + apply rsum_nonneg. intros i Hi.
      destruct (Hp p i (label (ncols p) Y i) Ep) as [H0 H1];
        [lia | apply label_lt; [exact HF | exact Hi] |].
      destruct H1 as [H1|H1].
      * pose proof (ln_increasing _ _ H0 H1) as Hln. rewrite ln_1 in Hln. lra.
      * rewrite H1, ln_1. lra.
    + pose proof (sum_square_nonneg hw). pose proof (sum_square_nonneg ow).
      apply Rmult_le_pos; lra.
Qed.

End Cost.

Lemma cross_entropy_nonneg_witness :
  exists l,
    cross_entropy Example.predict Example.model Example.X Example.Y 1 = Ok l /\
    (0 <= l)%R.
Proof.
  eexists. split; [reflexivity|].
  apply (cross_entropy_nonneg Example.predict Example.model Example.X
           Example.Y 1).
  - reflexivity.
  - intros p i j [= <-] _ _. simpl. lra.
  - lra.
Defined.

(** ** The loop of [build_model] *)

Section LoopRules.
Context {world : Type}.
Implicit Types (s : pystate world).

(** A property that every iteration hands on holds in every state that
    the loop reaches, and in the state in which it ends. *)
Lemma reaches_seq_invariant (body : nat -> M world unit)
    (P : nat -> pystate world -> Prop) :
  (forall j s s', P j s -> body j s = Ok (tt, s') -> P (S j) s') ->
  forall n a s0 i s,
    P a s0 -> reaches body (seq a n) s0 i s -> P i s.
Proof.
  intros Hstep. induction n as [|n IH]; intros a s0 i s H0 Hr; simpl in Hr.
  - inversion Hr.
  - inversion Hr as [i' l' s0' | j' l' s0' s1 i' s' Hj Hr']; subst.
    + exact H0.
    + eapply IH; [|exact Hr']. eapply Hstep; eassumption.
Qed.

Lemma for_each_seq_invariant (body : nat -> M world unit)
    (P : nat -> pystate world -> Prop) :
  (forall j s s', P j s -> body j s = Ok (tt, s') -> P (S j) s') ->
  forall n a s0 s',
    P a s0 -> for_each (seq a n) body s0 = Ok (tt, s') -> P (a + n) s'.
Proof.
  intros Hstep. induction n as [|n IH]; intros a s0 s' H0 Hr; simpl in Hr.
  - injection Hr as <-. rewrite Nat.add_0_r. exact H0.
  - apply bind_inv in Hr as ([] & s1 & H1 & Hr).
    replace (a + S n) with (S a + n) by lia.
    eapply IH; [|exact Hr]. eapply Hstep; eassumption.
Qed.

(** A loop whose iterations all return from the states they hand on
    returns, in a state with the property. *)
Lemma for_each_seq_returns (body : nat -> M world unit)
    (P : nat -> pystate world -> Prop) :
  (forall j s, P j s -> exists s', body j s = Ok (tt, s') /\ P (S j) s') ->
  forall n a s0,
    P a s0 ->
    exists s', for_each (seq a n) body s0 = Ok (tt, s') /\ P (a + n) s'.
Proof.
  intros Hstep. induction n as [|n IH]; intros a s0 H0; simpl.
  - exists s0. split; [reflexivity|]. rewrite Nat.add_0_r. exact H0.
  - destruct (Hstep _ _ H0) as (s1 & H1 & P1).
    rewrite (bind_ok _ _ _ _ _ H1).
    replace (a + S n) with (S a + n) by lia. apply (IH _ _ P1).
Qed.

(** *** The loss histories *)

Lemma losses_bind {A B} (c : M world A) (k : A -> M world B) :
  keeps_losses c -> (forall a, keeps_losses (k a)) -> keeps_losses (bind c k).
Proof.
  intros Hc Hk s b s' H. apply bind_inv in H as (a & s1 & H1 & H2).
  destruct (Hc _ _ _ H1) as (E1 & E2).
  destruct (Hk a _ _ _ H2) as (F1 & F2).
  split; congruence.
Qed.

Lemma losses_ret {A} (a : A) : keeps_losses (world := world) (ret a).
Proof. intros s a' s' [= _ <-]. split; reflexivity. Qed.

Lemma losses_lift {A} (c : exc A) : keeps_losses (world := world) (lift c).
Proof.
  intros s x s'. unfold lift. destruct c as [y|e]; [|discriminate].
  intros [= _ <-]. split; reflexivity.
Qed.

Lemma losses_getvar x : keeps_losses (world := world) (getvar x).
Proof.
  intros s a s'. unfold getvar. destruct (vars s !! x); [|discriminate].
  intros [= _ <-]. split; reflexivity.
Qed.

Lemma losses_setvar x l : keeps_losses (world := world) (setvar x l).
Proof. intros s a s' [= _ <-]. split; reflexivity. Qed.

Lemma losses_load_matrix x : keeps_losses (world := world) (load_matrix x).
Proof.
  intros s m s' H. apply load_matrix_state in H as ->. split; reflexivity.
Qed.

Lemma losses_load_vector x : keeps_losses (world := world) (load_vector x).
Proof.
  intros s v s'. unfold load_vector, load, getvar, deref, bind.
  destruct (vars s !! x) as [l|]; [|discriminate].
  destruct (heap s !! l) as [[v'|m']|]; try discriminate.
  intros [= _ <-]. split; reflexivity.
Qed.

Lemma losses_assign x v : keeps_losses (world := world) (assign x v).
Proof. intros s a s'. rewrite assign_ok. intros [= _ <-]. split; reflexivity. Qed.

Lemma losses_write x v : keeps_losses (world := world) (write x v).
Proof.
  unfold write. apply losses_bind; [apply losses_getvar|].
  intros l s a s' [= _ <-]. split; reflexivity.
Qed.

Lemma losses_load_model : keeps_losses (world := world) load_model.
Proof. intros s a s' [= _ <-]. split; reflexivity. Qed.

Lemma losses_rebuild_model : keeps_losses (world := world) rebuild_model.
Proof.
  unfold rebuild_model.
  repeat (apply losses_bind; [apply losses_getvar | intros ?]).
  intros s u s' [= _ <-]. split; reflexivity.
Qed.

End LoopRules.

Ltac losses :=
  repeat first
    [ apply losses_ret | apply losses_lift | apply losses_load_matrix
    | apply losses_load_vector | apply losses_load_model | apply losses_getvar
    | apply losses_setvar | apply losses_assign | apply losses_write
    | apply losses_rebuild_model
    | apply losses_bind; [|intros ?] ].

Section Histories.
Context {world handle dataset : Type}.
Variable extract_data : dataset -> exc (matrix * list Z).
Variable predict : gmap string matrix -> matrix -> exc matrix.
Variable randn : world -> (nat -> nat -> R) * world.
Variable plotting : plot_call handle -> world -> exc (list handle * world).
Variable plot_due : nat -> nat -> bool.
Implicit Types (s : pystate world).

Lemma losses_call (c : plot_call handle) :
  keeps_losses (world := world) (call plotting c).
Proof.
  intros s a s'. unfold call.
  destruct (plotting c (libs s)) as [[hs w]|]; [|discriminate].
  intros [= _ <-]. split; reflexivity.
Qed.

Lemma losses_training Y regularization learning_rate :
  keeps_losses (world := world)
    (bind forward_propagation (fun _ =>
       bind (backpropagation Y) (fun _ =>
         bind (add_regularization regularization) (fun _ =>
           bind (update_weights learning_rate) (fun _ => rebuild_model))))).
Proof.
  unfold forward_propagation, backpropagation, share_probs, subtract_targets,
    parameter_deltas, add_regularization, update_weights.
  losses.
Qed.

Lemma losses_plot_results (fig : figure handle) Y_train Y_test :
  keeps_losses (world := world) (plot_results plotting fig Y_train Y_test).
Proof.
  unfold plot_results.
  repeat first
    [ apply losses_ret | apply losses_load_matrix | apply losses_load_model
    | apply losses_call
    | apply losses_bind; [|intros ?] ].
  intros s u s' [= _ <-]. split; reflexivity.
Qed.

(** Every epoch that returns appends one loss to each history. *)
Lemma epoch_appends_losses fig Y_train Y_test epochs learning_rate
    regularization i s s' :
  epoch predict plotting plot_due fig Y_train Y_test epochs learning_rate
    regularization i s = Ok (tt, s') ->
  exists l1 l2,
    test_loss s' = (test_loss s ++ [l1])%list /\
    train_loss s' = (train_loss s ++ [l2])%list.
Proof.
  unfold epoch. intros H.
  apply bind_inv in H as ([] & s1 & H1 & H).
  apply bind_inv in H as ([] & s2 & H2 & H).
  apply bind_inv in H as ([] & s3 & H3 & H).
  apply bind_inv in H as ([] & s4 & H4 & H).
  apply bind_inv in H as ([] & s5 & H5 & H).
  apply bind_inv in H as ([] & s6 & H6 & H).
  assert (K : test_loss s6 = test_loss s /\ train_loss s6 = train_loss s).
  { assert (K5 : test_loss s5 = test_loss s /\ train_loss s5 = train_loss s).
    { apply (losses_training Y_train regularization learning_rate s tt s5).
      rewrite (bind_ok _ _ _ _ _ H1), (bind_ok _ _ _ _ _ H2),
        (bind_ok _ _ _ _ _ H3), (bind_ok _ _ _ _ _ H4). exact H5. }
    destruct K5 as [K5 K5'].
    assert (K6 : test_loss s6 = test_loss s5 /\ train_loss s6 = train_loss s5).
    { destruct (plot_due i epochs).
      - eapply losses_plot_results, H6.
      - eapply losses_ret, H6. }
    destruct K6 as [K6 K6']. split; congruence. }
  destruct K as [K1 K2].
  rewrite record_losses_steps in H.
  destruct (load_matrix "X_test" s6) as [[Xt ?]|]; [|discriminate].
  destruct (cross_entropy predict _ Xt Y_test regularization) as [l1|];
    [|discriminate].
  destruct (load_matrix "X_train" s6) as [[Xr ?]|]; [|discriminate].
  destruct (cross_entropy predict _ Xr Y_train regularization) as [l2|];
    [|discriminate].
  injection H as <-. exists l1, l2. cbn [test_loss train_loss].
  rewrite K1, K2. split; reflexivity.
Qed.

(** The statements before the loop leave both histories empty. *)
Lemma setup_losses train_data test_data d h k s r s0 :
  setup extract_data randn plotting train_data test_data d h k s =
    Ok (r, s0) ->
  test_loss s0 = [] /\ train_loss s0 = [].
Proof.
  unfold setup. intros H.
  apply bind_inv in H as (labels & s1 & _ & H).
  apply bind_inv in H as ([] & s2 & _ & H).
  apply bind_inv in H as (fig & s3 & _ & H).
  apply bind_inv in H as ([] & s4 & H4 & H).
  injection H4 as <-. injection H as _ <-. split; reflexivity.
Qed.

(** X4: the loss histories grow by one entry per epoch.  In a call of
    [build_model], the epoch [i] starts with [i - 1] entries in
    [test_loss] and in [train_loss] (these are the lists that
    [plot_error] is given in that epoch), and when the call returns both
    lists have [epochs] entries. *)
Theorem loss_histories train_data test_data d h k epochs learning_rate
    regularization s :
  (forall fig Y_train Y_test s0 i si,
     setup extract_data randn plotting train_data test_data d h k s =
       Ok ((fig, (Y_train, Y_test)), s0) ->
     reaches (epoch predict plotting plot_due fig Y_train Y_test epochs
                learning_rate regularization) (seq 1 epochs) s0 i si ->
     length (test_loss si) = i - 1 /\ length (train_loss si) = i - 1) /\
  (forall s',
     build_model extract_data predict randn plotting plot_due train_data
       test_data d h k epochs learning_rate regularization s = Ok (tt, s') ->
     length (test_loss s') = epochs /\ length (train_loss s') = epochs).
Proof.
  assert (Hstep : forall fig Y_train Y_test j s1 s2,
    (length (test_loss s1) = j - 1 /\ length (train_loss s1) = j - 1 /\
     1 <= j) ->
    epoch predict plotting plot_due fig Y_train Y_test epochs learning_rate
      regularization j s1 = Ok (tt, s2) ->
    length (test_loss s2) = S j - 1 /\ length (train_loss s2) = S j - 1 /\
    1 <= S j).
  { intros fig Y_train Y_test j s1 s2 (L1 & L2 & Hj) He.
    apply epoch_appends_losses in He as (l1 & l2 & E1 & E2).
    rewrite E1, E2, !length_app, L1, L2. simpl. lia. }
  split.
  - intros fig Y_train Y_test s0 i si Hs Hr.
    apply setup_losses in Hs as [E1 E2].
    pose proof (reaches_seq_invariant _
      (fun j s1 => length (test_loss s1) = j - 1 /\
                   length (train_loss s1) = j - 1 /\ 1 <= j)
      (Hstep fig Y_train Y_test) epochs 1 s0 i si) as HI.
    destruct HI as (L1 & L2 & _); [|exact Hr|split; assumption].
    rewrite E1, E2. simpl. lia.
  - intros s' Hb. unfold build_model in Hb.
    apply bind_inv in Hb as ([fig [Y_train Y_test]] & s0 & Hs & Hb).
    apply setup_losses in Hs as [E1 E2]. cbn [fst snd] in Hb.
    pose proof (for_each_seq_invariant _
      (fun j s1 => length (test_loss s1) = j - 1 /\
                   length (train_loss s1) = j - 1 /\ 1 <= j)
      (Hstep fig Y_train Y_test) epochs 1 s0 s') as HI.
    destruct HI as (L1 & L2 & _); [|exact Hb|].
    + rewrite E1, E2. simpl. lia.
    + split; lia.
Qed.

End Histories.

(** *** An epoch from a training state *)

Section EpochResult.
Context {world handle : Type}.
Variable predict : gmap string matrix -> matrix -> exc matrix.
Variable plotting : plot_call handle -> world -> exc (list handle * world).
Variable plot_due : nat -> nat -> bool.
Implicit Types (s : pystate world) (Y : list Z) (X hw hb ow ob : matrix).

Lemma training_state_loc_of Y X hw hb ow ob s :
  training_state Y X hw hb ow ob s ->
  vars s !! "hidden_weights" = Some (loc_of s "hidden_weights") /\
  vars s !! "hidden_bias" = Some (loc_of s "hidden_bias") /\
  vars s !! "output_weights" = Some (loc_of s "output_weights") /\
  vars s !! "output_bias" = Some (loc_of s "output_bias").
Proof.
  intros T.
  destruct (training_state_locs _ _ _ _ _ _ _ T)
    as (lX & lhw & lhb & low & lob & [VX HX] & [Vhw Hhw] & [Vhb Hhb] &
        [Vow How] & [Vob Hob] & Hlt & Hne).
  unfold loc_of. rewrite Vhw, Vhb, Vow, Vob. repeat split.
Qed.

(** The names bound before the loop are not bound again in an epoch. *)
Lemma updated_vars Y X hw hb ow ob regularization learning_rate s x :
  x = "X_train" \/ x = "X_test" \/ x = "hidden_weights" \/
  x = "hidden_bias" \/ x = "output_weights" \/ x = "output_bias" ->
  vars (updated_state Y X hw hb ow ob regularization learning_rate s) !! x =
  vars s !! x.
Proof.
  intros Hx. stages. proj.
  destruct Hx as [->|[->|[->|[->|[->| ->]]]]];
    rewrite !lookup_insert_ne by done; reflexivity.
Qed.

Lemma rebuild_run Y X hw hb ow ob regularization learning_rate s :
  training_state Y X hw hb ow ob s ->
  rebuild_model
    (updated_state Y X hw hb ow ob regularization learning_rate s) =
  Ok (tt, rebuilt_state Y X hw hb ow ob regularization learning_rate s).
Proof.
  intros T.
  destruct (training_state_loc_of _ _ _ _ _ _ _ T) as (V1 & V2 & V3 & V4).
  unfold rebuild_model.
  erewrite bind_ok by (apply getvar_ok; rewrite updated_vars by tauto;
                       exact V1).
  erewrite bind_ok by (apply getvar_ok; rewrite updated_vars by tauto;
                       exact V2).
  erewrite bind_ok by (apply getvar_ok; rewrite updated_vars by tauto;
                       exact V3).
  erewrite bind_ok by (apply getvar_ok; rewrite updated_vars by tauto;
                       exact V4).
  reflexivity.
Qed.

(** From a training state, an epoch is the plotting and the two loss
    computations in the state that the update and the new dictionary
    leave. *)
Lemma epoch_from_training_state fig Y Y_test epochs learning_rate
    regularization i X hw hb ow ob s :
  training_state Y X hw hb ow ob s ->
  epoch predict plotting plot_due fig Y Y_test epochs learning_rate
    regularization i s =
  bind (if plot_due i epochs then plot_results plotting fig Y Y_test
        else ret tt)
    (fun _ => record_losses predict Y Y_test regularization)
    (rebuilt_state Y X hw hb ow ob regularization learning_rate s).
Proof.
  intros T.
  destruct (epoch_blocks_run _ _ _ _ _ _ regularization learning_rate _ T)
    as (H1 & _ & _ & _).
  pose proof (backward_run _ _ _ _ _ _ _ T) as H2.
  pose proof (regularize_run _ _ _ _ _ _ regularization _ T) as H3.
  pose proof (update_run _ _ _ _ _ _ regularization learning_rate _ T) as H4.
  pose proof (rebuild_run _ _ _ _ _ _ regularization learning_rate _ T) as H5.
  unfold epoch.
  rewrite (bind_ok _ _ _ _ _ H1), (bind_ok _ _ _ _ _ H2),
    (bind_ok _ _ _ _ _ H3), (bind_ok _ _ _ _ _ H4), (bind_ok _ _ _ _ _ H5).
  reflexivity.
Qed.

(** The arrays that the new dictionary refers to are the updated
    parameters. *)
Lemma rebuilt_arrays Y X hw hb ow ob regularization learning_rate s :
  training_state Y X hw hb ow ob s ->
  arrays_of
    (model (rebuilt_state Y X hw hb ow ob regularization learning_rate s))
    (heap (rebuilt_state Y X hw hb ow ob regularization learning_rate s)) =
  updated_model Y X hw hb ow ob regularization learning_rate.
Proof.
  intros T.
  pose proof (updated_training_state (fun _ _ => true) _ _ _ _ _ _
                regularization learning_rate _ T) as [_ Uhw Uhb Uow Uob _ _ _ _ _ _ _ _].
  destruct (training_state_loc_of _ _ _ _ _ _ _ T) as (V1 & V2 & V3 & V4).
  unfold array_at in Uhw, Uhb, Uow, Uob.
  rewrite updated_vars in Uhw, Uhb, Uow, Uob by tauto.
  rewrite V1 in Uhw. rewrite V2 in Uhb. rewrite V3 in Uow. rewrite V4 in Uob.
  unfold rebuilt_state, rebuilt_model, updated_model, arrays_of. proj.
  erewrite omap_insert_Some by (cbv beta; rewrite Uob; reflexivity).
  erewrite omap_insert_Some by (cbv beta; rewrite Uow; reflexivity).
  erewrite omap_insert_Some by (cbv beta; rewrite Uhb; reflexivity).
  erewrite omap_insert_Some by (cbv beta; rewrite Uhw; reflexivity).
  rewrite omap_empty. reflexivity.
Qed.

End EpochResult.

Section Plots.
Context {world handle : Type}.
Variable plotting : plot_call handle -> world -> exc (list handle * world).
Implicit Types (s : pystate world).

Lemma set_libs_same s : set_libs (libs s) s = s.
Proof. destruct s. reflexivity. Qed.

Lemma libs_bind {A B} (c : M world A) (k : A -> M world B) :
  only_libs c -> (forall a, only_libs (k a)) -> only_libs (bind c k).
Proof.
  intros Hc Hk s b s' H. apply bind_inv in H as (a & s1 & H1 & H2).
  rewrite (Hk a _ _ _ H2). rewrite (Hc _ _ _ H1). reflexivity.
Qed.

Lemma libs_ret {A} (a : A) : only_libs (world := world) (ret a).
Proof. intros s a' s' [= _ <-]. symmetry. apply set_libs_same. Qed.

Lemma libs_load_matrix x : only_libs (world := world) (load_matrix x).
Proof.
  intros s m s' H. apply load_matrix_state in H as ->.
  symmetry. apply set_libs_same.
Qed.

Lemma libs_load_model : only_libs (world := world) load_model.
Proof. intros s a s' [= _ <-]. symmetry. apply set_libs_same. Qed.

Lemma libs_call (c : plot_call handle) :
  only_libs (world := world) (call plotting c).
Proof.
  intros s a s'. unfold call.
  destruct (plotting c (libs s)) as [[hs w]|]; [|discriminate].
  intros [= _ <-]. reflexivity.
Qed.

(** The plotting code of an epoch changes nothing but the state of the
    libraries. *)
Lemma libs_plot_results (fig : figure handle) Y_train Y_test :
  only_libs (world := world) (plot_results plotting fig Y_train Y_test).
Proof.
  unfold plot_results.
  repeat first
    [ apply libs_ret | apply libs_load_matrix | apply libs_load_model
    | apply libs_call
    | apply libs_bind; [|intros ?] ].
  intros s u s' [= _ <-]. symmetry. apply set_libs_same.
Qed.

Lemma load_matrix_array_at x s m s' :
  load_matrix x s = Ok (m, s') -> array_at s x = Some (Arr2 m).
Proof.
  unfold load_matrix, load, getvar, deref, bind, array_at.
  destruct (vars s !! x) as [l|]; [|discriminate].
  destruct (heap s !! l) as [[v|m']|]; try discriminate.
  intros [= <- _]. reflexivity.
Qed.

Lemma array_at_load_matrix x s m :
  array_at s x = Some (Arr2 m) -> load_matrix x s = Ok (m, s).
Proof.
  intros H. apply array_at_inv in H as (l & Hv & Hh).
  eapply load_matrix_ok; eassumption.
Qed.

End Plots.

Section EpochModel.
Context {world handle : Type}.
Variable predict : gmap string matrix -> matrix -> exc matrix.
Variable plotting : plot_call handle -> world -> exc (list handle * world).
Variable plot_due : nat -> nat -> bool.
Implicit Types (s : pystate world) (Y : list Z) (X hw hb ow ob : matrix).

(** The state in which an epoch that starts in a training state ends. *)
Lemma epoch_result fig Y Y_test epochs learning_rate regularization i
    X hw hb ow ob s s' :
  training_state Y X hw hb ow ob s ->
  epoch predict plotting plot_due fig Y Y_test epochs learning_rate
    regularization i s = Ok (tt, s') ->
  let u := rebuilt_state Y X hw hb ow ob regularization learning_rate s in
  let m := updated_model Y X hw hb ow ob regularization learning_rate in
  exists Xt l1 l2,
    array_at u "X_test" = Some (Arr2 Xt) /\
    cross_entropy predict m Xt Y_test regularization = Ok l1 /\
    cross_entropy predict m X Y regularization = Ok l2 /\
    s' = PyState (heap u) (next u) (vars u) (model u)
           (test_loss s ++ [l1]) (train_loss s ++ [l2]) (libs s').
Proof.
  intros T He u m.
  rewrite (epoch_from_training_state predict plotting plot_due fig Y Y_test
             epochs learning_rate regularization i X hw hb ow ob s T) in He.
  fold u in He.
  apply bind_inv in He as ([] & s6 & H6 & He).
  assert (E6 : s6 = set_libs (libs s6) u).
  { destruct (plot_due i epochs).
    - eapply libs_plot_results, H6.
    - eapply libs_ret, H6. }
  assert (Eh : heap s6 = heap u) by (rewrite E6; reflexivity).
  assert (Ev : vars s6 = vars u) by (rewrite E6; reflexivity).
  assert (Ed : model s6 = model u) by (rewrite E6; reflexivity).
  assert (Et1 : test_loss s6 = test_loss s) by (rewrite E6; reflexivity).
  assert (Et2 : train_loss s6 = train_loss s) by (rewrite E6; reflexivity).
  assert (En : next s6 = next u) by (rewrite E6; reflexivity).
  clear E6.
  pose proof (updated_training_state (fun _ _ => true) _ _ _ _ _ _
                regularization learning_rate _ T) as [UX _ _ _ _ _ _ _ _ _ _ _ _].
  assert (HX : array_at s6 "X_train" = Some (Arr2 X)).
  { unfold array_at. rewrite Ev, Eh. exact UX. }
  assert (Hm : arrays_of (model s6) (heap s6) = m).
  { rewrite Ed, Eh. apply rebuilt_arrays, T. }
  rewrite record_losses_steps, Hm in He.
  destruct (load_matrix "X_test" s6) as [[Xt s7]|] eqn:Et; [|discriminate].
  apply load_matrix_array_at in Et.
  destruct (cross_entropy predict m Xt Y_test regularization) as [l1|]
    eqn:E1; [|discriminate].
  rewrite (array_at_load_matrix _ _ _ HX) in He.
  destruct (cross_entropy predict m X Y regularization) as [l2|]
    eqn:E2; [|discriminate].
  injection He as <-.
  exists Xt, l1, l2.
  split; [unfold array_at in Et |- *; rewrite Ev, Eh in Et; exact Et|].
  split; [exact E1|]. split; [reflexivity|].
  cbn [libs]. rewrite Eh, Ev, Ed, Et1, Et2, En. reflexivity.
Qed.

(** X5: the losses of an epoch are computed with the updated
    parameters.  After an epoch that starts in a training state and
    returns, the dictionary [model] has the keys 'HW', 'HB', 'OW', 'OB'
    and refers to the very arrays that the four parameter names refer to
    after the update, and the entries appended to [test_loss] and
    [train_loss] are what [cross_entropy] returns for that dictionary on
    the test and on the training points. *)
Theorem recorded_losses_use_updated_parameters fig Y Y_test epochs
    learning_rate regularization i X hw hb ow ob s s' :
  training_state Y X hw hb ow ob s ->
  epoch predict plotting plot_due fig Y Y_test epochs learning_rate
    regularization i s = Ok (tt, s') ->
  exists hw' hb' ow' ob' Xt l1 l2,
    (array_at s' "hidden_weights" = Some (Arr2 hw') /\
     array_at s' "hidden_bias" = Some (Arr2 hb') /\
     array_at s' "output_weights" = Some (Arr2 ow') /\
     array_at s' "output_bias" = Some (Arr2 ob')) /\
    arrays_of (model s') (heap s') =
      <["OB" := ob']> (<["OW" := ow']> (<["HB" := hb']>
        (<["HW" := hw']> ∅))) /\
    array_at s' "X_test" = Some (Arr2 Xt) /\
    cross_entropy predict (arrays_of (model s') (heap s')) Xt Y_test
      regularization = Ok l1 /\
    cross_entropy predict (arrays_of (model s') (heap s')) X Y
      regularization = Ok l2 /\
    test_loss s' = (test_loss s ++ [l1])%list /\
    train_loss s' = (train_loss s ++ [l2])%list.
Proof.
  intros T He.
  destruct (epoch_result _ _ _ _ _ _ _ _ _ _ _ _ _ _ T He)
    as (Xt & l1 & l2 & Et & E1 & E2 & ->).
  pose proof (updated_training_state (fun _ _ => true) _ _ _ _ _ _
                regularization learning_rate _ T) as [_ Uhw Uhb Uow Uob _ _ _ _ _ _ _ _].
  pose proof (rebuilt_arrays Y X hw hb ow ob regularization learning_rate s T)
    as Hm.
  eexists _, _, _, _, Xt, l1, l2.
  split; [exact (conj Uhw (conj Uhb (conj Uow Uob)))|].
  cbn [heap model test_loss train_loss].
  rewrite Hm. split; [reflexivity|].
  split; [exact Et|]. split; [exact E1|]. split; [exact E2|].
  split; reflexivity.
Qed.

(** X6: an epoch does not read the dictionary [model] it starts with:
    from a training state, the epoch returns the same state or raises
    the same exception whatever dictionary is there, the one with the key
    'Hb' that is built before the loop included. *)
Theorem epoch_ignores_model fig Y Y_test epochs learning_rate
    regularization i X hw hb ow ob s (d : gmap string nat) :
  training_state Y X hw hb ow ob s ->
  epoch predict plotting plot_due fig Y Y_test epochs learning_rate
    regularization i (set_model d s) =
  epoch predict plotting plot_due fig Y Y_test epochs learning_rate
    regularization i s.
Proof.
  intros T.
  assert (T' : training_state Y X hw hb ow ob (set_model d s))
    by (eapply training_state_same_store; [| | |exact T]; reflexivity).
  rewrite (epoch_from_training_state predict plotting plot_due fig Y Y_test
             epochs learning_rate regularization i X hw hb ow ob _ T').
  rewrite (epoch_from_training_state predict plotting plot_due fig Y Y_test
             epochs learning_rate regularization i X hw hb ow ob _ T).
  reflexivity.
Qed.

End EpochModel.

(** *** The store in which the loop starts *)

Section Setup.
Context {world handle dataset : Type}.
Variable extract_data : dataset -> exc (matrix * list Z).
Variable predict : gmap string matrix -> matrix -> exc matrix.
Variable randn : world -> (nat -> nat -> R) * world.
Variable plotting : plot_call handle -> world -> exc (list handle * world).
Variable plot_due : nat -> nat -> bool.
Implicit Types (s : pystate world) (Y : list Z) (X hw hb ow ob : matrix).

Lemma column_ok_inv a j v : column a j = Ok v -> j < ncols a.
Proof.
  unfold column. destruct (Nat.ltb_spec j (ncols a)); [lia | discriminate].
Qed.

Lemma lift_inv {A} (c : exc A) s a s' :
  lift (world := world) c s = Ok (a, s') -> c = Ok a /\ s' = s.
Proof.
  unfold lift. destruct c; [|discriminate]. intros [= -> ->]. split; reflexivity.
Qed.

Lemma call_ok (c : plot_call handle) s hs w :
  plotting c (libs s) = Ok (hs, w) ->
  call plotting c s = Ok (hs, set_libs w s).
Proof. intros H. unfold call. rewrite H. reflexivity. Qed.

(** [prepare_plots] reads the columns 0 and 1 of both arrays. *)
Lemma prepare_plots_columns Y_test s fig s' X Xt :
  prepare_plots plotting Y_test s = Ok (fig, s') ->
  array_at s "X_train" = Some (Arr2 X) ->
  array_at s "X_test" = Some (Arr2 Xt) ->
  2 <= ncols X /\ 2 <= ncols Xt.
Proof.
  intros H HX HXt.
  assert (LX : forall s1, heap s1 = heap s -> vars s1 = vars s ->
            load_matrix "X_train" s1 = Ok (X, s1)).
  { intros s1 Eh Ev. apply array_at_load_matrix.
    unfold array_at. rewrite Ev, Eh. exact HX. }
  assert (LXt : forall s1, heap s1 = heap s -> vars s1 = vars s ->
            load_matrix "X_test" s1 = Ok (Xt, s1)).
  { intros s1 Eh Ev. apply array_at_load_matrix.
    unfold array_at. rewrite Ev, Eh. exact HXt. }
  unfold prepare_plots in H.
  rewrite (bind_ok _ _ _ _ _ (LX s eq_refl eq_refl)) in H.
  apply bind_inv in H as (g1 & s1 & H1 & H).
  apply keeps_call in H1 as (Eh1 & Ev1 & _).
  apply bind_inv in H as (tg & s2 & H2 & H).
  apply keeps_unpack2 in H2 as (Eh2 & Ev2 & _).
  rewrite Eh1 in Eh2. rewrite Ev1 in Ev2.
  rewrite (bind_ok _ _ _ _ _ (LXt s2 Eh2 Ev2)) in H.
  apply bind_inv in H as (g2 & s3 & H3 & H).
  apply keeps_call in H3 as (Eh3 & Ev3 & _).
  apply bind_inv in H as (tg2 & s4 & H4 & H).
  apply keeps_unpack2 in H4 as (Eh4 & Ev4 & _).
  apply bind_inv in H as (f & s5 & H5 & H).
  apply keeps_call in H5 as (Eh5 & Ev5 & _).
  apply bind_inv in H as (axes & s6 & H6 & H).
  apply keeps_unpack4 in H6 as (Eh6 & Ev6 & _).
  assert (Eh : heap s6 = heap s) by congruence.
  assert (Ev : vars s6 = vars s) by congruence.
  cbv zeta in H.
  rewrite (bind_ok _ _ _ _ _ (LX s6 Eh Ev)) in H.
  apply bind_inv in H as (xs & s7 & H7 & H).
  apply lift_inv in H7 as [_ ->].
  rewrite (bind_ok _ _ _ _ _ (LX s6 Eh Ev)) in H.
  apply bind_inv in H as (ys & s7 & H7 & H).
  apply lift_inv in H7 as [C1 ->]. apply column_ok_inv in C1.
  apply bind_inv in H as (u & s8 & H8 & H).
  apply keeps_call in H8 as (Eh8 & Ev8 & _).
  assert (Eh' : heap s8 = heap s) by congruence.
  assert (Ev' : vars s8 = vars s) by congruence.
  rewrite (bind_ok _ _ _ _ _ (LXt s8 Eh' Ev')) in H.
  apply bind_inv in H as (xs' & s9 & H9 & H).
  apply lift_inv in H9 as [_ ->].
  rewrite (bind_ok _ _ _ _ _ (LXt s8 Eh' Ev')) in H.
  apply bind_inv in H as (ys' & s9 & H9 & H).
  apply lift_inv in H9 as [C2 ->]. apply column_ok_inv in C2.
  split; lia.
Qed.

(** The plotting code before the loop returns when the plotting calls
    return, [mesh_grid] two objects and [plt.subplots] a figure and three
    axes, and both arrays have the columns 0 and 1. *)
Lemma prepare_plots_returns Y_test s X Xt :
  (forall c w, exists hs w', plotting c w = Ok (hs, w')) ->
  (forall A w, exists a b w', plotting (MeshGrid A) w = Ok ([a; b], w')) ->
  (forall w, exists f a b c w',
     plotting Subplots w = Ok ([f; a; b; c], w')) ->
  array_at s "X_train" = Some (Arr2 X) ->
  array_at s "X_test" = Some (Arr2 Xt) ->
  2 <= ncols X -> 2 <= ncols Xt ->
  exists fig s', prepare_plots plotting Y_test s = Ok (fig, s').
Proof.
  intros Hall Hmesh Hsub HX HXt CX CXt.
  assert (LX : forall w, load_matrix "X_train" (set_libs w s) =
                         Ok (X, set_libs w s)).
  { intros w. apply array_at_load_matrix. exact HX. }
  assert (LXt : forall w, load_matrix "X_test" (set_libs w s) =
                          Ok (Xt, set_libs w s)).
  { intros w. apply array_at_load_matrix. exact HXt. }
  assert (C0 : forall A, 2 <= ncols A ->
            column A 0 = Ok (Vector (nrows A) (fun i => item A i 0)) /\
            column A 1 = Ok (Vector (nrows A) (fun i => item A i 1))).
  { intros A HA. unfold column.
    destruct (Nat.ltb_spec 0 (ncols A)); [|lia].
    destruct (Nat.ltb_spec 1 (ncols A)); [|lia]. split; reflexivity. }
  destruct (C0 X CX) as [CX0 CX1]. destruct (C0 Xt CXt) as [CXt0 CXt1].
  unfold prepare_plots.
  rewrite (bind_ok _ _ _ _ _ (array_at_load_matrix _ _ _ HX)).
  destruct (Hmesh X (libs s)) as (a1 & b1 & w1 & E1).
  rewrite (bind_ok _ _ _ _ _ (call_ok _ _ _ _ E1)).
  rewrite (bind_ok _ _ _ _ _ (eq_refl : unpack2 [a1; b1] _ = Ok ((a1, b1), _))).
  rewrite (bind_ok _ _ _ _ _ (LXt w1)).
  destruct (Hmesh Xt w1) as (a2 & b2 & w2 & E2).
  rewrite (bind_ok _ _ _ _ _ (call_ok _ (set_libs w1 s) _ _ E2)).
  rewrite (bind_ok _ _ _ _ _ (eq_refl : unpack2 [a2; b2] _ = Ok ((a2, b2), _))).
  destruct (Hsub w2) as (f & x1 & x2 & x3 & w3 & E3).
  rewrite (bind_ok _ _ _ _ _ (call_ok _ (set_libs w2 (set_libs w1 s)) _ _ E3)).
  rewrite (bind_ok _ _ _ _ _
             (eq_refl : unpack4 [f; x1; x2; x3] _ = Ok ((f, x1, x2, x3), _))).
  cbv zeta. cbn [fst snd].
  rewrite (bind_ok _ _ _ _ _ (LX w3)).
  rewrite (bind_ok _ _ _ _ _ (lift_ok _ _ _ CX0)).
  rewrite (bind_ok _ _ _ _ _ (LX w3)).
  rewrite (bind_ok _ _ _ _ _ (lift_ok _ _ _ CX1)).
  match goal with |- context [call plotting ?c] =>
    destruct (Hall c w3) as (hs4 & w4 & E4) end.
  rewrite (bind_ok _ _ _ _ _ (call_ok _ (set_libs w3 s) _ _ E4)).
  rewrite (bind_ok _ _ _ _ _ (LXt w4)).
  rewrite (bind_ok _ _ _ _ _ (lift_ok _ _ _ CXt0)).
  rewrite (bind_ok _ _ _ _ _ (LXt w4)).
  rewrite (bind_ok _ _ _ _ _ (lift_ok _ _ _ CXt1)).
  match goal with |- context [call plotting ?c] =>
    destruct (Hall c w4) as (hs5 & w5 & E5) end.
  rewrite (bind_ok _ _ _ _ _ (call_ok _ (set_libs w4 s) _ _ E5)).
  eexists _, _. reflexivity.
Qed.

End Setup.

Ltac look_setup :=
  unfold setup_vars, setup_heap;
  repeat first [rewrite lookup_insert_eq | rewrite lookup_insert_ne by done];
  repeat first [rewrite lookup_insert_eq | rewrite lookup_insert_ne by lia];
  reflexivity.

Section SetupStore.
Context {world handle dataset : Type}.
Variable extract_data : dataset -> exc (matrix * list Z).
Variable randn : world -> (nat -> nat -> R) * world.
Variable plotting : plot_call handle -> world -> exc (list handle * world).
Implicit Types (s : pystate world) (Y : list Z) (X hw hb ow ob : matrix).

(** The state after the data are loaded and the parameters made. *)
Lemma initialized_store train_data test_data d h k s X Y Xt Y_test :
  extract_data train_data = Ok (X, Y) ->
  extract_data test_data = Ok (Xt, Y_test) ->
  exists s1 s2 hw ow,
    load_data extract_data train_data test_data s = Ok ((Y, Y_test), s1) /\
    initialize randn d h k s1 = Ok (tt, s2) /\
    (nrows hw = d /\ ncols hw = h) /\ (nrows ow = h /\ ncols ow = k) /\
    heap s2 = setup_heap (next s) X Xt hw ow h k (heap s) /\
    vars s2 = setup_vars (next s) (vars s) /\
    next s2 = 6 + next s.
Proof.
  intros Etrain Etest.
  assert (Hd : load_data extract_data train_data test_data s =
    Ok ((Y, Y_test),
        PyState (<[1 + next s := Arr2 Xt]> (<[next s := Arr2 X]> (heap s)))
          (2 + next s)
          (<["X_test" := 1 + next s]> (<["X_train" := next s]> (vars s)))
          (model s) (test_loss s) (train_loss s) (libs s))).
  { unfold load_data. rewrite Etrain.
    erewrite bind_ok by reflexivity. step_assign.
    rewrite Etest. erewrite bind_ok by reflexivity. step_assign.
    reflexivity. }
  match type of Hd with _ = Ok (_, ?s1) =>
    destruct (initialize_run randn d h k s1)
      as (s2 & hw & ow & Hi & Eh & Ev & En & _ & Shw & Sow)
  end.
  eexists _, s2, hw, ow.
  split; [exact Hd|]. split; [exact Hi|].
  split; [exact Shw|]. split; [exact Sow|].
  cbn [heap vars next] in Eh, Ev, En.
  split; [exact Eh|]. split; [exact Ev|]. exact En.
Qed.

(** The store in which the loop of [build_model] starts. *)
Lemma setup_store train_data test_data d h k s fig Y Y_test s0 :
  setup extract_data randn plotting train_data test_data d h k s =
    Ok ((fig, (Y, Y_test)), s0) ->
  exists X Xt hw ow,
    extract_data train_data = Ok (X, Y) /\
    extract_data test_data = Ok (Xt, Y_test) /\
    (nrows hw = d /\ ncols hw = h) /\ (nrows ow = h /\ ncols ow = k) /\
    heap s0 = setup_heap (next s) X Xt hw ow h k (heap s) /\
    vars s0 = setup_vars (next s) (vars s) /\
    next s0 = 6 + next s /\
    2 <= ncols X /\ 2 <= ncols Xt.
Proof.
  intros Hs. unfold setup in Hs.
  apply bind_inv in Hs as ([Ya Yb] & s1 & Hd & Hs).
  destruct (extract_data train_data) as [[X Y']|e] eqn:Etrain.
  2:{ unfold load_data in Hd. rewrite Etrain in Hd. discriminate. }
  destruct (extract_data test_data) as [[Xt Yt']|e] eqn:Etest.
  2:{ unfold load_data in Hd. rewrite Etrain, Etest in Hd. discriminate. }
  destruct (initialized_store train_data test_data d h k s X Y' Xt Yt'
              Etrain Etest)
    as (s1' & s2 & hw & ow & Hd' & Hi & Shw & Sow & Eh & Ev & En).
  rewrite Hd' in Hd. injection Hd as <- <- <-.
  rewrite (bind_ok _ _ _ _ _ Hi) in Hs.
  apply bind_inv in Hs as (fig' & s3 & H3 & Hs).
  pose proof H3 as H3'.
  apply keeps_prepare_plots in H3 as (Fh & Fv & Fn).
  apply bind_inv in Hs as ([] & s4 & H4 & Hs).
  injection H4 as <-. injection Hs as <- <- <- <-.
  exists X, Xt, hw, ow.
  split; [reflexivity|]. split; [reflexivity|].
  split; [exact Shw|]. split; [exact Sow|].
  cbn [heap vars next].
  split; [rewrite Fh; exact Eh|].
  split; [rewrite Fv; exact Ev|].
  split; [rewrite Fn; exact En|].
  eapply prepare_plots_columns; [exact H3'| |].
  - unfold array_at. rewrite Ev, Eh.
    replace (setup_vars (next s) (vars s) !! "X_train") with (Some (next s))
      by (symmetry; look_setup).
    look_setup.
  - unfold array_at. rewrite Ev, Eh.
    replace (setup_vars (next s) (vars s) !! "X_test")
      with (Some (1 + next s)) by (symmetry; look_setup).
    look_setup.
Qed.

(** The statements before the loop return when [extract_data] returns
    arrays with the columns 0 and 1 and the plotting calls return. *)
Lemma setup_returns train_data test_data d h k s X Y Xt Y_test :
  extract_data train_data = Ok (X, Y) ->
  extract_data test_data = Ok (Xt, Y_test) ->
  2 <= ncols X -> 2 <= ncols Xt ->
  (forall c w, exists hs w', plotting c w = Ok (hs, w')) ->
  (forall A w, exists a b w', plotting (MeshGrid A) w = Ok ([a; b], w')) ->
  (forall w, exists f a b c w',
     plotting Subplots w = Ok ([f; a; b; c], w')) ->
  exists fig s0,
    setup extract_data randn plotting train_data test_data d h k s =
      Ok ((fig, (Y, Y_test)), s0).
Proof.
  intros Etrain Etest CX CXt Hall Hmesh Hsub.
  destruct (initialized_store train_data test_data d h k s X Y Xt Y_test
              Etrain Etest)
    as (s1 & s2 & hw & ow & Hd & Hi & Shw & Sow & Eh & Ev & En).
  destruct (prepare_plots_returns plotting Y_test s2 X Xt Hall Hmesh Hsub)
    as (fig & s3 & Hp); try assumption.
  - unfold array_at. rewrite Ev, Eh.
    replace (setup_vars (next s) (vars s) !! "X_train") with (Some (next s))
      by (symmetry; look_setup).
    look_setup.
  - unfold array_at. rewrite Ev, Eh.
    replace (setup_vars (next s) (vars s) !! "X_test")
      with (Some (1 + next s)) by (symmetry; look_setup).
    look_setup.
  - unfold setup.
    rewrite (bind_ok _ _ _ _ _ Hd), (bind_ok _ _ _ _ _ Hi).
    cbn [snd]. rewrite (bind_ok _ _ _ _ _ Hp).
    eexists _, _. reflexivity.
Qed.

(** In the store that the statements before the loop leave, the names
    refer to the objects [b], ..., [b + 5]. *)
Lemma setup_loop_store b X Xt hw ow h k s0 hp v :
  heap s0 = setup_heap b X Xt hw ow h k hp ->
  vars s0 = setup_vars b v ->
  next s0 = 6 + b ->
  loop_store b Xt s0.
Proof.
  intros Eh Ev En.
  constructor; rewrite ?Ev, ?Eh, ?En; first [look_setup | lia].
Qed.

(** It is a training state when the training points have
    [input_dimensions] columns and one valid label each. *)
Lemma setup_store_training_state b Y X Xt hw ow d h k s0 hp v :
  heap s0 = setup_heap b X Xt hw ow h k hp ->
  vars s0 = setup_vars b v ->
  next s0 = 6 + b ->
  map_Forall (fun _ l => l < b) v ->
  (nrows hw = d /\ ncols hw = h) -> (nrows ow = h /\ ncols ow = k) ->
  ncols X = d -> length Y = nrows X ->
  Forall (fun y => (- Z.of_nat k <= y < Z.of_nat k)%Z) Y ->
  training_state Y X hw (zeros 1 h) ow (zeros 1 k) s0.
Proof.
  intros Eh Ev En Hal [Shw1 Shw2] [Sow1 Sow2] SX HY HL.
  constructor; unfold array_at; rewrite ?Ev, ?Eh, ?En.
  - replace (setup_vars b v !! "X_train") with (Some b)
      by (symmetry; look_setup). look_setup.
  - replace (setup_vars b v !! "hidden_weights") with (Some (2 + b))
      by (symmetry; look_setup). look_setup.
  - replace (setup_vars b v !! "hidden_bias") with (Some (3 + b))
      by (symmetry; look_setup). look_setup.
  - replace (setup_vars b v !! "output_weights") with (Some (4 + b))
      by (symmetry; look_setup). look_setup.
  - replace (setup_vars b v !! "output_bias") with (Some (5 + b))
      by (symmetry; look_setup). look_setup.
  - unfold setup_vars.
    repeat first [rewrite lookup_insert_eq | rewrite lookup_insert_ne by done].
    repeat (apply NoDup_cons_2;
            [ let H := fresh in
              rewrite ?elem_of_cons, elem_of_nil; intros H;
              repeat (destruct H as [H|H]; [injection H; lia|]);
              exact H
            | ]).
    apply NoDup_nil_2.
  - unfold setup_vars.
    repeat (apply map_Forall_insert_2; [lia|]).
    intros x l Hx. specialize (Hal x l Hx). simpl in Hal. lia.
  - lia.
  - simpl. split; [reflexivity | lia].
  - lia.
  - simpl. split; [reflexivity | lia].
  - exact HY.
  - rewrite Sow2. exact HL.
Qed.

End SetupStore.

(** *** What an epoch hands on to the next one *)

Section LoopStore.
Context {world : Type}.
Implicit Types (s : pystate world) (Y : list Z) (X hw hb ow ob : matrix).

Lemma loop_store_same_store b Xt s s' :
  heap s' = heap s -> vars s' = vars s -> next s' = next s ->
  loop_store b Xt s -> loop_store b Xt s'.
Proof.
  intros Eh Ev En [V1 V2 V3 V4 V5 V6 Ht Hn].
  constructor; rewrite ?Eh, ?Ev, ?En; assumption.
Qed.

(** The update writes the four parameter arrays and nothing else that
    was there before the epoch. *)
Lemma updated_loop_store Y X hw hb ow ob regularization learning_rate b Xt s :
  loop_store b Xt s ->
  loop_store b Xt
    (updated_state Y X hw hb ow ob regularization learning_rate s).
Proof.
  intros [V1 V2 V3 V4 V5 V6 Ht Hn].
  constructor; rewrite ?updated_vars by tauto; try assumption.
  - stages. proj. unfold loc_of. rewrite V3, V4, V5, V6. simpl.
    rewrite !lookup_insert_ne by lia. exact Ht.
  - stages. proj. lia.
Qed.

End LoopStore.

Section EpochLoop.
Context {world handle : Type}.
Variable predict : gmap string matrix -> matrix -> exc matrix.
Variable plotting : plot_call handle -> world -> exc (list handle * world).
Variable plot_due : nat -> nat -> bool.
Implicit Types (s : pystate world) (Y : list Z) (X hw hb ow ob : matrix).

Lemma epoch_keeps_loop fig Y Y_test epochs learning_rate regularization i
    X hw hb ow ob b Xt s s' :
  training_state Y X hw hb ow ob s ->
  loop_store b Xt s ->
  epoch predict plotting plot_due fig Y Y_test epochs learning_rate
    regularization i s = Ok (tt, s') ->
  training_state Y X
    (hidden_weights_u Y X hw hb ow ob regularization learning_rate)
    (hidden_bias_u Y X hw hb ow ob learning_rate)
    (output_weights_u Y X hw hb ow ob regularization learning_rate)
    (output_bias_u Y X hw hb ow ob learning_rate) s' /\
  loop_store b Xt s'.
Proof.
  intros T L He.
  destruct (epoch_result _ _ _ _ _ _ _ _ _ _ _ _ _ _ _ _ _ T He)
    as (Xt' & l1 & l2 & _ & _ & _ & ->).
  split.
  - eapply training_state_same_store;
      [| | |apply (updated_training_state (fun _ _ => true)), T];
      reflexivity.
  - eapply loop_store_same_store; [| | |apply updated_loop_store, L];
      reflexivity.
Qed.

(** *** When an epoch returns *)

Lemma cross_entropy_returns (m : gmap string matrix) Xq Yq r hw ow p :
  m !! "HW" = Some hw -> m !! "OW" = Some ow ->
  predict m Xq = Ok p ->
  0 < length Yq <= nrows p ->
  Forall (fun y => (- Z.of_nat (ncols p) <= y < Z.of_nat (ncols p))%Z) Yq ->
  exists l, cross_entropy predict m Xq Yq r = Ok l.
Proof.
  intros Hhw How Hp [Hn Hrows] HF.
  unfold cross_entropy, getitem. rewrite Hhw, How. simpl. rewrite Hp. simpl.
  destruct (fancy_get_ok p Yq Hrows HF) as (v & Hv & _).
  rewrite Hv. simpl.
  destruct (Nat.eqb_spec (length Yq) 0) as [E|_]; [lia|].
  eexists. reflexivity.
Qed.

Lemma updated_model_HW Y X hw hb ow ob regularization learning_rate :
  updated_model Y X hw hb ow ob regularization learning_rate !! "HW" =
  Some (hidden_weights_u Y X hw hb ow ob regularization learning_rate).
Proof.
  unfold updated_model. rewrite !lookup_insert_ne by done.
  apply lookup_insert_eq.
Qed.

Lemma updated_model_OW Y X hw hb ow ob regularization learning_rate :
  updated_model Y X hw hb ow ob regularization learning_rate !! "OW" =
  Some (output_weights_u Y X hw hb ow ob regularization learning_rate).
Proof.
  unfold updated_model. rewrite !lookup_insert_ne by done.
  apply lookup_insert_eq.
Qed.

Lemma plot_results_returns (fig : figure handle) Y_train Y_test s X Xt :
  (forall c w, exists hs w', plotting c w = Ok (hs, w')) ->
  array_at s "X_train" = Some (Arr2 X) ->
  array_at s "X_test" = Some (Arr2 Xt) ->
  exists s', plot_results plotting fig Y_train Y_test s = Ok (tt, s').
Proof.
  intros Hall HX HXt.
  assert (LX : forall w, load_matrix "X_train" (set_libs w s) =
                         Ok (X, set_libs w s)).
  { intros w. apply array_at_load_matrix. exact HX. }
  assert (LXt : forall w, load_matrix "X_test" (set_libs w s) =
                          Ok (Xt, set_libs w s)).
  { intros w. apply array_at_load_matrix. exact HXt. }
  unfold plot_results.
  erewrite bind_ok by reflexivity.
  rewrite (bind_ok _ _ _ _ _ (array_at_load_matrix _ _ _ HX)).
  match goal with |- context [call plotting ?c] =>
    destruct (Hall c (libs s)) as (hs1 & w1 & E1) end.
  rewrite (bind_ok _ _ _ _ _ (call_ok _ _ _ _ _ E1)).
  erewrite bind_ok by reflexivity.
  rewrite (bind_ok _ _ _ _ _ (LXt w1)).
  match goal with |- context [call plotting ?c] =>
    destruct (Hall c w1) as (hs2 & w2 & E2) end.
  rewrite (bind_ok _ _ _ _ _ (call_ok _ _ (set_libs w1 s) _ _ E2)).
  erewrite bind_ok by reflexivity. cbn [fst snd].
  match goal with |- context [call plotting ?c] =>
    destruct (Hall c w2) as (hs3 & w3 & E3) end.
  rewrite (bind_ok _ _ _ _ _
             (call_ok _ _ (set_libs w2 (set_libs w1 s)) _ _ E3)).
  destruct (Hall ClearOutput w3) as (hs4 & w4 & E4).
  rewrite (bind_ok _ _ _ _ _
             (call_ok _ _ (set_libs w3 (set_libs w2 (set_libs w1 s))) _ _ E4)).
  destruct (Hall DisplayGcf w4) as (hs5 & w5 & E5).
  rewrite (bind_ok _ _ _ _ _
             (call_ok _ _ (set_libs w4 (set_libs w3 (set_libs w2
                (set_libs w1 s)))) _ _ E5)).
  eexists. reflexivity.
Qed.

Section Returns.
Variables (d h k : nat) (X Xt : matrix) (Y Y_test : list Z).
Hypothesis plotting_returns :
  forall c w, exists hs w', plotting c w = Ok (hs, w').
Hypothesis predict_returns :
  forall hw hb ow ob Xq,
    (nrows hw = d /\ ncols hw = h) -> (nrows hb = 1 /\ ncols hb = h) ->
    (nrows ow = h /\ ncols ow = k) -> (nrows ob = 1 /\ ncols ob = k) ->
    ncols Xq = d ->
    exists p,
      predict (<["OB" := ob]> (<["OW" := ow]> (<["HB" := hb]>
                 (<["HW" := hw]> ∅)))) Xq = Ok p /\
      nrows p = nrows Xq /\ ncols p = k.
Hypothesis columns_X : ncols X = d.
Hypothesis columns_Xt : ncols Xt = d.
Hypothesis length_Y : 0 < length Y /\ length Y = nrows X.
Hypothesis length_Y_test : 0 < length Y_test <= nrows Xt.
Hypothesis labels_Y :
  Forall (fun y => (- Z.of_nat k <= y < Z.of_nat k)%Z) Y.
Hypothesis labels_Y_test :
  Forall (fun y => (- Z.of_nat k <= y < Z.of_nat k)%Z) Y_test.

Lemma epoch_returns fig epochs learning_rate regularization i
    hw hb ow ob b s :
  training_state Y X hw hb ow ob s ->
  loop_store b Xt s ->
  ncols hw = h -> ncols ow = k ->
  exists s',
    epoch predict plotting plot_due fig Y Y_test epochs learning_rate
      regularization i s = Ok (tt, s').
Proof.
  intros T L Hh Hk.
  rewrite (epoch_from_training_state predict plotting plot_due fig Y Y_test
             epochs learning_rate regularization i X hw hb ow ob s T).
  set (u := rebuilt_state Y X hw hb ow ob regularization learning_rate s).
  pose proof (updated_training_state (fun _ _ => true) _ _ _ _ _ _
                regularization learning_rate _ T)
    as [UX _ _ _ _ _ _ _ _ _ _ _ _].
  pose proof (updated_loop_store Y X hw hb ow ob regularization learning_rate
                _ _ _ L) as [_ V2 _ _ _ _ Ht _].
  assert (HX : array_at u "X_train" = Some (Arr2 X)) by exact UX.
  assert (HXt : array_at u "X_test" = Some (Arr2 Xt)).
  { unfold array_at. cbn [vars heap u rebuilt_state set_model].
    rewrite V2. exact Ht. }
  assert (Hplot : exists s6,
    (if plot_due i epochs then plot_results plotting fig Y Y_test else ret tt)
      u = Ok (tt, s6) /\ s6 = set_libs (libs s6) u).
  { destruct (plot_due i epochs).
    - destruct (plot_results_returns fig Y Y_test u X Xt plotting_returns
                  HX HXt) as (s6 & H6).
      exists s6. split; [exact H6|]. eapply libs_plot_results, H6.
    - exists u. split; [reflexivity|]. symmetry. apply set_libs_same. }
  destruct Hplot as (s6 & H6 & E6).
  rewrite (bind_ok _ _ _ _ _ H6).
  assert (Eh : heap s6 = heap u) by (rewrite E6; reflexivity).
  assert (Ev : vars s6 = vars u) by (rewrite E6; reflexivity).
  assert (Ed : model s6 = model u) by (rewrite E6; reflexivity).
  clear E6.
  assert (Hm : arrays_of (model s6) (heap s6) =
               updated_model Y X hw hb ow ob regularization learning_rate).
  { rewrite Ed, Eh. apply rebuilt_arrays, T. }
  assert (HX6 : array_at s6 "X_train" = Some (Arr2 X))
    by (unfold array_at in HX |- *; rewrite Ev, Eh; exact HX).
  assert (HXt6 : array_at s6 "X_test" = Some (Arr2 Xt))
    by (unfold array_at in HXt |- *; rewrite Ev, Eh; exact HXt).
  destruct T as [_ _ _ _ _ _ _ Shw [Shb1 Shb2] Sow [Sob1 Sob2] HY HL].
  pose proof length_Y as [Y0 Y1]. pose proof length_Y_test as [T0 T1].
  assert (Hpred : forall Xq, ncols Xq = d ->
    exists p,
      predict (updated_model Y X hw hb ow ob regularization learning_rate) Xq
        = Ok p /\ nrows p = nrows Xq /\ ncols p = k).
  { intros Xq Hq. unfold updated_model.
    apply predict_returns; try exact Hq; simpl; split; lia. }
  rewrite record_losses_steps, Hm.
  rewrite (array_at_load_matrix _ _ _ HXt6).
  destruct (Hpred Xt columns_Xt) as (pt & Ept & Rt & Ct).
  destruct (cross_entropy_returns _ Xt Y_test regularization _ _ pt
              (updated_model_HW _ _ _ _ _ _ _ _)
              (updated_model_OW _ _ _ _ _ _ _ _) Ept) as (l1 & E1);
    [lia | rewrite Ct; exact labels_Y_test |].
  rewrite E1.
  rewrite (array_at_load_matrix _ _ _ HX6).
  destruct (Hpred X columns_X) as (p & Ep & Rp & Cp).
  destruct (cross_entropy_returns _ X Y regularization _ _ p
              (updated_model_HW _ _ _ _ _ _ _ _)
              (updated_model_OW _ _ _ _ _ _ _ _) Ep) as (l2 & E2);
    [lia | rewrite Cp; exact labels_Y |].
  rewrite E2. eexists. reflexivity.
Qed.

End Returns.

End EpochLoop.

(** *** The sum of the output biases *)

Section BiasSum.
Local Open Scope R_scope.
Variables (Y : list Z) (X hw hb ow ob : matrix).
Hypothesis shape_hw : nrows hw = ncols X.
Hypothesis shape_hb : (nrows hb = 1 /\ ncols hb = ncols hw)%nat.
Hypothesis shape_ow : nrows ow = ncols hw.
Hypothesis shape_ob : (nrows ob = 1 /\ ncols ob = ncols ow)%nat.
Hypothesis length_Y : length Y = nrows X.
Hypothesis labels_Y :
  Forall (fun y => (- Z.of_nat (ncols ow) <= y < Z.of_nat (ncols ow))%Z) Y.

Lemma prob_row_sum i :
  (0 < ncols ow)%nat ->
  rsum (ncols ow) (fun c => prob X hw hb ow ob i c) = 1.
Proof.
  intros HK. unfold prob, Rdiv. rewrite rsum_scal.
  apply Rinv_r.
  assert (0 < rsum (ncols ow)
            (fun c' => exp (scores X hw hb ow ob i c'))).
  { apply rsum_pos; [exact HK|]. intros c _. apply exp_pos. }
  lra.
Qed.

Lemma one_hot_row_sum i :
  (i < nrows X)%nat ->
  rsum (ncols ow) (fun c => one_hot (ncols ow) Y i c) = 1.
Proof.
  intros Hi. unfold one_hot.
  rewrite (rsum_ext _ _ (fun c => if (c =? label (ncols ow) Y i)%nat
                                  then 1 else 0))
    by (intros c _; rewrite Nat.eqb_sym; reflexivity).
  rewrite (rsum_single (ncols ow) (label (ncols ow) Y i) (fun _ => 1)).
  assert (Hl : (label (ncols ow) Y i < ncols ow)%nat)
    by (apply label_lt; [exact labels_Y | lia]).
  rewrite (proj2 (Nat.ltb_lt _ _) Hl). reflexivity.
Qed.

(** The deltas of the output biases add up to zero. *)
Lemma output_bias_delta_sum :
  rsum (ncols ow) (fun c => item (output_bias_delta_v Y X hw hb ow ob) 0 c)
  = 0.
Proof.
  destruct (delta_items Y X hw hb ow ob shape_hw shape_hb shape_ow shape_ob
              length_Y) as (_ & _ & _ & E4).
  rewrite (rsum_ext _ _ (fun c => rsum (nrows X) (fun i =>
             prob X hw hb ow ob i c - one_hot (ncols ow) Y i c)))
    by (intros c Hc; apply E4, Hc).
  rewrite rsum_swap.
  rewrite (rsum_ext _ _ (fun _ => 0)); [apply rsum_zero|].
  intros i Hi. rewrite rsum_minus.
  rewrite one_hot_row_sum by exact Hi.
  rewrite prob_row_sum; [ring|].
  assert (Hl : (label (ncols ow) Y i < ncols ow)%nat)
    by (apply label_lt; [exact labels_Y | lia]).
  lia.
Qed.

(** The update leaves the sum of the output biases as it is. *)
Lemma output_bias_sum_kept learning_rate :
  rsum (ncols ow)
    (fun c => item (output_bias_u Y X hw hb ow ob learning_rate) 0 c) =
  rsum (ncols ow) (fun c => item ob 0 c).
Proof.
  destruct (updated_items Y X hw hb ow ob 0 learning_rate
              shape_hw shape_hb shape_ow shape_ob) as (_ & _ & _ & I4).
  rewrite (rsum_ext _ _ (fun c => item ob 0 c - learning_rate *
             item (output_bias_delta_v Y X hw hb ow ob) 0 c))
    by (intros c Hc; apply I4, Hc).
  rewrite rsum_minus.
  rewrite (rsum_scal_l _
             (fun c => item (output_bias_delta_v Y X hw hb ow ob) 0 c)).
  rewrite output_bias_delta_sum, Rmult_0_r, Rminus_0_r. reflexivity.
Qed.

End BiasSum.

(** *** The loop from the call of [build_model] *)

Section Build.
Context {world handle dataset : Type}.
Variable extract_data : dataset -> exc (matrix * list Z).
Variable predict : gmap string matrix -> matrix -> exc matrix.
Variable randn : world -> (nat -> nat -> R) * world.
Variable plotting : plot_call handle -> world -> exc (list handle * world).
Variable plot_due : nat -> nat -> bool.
Implicit Types (s : pystate world) (Y : list Z) (X hw hb ow ob : matrix).


Lemma loop_state_start train_data test_data d h k s fig Y Y_test s0 X Xt :
  setup extract_data randn plotting train_data test_data d h k s =
    Ok ((fig, (Y, Y_test)), s0) ->
  map_Forall (fun _ l => l < next s) (vars s) ->
  extract_data train_data = Ok (X, Y) ->
  extract_data test_data = Ok (Xt, Y_test) ->
  ncols X = d -> length Y = nrows X ->
  Forall (fun y => (- Z.of_nat k <= y < Z.of_nat k)%Z) Y ->
  exists hw hb ow ob,
    training_state Y X hw hb ow ob s0 /\ loop_store (next s) Xt s0 /\
    ncols hw = h /\ ncols ow = k /\
    rsum k (fun c => item ob 0 c) = 0%R.
Proof.
  intros Hs Hal Etrain Etest SX HY HL.
  destruct (setup_store extract_data randn plotting _ _ _ _ _ _ _ _ _ _ Hs)
    as (X' & Xt' & hw & ow & Etrain' & Etest' & Shw & Sow & Eh & Ev & En & _).
  rewrite Etrain in Etrain'. injection Etrain' as <-.
  rewrite Etest in Etest'. injection Etest' as <-.
  exists hw, (zeros 1 h), ow, (zeros 1 k).
  split; [eapply setup_store_training_state; eassumption|].
  split; [eapply setup_loop_store; eassumption|].
  split; [apply Shw|]. split; [apply Sow|].
  apply rsum_zero.
Qed.

Lemma loop_state_step fig Y Y_test epochs learning_rate regularization
    h k b X Xt i s s' :
  (exists hw hb ow ob,
     training_state Y X hw hb ow ob s /\ loop_store b Xt s /\
     ncols hw = h /\ ncols ow = k /\
     rsum k (fun c => item ob 0 c) = 0%R) ->
  epoch predict plotting plot_due fig Y Y_test epochs learning_rate
    regularization i s = Ok (tt, s') ->
  exists hw hb ow ob,
    training_state Y X hw hb ow ob s' /\ loop_store b Xt s' /\
    ncols hw = h /\ ncols ow = k /\
    rsum k (fun c => item ob 0 c) = 0%R.
Proof.
  intros (hw & hb & ow & ob & T & L & Hh & Hk & Hsum) He.
  destruct (epoch_keeps_loop predict plotting plot_due _ _ _ _ _ _ _ _ _ _ _
              _ _ _ _ _ T L He) as [T' L'].
  eexists _, _, _, _. split; [exact T'|]. split; [exact L'|].
  split; [exact Hh|]. split; [exact Hk|].
  destruct T as [_ _ _ _ _ _ _ Shw Shb Sow Sob HY HL].
  rewrite <- Hk in Hsum |- *.
  rewrite (output_bias_sum_kept Y X hw hb ow ob Shw Shb Sow Sob HY HL
             learning_rate).
  exact Hsum.
Qed.

(** The state in which any epoch of a call starts. *)
Lemma loop_state_reached train_data test_data d h k epochs learning_rate
    regularization s fig Y Y_test s0 X Xt i si :
  setup extract_data randn plotting train_data test_data d h k s =
    Ok ((fig, (Y, Y_test)), s0) ->
  map_Forall (fun _ l => l < next s) (vars s) ->
  extract_data train_data = Ok (X, Y) ->
  extract_data test_data = Ok (Xt, Y_test) ->
  ncols X = d -> length Y = nrows X ->
  Forall (fun y => (- Z.of_nat k <= y < Z.of_nat k)%Z) Y ->
  reaches (epoch predict plotting plot_due fig Y Y_test epochs learning_rate
             regularization) (seq 1 epochs) s0 i si ->
  exists hw hb ow ob,
    training_state Y X hw hb ow ob si /\ loop_store (next s) Xt si /\
    ncols hw = h /\ ncols ow = k /\
    rsum k (fun c => item ob 0 c) = 0%R.
Proof.
  intros Hs Hal Etrain Etest SX HY HL Hr.
  eapply (reaches_seq_invariant _
            (fun _ s1 => exists hw hb ow ob,
               training_state Y X hw hb ow ob s1 /\
               loop_store (next s) Xt s1 /\
               ncols hw = h /\ ncols ow = k /\
               rsum k (fun c => item ob 0 c) = 0%R));
    [|eapply loop_state_start; eassumption|exact Hr].
  intros j s1 s2 P He. eapply loop_state_step; eassumption.
Qed.

(** X7: the arrays made before the loop stay where they are.  In a call
    of [build_model] whose training points have [input_dimensions]
    columns and one valid label each, every epoch starts in a training
    state with the same training points: [X_train], [X_test] and the four
    parameter names refer to the objects they were bound to before the
    loop (the parameters are updated in place, never bound again), the
    two data arrays have the values that [extract_data] returned, and
    the parameters keep the shapes (input, hidden), (1, hidden),
    (hidden, output) and (1, output). *)
Theorem loop_keeps_arrays train_data test_data d h k epochs learning_rate
    regularization s fig Y Y_test s0 X Xt i si :
  setup extract_data randn plotting train_data test_data d h k s =
    Ok ((fig, (Y, Y_test)), s0) ->
  map_Forall (fun _ l => l < next s) (vars s) ->
  extract_data train_data = Ok (X, Y) ->
  extract_data test_data = Ok (Xt, Y_test) ->
  ncols X = d -> length Y = nrows X ->
  Forall (fun y => (- Z.of_nat k <= y < Z.of_nat k)%Z) Y ->
  reaches (epoch predict plotting plot_due fig Y Y_test epochs learning_rate
             regularization) (seq 1 epochs) s0 i si ->
  (forall x,
     x = "X_train" \/ x = "X_test" \/ x = "hidden_weights" \/
     x = "hidden_bias" \/ x = "output_weights" \/ x = "output_bias" ->
     vars si !! x = vars s0 !! x /\ is_Some (vars s0 !! x)) /\
  array_at si "X_train" = Some (Arr2 X) /\
  array_at si "X_test" = Some (Arr2 Xt) /\
  exists hw hb ow ob,
    training_state Y X hw hb ow ob si /\
    (nrows hw = d /\ ncols hw = h) /\ (nrows hb = 1 /\ ncols hb = h) /\
    (nrows ow = h /\ ncols ow = k) /\ (nrows ob = 1 /\ ncols ob = k).
Proof.
  intros Hs Hal Etrain Etest SX HY HL Hr.
  destruct (loop_state_start _ _ _ _ _ _ _ _ _ _ _ _ Hs Hal Etrain Etest
              SX HY HL)
    as (hw0 & hb0 & ow0 & ob0 & _ & [A1 A2 A3 A4 A5 A6 _ _] & _).
  destruct (loop_state_reached _ _ _ _ _ _ _ _ _ _ _ _ _ _ _ _ _ Hs Hal
              Etrain Etest SX HY HL Hr)
    as (hw & hb & ow & ob & T & [V1 V2 V3 V4 V5 V6 Ht Hn] & Hh & Hk & _).
  split.
  { intros x [->|[->|[->|[->|[->| ->]]]]];
      (split; [congruence | eexists; eassumption]). }
  split; [apply T|].
  split; [unfold array_at; rewrite V2; exact Ht|].
  exists hw, hb, ow, ob. split; [exact T|].
  destruct T as [_ _ _ _ _ _ _ Shw [Shb1 Shb2] Sow [Sob1 Sob2] _ _].
  repeat split; lia.
Qed.


End Build.

Section Outcome.
Context {world handle dataset : Type}.
Variable extract_data : dataset -> exc (matrix * list Z).
Variable predict : gmap string matrix -> matrix -> exc matrix.
Variable randn : world -> (nat -> nat -> R) * world.
Variable plotting : plot_call handle -> world -> exc (list handle * world).
Variable plot_due : nat -> nat -> bool.
Implicit Types (s : pystate world) (Y : list Z) (X hw hb ow ob : matrix).

(** [build_model] returns when the data fit the dimensions of the call
    and the code of [intro_utils] and matplotlib returns; the state in
    which it ends is a training state like those in which the epochs
    start. *)
Lemma build_model_runs train_data test_data d h k epochs learning_rate
    regularization s X Y Xt Y_test :
  extract_data train_data = Ok (X, Y) ->
  extract_data test_data = Ok (Xt, Y_test) ->
  ncols X = d -> ncols Xt = d -> 2 <= d ->
  0 < length Y /\ length Y = nrows X ->
  0 < length Y_test <= nrows Xt ->
  Forall (fun y => (- Z.of_nat k <= y < Z.of_nat k)%Z) Y ->
  Forall (fun y => (- Z.of_nat k <= y < Z.of_nat k)%Z) Y_test ->
  map_Forall (fun _ l => l < next s) (vars s) ->
  (forall c w, exists hs w', plotting c w = Ok (hs, w')) ->
  (forall A w, exists a b w', plotting (MeshGrid A) w = Ok ([a; b], w')) ->
  (forall w, exists f a b c w',
     plotting Subplots w = Ok ([f; a; b; c], w')) ->
  (forall hw hb ow ob Xq,
     (nrows hw = d /\ ncols hw = h) -> (nrows hb = 1 /\ ncols hb = h) ->
     (nrows ow = h /\ ncols ow = k) -> (nrows ob = 1 /\ ncols ob = k) ->
     ncols Xq = d ->
     exists p,
       predict (<["OB" := ob]> (<["OW" := ow]> (<["HB" := hb]>
                  (<["HW" := hw]> ∅)))) Xq = Ok p /\
       nrows p = nrows Xq /\ ncols p = k) ->
  exists s' hw hb ow ob,
    build_model extract_data predict randn plotting plot_due train_data
      test_data d h k epochs learning_rate regularization s = Ok (tt, s') /\
    training_state Y X hw hb ow ob s' /\ loop_store (next s) Xt s' /\
    ncols hw = h /\ ncols ow = k /\
    rsum k (fun c => item ob 0 c) = 0%R.
Proof.
  intros Etrain Etest SX SXt Hd HY HYt HL HLt Hal Hall Hmesh Hsub Hpred.
  destruct (setup_returns extract_data randn plotting train_data test_data
              d h k s X Y Xt Y_test Etrain Etest)
    as (fig & s0 & Hs); try assumption; try lia.
  pose proof (loop_state_start extract_data randn plotting _ _ _ _ _ _ _ _ _
                _ _ _ Hs Hal Etrain Etest SX (proj2 HY) HL) as P0.
  unfold build_model. rewrite (bind_ok _ _ _ _ _ Hs). cbn [fst snd].
  destruct (for_each_seq_returns
              (epoch predict plotting plot_due fig Y Y_test epochs
                 learning_rate regularization)
              (fun _ s1 => exists hw hb ow ob,
                 training_state Y X hw hb ow ob s1 /\
                 loop_store (next s) Xt s1 /\
                 ncols hw = h /\ ncols ow = k /\
                 rsum k (fun c => item ob 0 c) = 0%R))
    with (n := epochs) (a := 1) (s0 := s0)
    as (s' & Hrun & hw & hb & ow & ob & P); [|exact P0|].
  - intros j s1 P.
    pose proof P as (hw & hb & ow & ob & T & L & Hh & Hk & _).
    destruct (epoch_returns predict plotting plot_due d h k X Xt Y Y_test
                Hall Hpred SX SXt HY HYt HL HLt fig epochs learning_rate
                regularization j hw hb ow ob (next s) s1 T L Hh Hk)
      as (s2 & He).
    exists s2. split; [exact He|].
    eapply loop_state_step; eassumption.
  - exists s', hw, hb, ow, ob. split; [exact Hrun | exact P].
Qed.

(** X9: [build_model] returns when both data sets have
    [input_dimensions] columns (at least two), there is one valid label
    for every training point and a valid label for each of at least one
    test point, the plotting calls return ([mesh_grid] two objects and
    [plt.subplots] a figure and three axes), and [predict] returns an
    array with one row per point and [output_dimensions] columns for a
    dictionary with the keys 'HW', 'HB', 'OW', 'OB' and arrays of the
    shapes of the call. *)
Theorem build_model_returns train_data test_data d h k epochs learning_rate
    regularization s X Y Xt Y_test :
  extract_data train_data = Ok (X, Y) ->
  extract_data test_data = Ok (Xt, Y_test) ->
  ncols X = d -> ncols Xt = d -> 2 <= d ->
  0 < length Y /\ length Y = nrows X ->
  0 < length Y_test <= nrows Xt ->
  Forall (fun y => (- Z.of_nat k <= y < Z.of_nat k)%Z) Y ->
  Forall (fun y => (- Z.of_nat k <= y < Z.of_nat k)%Z) Y_test ->
  map_Forall (fun _ l => l < next s) (vars s) ->
  (forall c w, exists hs w', plotting c w = Ok (hs, w')) ->
  (forall A w, exists a b w', plotting (MeshGrid A) w = Ok ([a; b], w')) ->
  (forall w, exists f a b c w',
     plotting Subplots w = Ok ([f; a; b; c], w')) ->
  (forall hw hb ow ob Xq,
     (nrows hw = d /\ ncols hw = h) -> (nrows hb = 1 /\ ncols hb = h) ->
     (nrows ow = h /\ ncols ow = k) -> (nrows ob = 1 /\ ncols ob = k) ->
     ncols Xq = d ->
     exists p,
       predict (<["OB" := ob]> (<["OW" := ow]> (<["HB" := hb]>
                  (<["HW" := hw]> ∅)))) Xq = Ok p /\
       nrows p = nrows Xq /\ ncols p = k) ->
  exists s',
    build_model extract_data predict randn plotting plot_due train_data
      test_data d h k epochs learning_rate regularization s = Ok (tt, s').
Proof.
  intros Etrain Etest SX SXt Hd HY HYt HL HLt Hal Hall Hmesh Hsub Hpred.
  destruct (build_model_runs train_data test_data d h k epochs learning_rate
              regularization s X Y Xt Y_test Etrain Etest SX SXt Hd HY HYt
              HL HLt Hal Hall Hmesh Hsub Hpred)
    as (s' & hw & hb & ow & ob & Hrun & _).
  exists s'. exact Hrun.
Qed.

(** X10: the training statements of such a call never raise.  When the
    training points have [input_dimensions] columns and one valid label
    each, an exception of [build_model] is raised by [extract_data] or by
    the plotting code before the loop, or it is raised in an epoch after
    the forward pass, the backward pass, the regularization, the update
    and the new dictionary have returned, by the plotting code of that
    epoch or by one of its two loss computations. *)
Theorem training_statements_do_not_raise train_data test_data d h k epochs
    learning_rate regularization s X Y e :
  extract_data train_data = Ok (X, Y) ->
  ncols X = d -> length Y = nrows X ->
  Forall (fun y => (- Z.of_nat k <= y < Z.of_nat k)%Z) Y ->
  map_Forall (fun _ l => l < next s) (vars s) ->
  build_model extract_data predict randn plotting plot_due train_data
    test_data d h k epochs learning_rate regularization s = Raise e ->
  setup extract_data randn plotting train_data test_data d h k s = Raise e \/
  exists fig Y_test s0 i si u,
    setup extract_data randn plotting train_data test_data d h k s =
      Ok ((fig, (Y, Y_test)), s0) /\
    reaches (epoch predict plotting plot_due fig Y Y_test epochs learning_rate
               regularization) (seq 1 epochs) s0 i si /\
    bind forward_propagation (fun _ =>
      bind (backpropagation Y) (fun _ =>
        bind (add_regularization regularization) (fun _ =>
          bind (update_weights learning_rate) (fun _ => rebuild_model))))
      si = Ok (tt, u) /\
    ((if plot_due i epochs then plot_results plotting fig Y Y_test
      else ret tt) u = Raise e \/
     exists u',
       (if plot_due i epochs then plot_results plotting fig Y Y_test
        else ret tt) u = Ok (tt, u') /\
       record_losses predict Y Y_test regularization u' = Raise e).
Proof.
  intros Etrain SX HY HL Hal Hb.
  apply build_model_raise_iff in Hb
    as [Hb|(fig & Y' & Y_test & s0 & i & si & Hs & Hr & He)];
    [left; exact Hb | right].
  destruct (setup_store extract_data randn plotting _ _ _ _ _ _ _ _ _ _ Hs)
    as (X' & Xt & hw0 & ow0 & Etrain' & Etest & _).
  rewrite Etrain in Etrain'. injection Etrain' as <- <-.
  destruct (loop_state_reached extract_data predict randn plotting plot_due
              _ _ _ _ _ _ _ _ _ _ _ _ _ _ _ _ _ Hs Hal Etrain Etest SX HY HL
              Hr)
    as (hw & hb & ow & ob & T & _).
  rewrite (epoch_from_training_state predict plotting plot_due fig Y Y_test
             epochs learning_rate regularization i X hw hb ow ob si T) in He.
  exists fig, Y_test, s0, i, si,
    (rebuilt_state Y X hw hb ow ob regularization learning_rate si).
  split; [exact Hs|]. split; [exact Hr|]. split.
  - destruct (epoch_blocks_run _ _ _ _ _ _ regularization learning_rate _ T)
      as (H1 & _ & _ & _).
    rewrite (bind_ok _ _ _ _ _ H1).
    rewrite (bind_ok _ _ _ _ _ (backward_run _ _ _ _ _ _ _ T)).
    rewrite (bind_ok _ _ _ _ _ (regularize_run _ _ _ _ _ _ regularization _ T)).
    rewrite (bind_ok _ _ _ _ _
               (update_run _ _ _ _ _ _ regularization learning_rate _ T)).
    apply rebuild_run, T.
  - apply bind_raise_iff in He as [He|([] & u' & H1 & H2)].
    + left. exact He.
    + right. exists u'. split; assumption.
Qed.

End Outcome.

(** ** Calls that do not fit *)

Section Misfit.
Context {world handle dataset : Type}.
Variable extract_data : dataset -> exc (matrix * list Z).
Variable predict : gmap string matrix -> matrix -> exc matrix.
Variable randn : world -> (nat -> nat -> R) * world.
Variable plotting : plot_call handle -> world -> exc (list handle * world).
Variable plot_due : nat -> nat -> bool.
Implicit Types (s : pystate world) (Y : list Z) (X hw hb ow ob : matrix).

(** The first epoch of a call. *)
Lemma build_model_first_epoch train_data test_data d h k epochs learning_rate
    regularization s fig Y Y_test s0 :
  setup extract_data randn plotting train_data test_data d h k s =
    Ok ((fig, (Y, Y_test)), s0) ->
  0 < epochs ->
  build_model extract_data predict randn plotting plot_due train_data
    test_data d h k epochs learning_rate regularization s =
  bind (epoch predict plotting plot_due fig Y Y_test epochs learning_rate
          regularization 1)
    (fun _ => for_each (seq 2 (epochs - 1))
       (epoch predict plotting plot_due fig Y Y_test epochs learning_rate
          regularization)) s0.
Proof.
  intros Hs He. unfold build_model. rewrite (bind_ok _ _ _ _ _ Hs).
  cbn [fst snd]. destruct epochs as [|n]; [lia|].
  simpl. rewrite Nat.sub_0_r. reflexivity.
Qed.

(** The forward pass in the store that the statements before the loop
    leave, whatever the labels are. *)
Lemma forward_run_setup b X Xt hw ow h k s0 hp v :
  heap s0 = setup_heap b X Xt hw ow h k hp ->
  vars s0 = setup_vars b v ->
  next s0 = 6 + b ->
  nrows hw = ncols X -> ncols hw = h -> nrows ow = h -> ncols ow = k ->
  forward_propagation s0 =
  Ok (tt, forward_state X hw (zeros 1 h) ow (zeros 1 k) s0).
Proof.
  intros Eh Ev En Shw1 Shw2 Sow1 Sow2.
  assert (VX : vars s0 !! "X_train" = Some b)
    by (rewrite Ev; look_setup).
  assert (HX : heap s0 !! b = Some (Arr2 X))
    by (rewrite Eh; look_setup).
  assert (Vhw : vars s0 !! "hidden_weights" = Some (2 + b))
    by (rewrite Ev; look_setup).
  assert (Hhw : heap s0 !! (2 + b) = Some (Arr2 hw))
    by (rewrite Eh; look_setup).
  assert (Vhb : vars s0 !! "hidden_bias" = Some (3 + b))
    by (rewrite Ev; look_setup).
  assert (Hhb : heap s0 !! (3 + b) = Some (Arr2 (zeros 1 h)))
    by (rewrite Eh; look_setup).
  assert (Vow : vars s0 !! "output_weights" = Some (4 + b))
    by (rewrite Ev; look_setup).
  assert (How : heap s0 !! (4 + b) = Some (Arr2 ow))
    by (rewrite Eh; look_setup).
  assert (Vob : vars s0 !! "output_bias" = Some (5 + b))
    by (rewrite Ev; look_setup).
  assert (Hob : heap s0 !! (5 + b) = Some (Arr2 (zeros 1 k)))
    by (rewrite Eh; look_setup).
  unfold forward_propagation.
  step_load. step_load. step_lift ltac:(apply dot_ok; lia).
  step_load. step_lift ltac:(apply add_row_ok; simpl; lia).
  step_assign. step_load. step_assign. step_load. step_load.
  step_lift ltac:(apply dot_ok; simpl; lia).
  step_load. step_lift ltac:(apply add_row_ok; simpl; lia).
  step_assign. step_load. step_lift ltac:(apply softmax_ok).
  rewrite assign_ok. reflexivity.
Qed.

(** Where the targets are taken off, in the first epoch. *)
Lemma first_epoch_targets b Y X Xt hw ow h k s0 hp v :
  heap s0 = setup_heap b X Xt hw ow h k hp ->
  vars s0 = setup_vars b v ->
  next s0 = 6 + b ->
  exists s1,
    share_probs (forward_state X hw (zeros 1 h) ow (zeros 1 k) s0) =
      Ok (tt, s1) /\
    subtract_targets Y s1 =
    bind (lift (fancy_isub (probs_v X hw (zeros 1 h) ow (zeros 1 k))
                  (nrows X) Y 1))
      (fun updated => write "output_delta" (Arr2 updated)) s1.
Proof.
  intros Eh Ev En. eexists. split.
  - unfold share_probs.
    erewrite bind_ok by (apply getvar_ok; look_vars). reflexivity.
  - unfold subtract_targets.
    erewrite bind_ok
      by (eapply load_matrix_ok; cbn [vars heap set_vars];
          [look_vars | look_heap]).
    erewrite bind_ok
      by (eapply load_matrix_ok; cbn [vars heap set_vars];
          [ stages; proj; rewrite !lookup_insert_ne by done; rewrite Ev;
            look_setup
          | stages; proj; rewrite Eh, !lookup_insert_ne by lia;
            look_setup ]).
    reflexivity.
Qed.

Lemma first_epoch_wrong_columns fig Y Y_test epochs learning_rate
    regularization b X Xt hw ow h k s0 hp v :
  heap s0 = setup_heap b X Xt hw ow h k hp ->
  vars s0 = setup_vars b v ->
  ncols X <> nrows hw ->
  epoch predict plotting plot_due fig Y Y_test epochs learning_rate
    regularization 1 s0 = Raise ValueError.
Proof.
  intros Eh Ev SX. unfold epoch. apply bind_raise.
  unfold forward_propagation.
  erewrite bind_ok
    by (eapply load_matrix_ok;
        [rewrite Ev; look_setup | rewrite Eh; look_setup]).
  erewrite bind_ok
    by (eapply load_matrix_ok;
        [rewrite Ev; look_setup | rewrite Eh; look_setup]).
  apply bind_raise. unfold lift, Np.dot.
  destruct (Nat.eqb_spec (ncols X) (nrows hw)) as [E|_]; [lia|].
  reflexivity.
Qed.

Lemma first_epoch_invalid_label fig Y Y_test epochs learning_rate
    regularization b X Xt hw ow h k s0 hp v :
  heap s0 = setup_heap b X Xt hw ow h k hp ->
  vars s0 = setup_vars b v ->
  next s0 = 6 + b ->
  nrows hw = ncols X -> ncols hw = h -> nrows ow = h -> ncols ow = k ->
  ~ Forall (fun y => (- Z.of_nat k <= y < Z.of_nat k)%Z) Y ->
  epoch predict plotting plot_due fig Y Y_test epochs learning_rate
    regularization 1 s0 = Raise IndexError.
Proof.
  intros Eh Ev En Shw1 Shw2 Sow1 Sow2 HL.
  pose proof (forward_run_setup _ _ _ _ _ _ _ _ _ _ Eh Ev En
                Shw1 Shw2 Sow1 Sow2) as Hf.
  destruct (first_epoch_targets _ Y _ _ _ _ _ _ _ _ _ Eh Ev En)
    as (s1 & H1 & H2).
  unfold epoch. rewrite (bind_ok _ _ _ _ _ Hf). apply bind_raise.
  unfold backpropagation. rewrite (bind_ok _ _ _ _ _ H1).
  apply bind_raise. rewrite H2. apply bind_raise.
  unfold lift, fancy_isub, fancy_positions.
  rewrite indices_raise; [reflexivity|].
  cbn [probs_v Np.bcast ncols]. rewrite Sow2. exact HL.
Qed.

(** X11: a call whose training points do not have [input_dimensions]
    columns raises [ValueError] in the first epoch, once the statements
    before the loop have returned: the product of [X_train] and
    [hidden_weights] is not defined. *)
Theorem wrong_input_dimensions_raise train_data test_data d h k epochs
    learning_rate regularization s fig Y Y_test s0 X :
  setup extract_data randn plotting train_data test_data d h k s =
    Ok ((fig, (Y, Y_test)), s0) ->
  extract_data train_data = Ok (X, Y) ->
  ncols X <> d ->
  0 < epochs ->
  build_model extract_data predict randn plotting plot_due train_data
    test_data d h k epochs learning_rate regularization s = Raise ValueError.
Proof.
  intros Hs Etrain SX He.
  rewrite (build_model_first_epoch _ _ _ _ _ _ _ _ _ _ _ _ _ Hs He).
  destruct (setup_store extract_data randn plotting _ _ _ _ _ _ _ _ _ _ Hs)
    as (X' & Xt & hw & ow & Etrain' & _ & [Shw1 Shw2] & _ & Eh & Ev & En & _).
  rewrite Etrain in Etrain'. injection Etrain' as <-.
  apply bind_raise.
  eapply first_epoch_wrong_columns; [exact Eh | exact Ev | lia].
Qed.

(** X12: a call whose training points have [input_dimensions] columns
    but a label outside [-output_dimensions, output_dimensions) raises
    [IndexError] in the first epoch, after the forward pass, when the
    targets are taken off the probabilities. *)
Theorem invalid_label_raises train_data test_data d h k epochs
    learning_rate regularization s fig Y Y_test s0 X :
  setup extract_data randn plotting train_data test_data d h k s =
    Ok ((fig, (Y, Y_test)), s0) ->
  extract_data train_data = Ok (X, Y) ->
  ncols X = d ->
  ~ Forall (fun y => (- Z.of_nat k <= y < Z.of_nat k)%Z) Y ->
  0 < epochs ->
  build_model extract_data predict randn plotting plot_due train_data
    test_data d h k epochs learning_rate regularization s = Raise IndexError.
Proof.
  intros Hs Etrain SX HL He.
  rewrite (build_model_first_epoch _ _ _ _ _ _ _ _ _ _ _ _ _ Hs He).
  destruct (setup_store extract_data randn plotting _ _ _ _ _ _ _ _ _ _ Hs)
    as (X' & Xt & hw & ow & Etrain' & _ & [Shw1 Shw2] & [Sow1 Sow2] &
        Eh & Ev & En & _).
  rewrite Etrain in Etrain'. injection Etrain' as <-.
  apply bind_raise.
  eapply first_epoch_invalid_label; try eassumption. lia.
Qed.

(** X13: what a call that returns was given.  If [build_model] returns,
    [extract_data] returned for both data sets and both arrays have the
    columns 0 and 1 that are plotted; if there is at least one epoch,
    the training points have [input_dimensions] columns, every training
    label is in [-output_dimensions, output_dimensions), the labels and
    the rows of [X_train] are as many (or one of the two numbers is 1,
    and the index arrays are broadcast), and neither label list is
    empty. *)
Theorem build_model_returns_only_if train_data test_data d h k epochs
    learning_rate regularization s s' :
  build_model extract_data predict randn plotting plot_due train_data
    test_data d h k epochs learning_rate regularization s = Ok (tt, s') ->
  exists X Y Xt Y_test,
    extract_data train_data = Ok (X, Y) /\
    extract_data test_data = Ok (Xt, Y_test) /\
    2 <= ncols X /\ 2 <= ncols Xt /\
    (0 < epochs ->
     ncols X = d /\
     Forall (fun y => (- Z.of_nat k <= y < Z.of_nat k)%Z) Y /\
     (nrows X = length Y \/ length Y = 1 \/ nrows X = 1) /\
     0 < length Y /\ 0 < length Y_test).
Proof.
  intros Hb.
  assert (Hs : exists fig Y Y_test s0,
    setup extract_data randn plotting train_data test_data d h k s =
      Ok ((fig, (Y, Y_test)), s0)).
  { unfold build_model in Hb.
    apply bind_inv in Hb as ([fig [Y Y_test]] & s0 & Hs & _).
    exists fig, Y, Y_test, s0. exact Hs. }
  destruct Hs as (fig & Y & Y_test & s0 & Hs).
  destruct (setup_store extract_data randn plotting _ _ _ _ _ _ _ _ _ _ Hs)
    as (X & Xt & hw & ow & Etrain & Etest & [Shw1 Shw2] & [Sow1 Sow2] &
        Eh & Ev & En & CX & CXt).
  exists X, Y, Xt, Y_test.
  split; [exact Etrain|]. split; [exact Etest|].
  split; [exact CX|]. split; [exact CXt|].
  intros He.
  rewrite (build_model_first_epoch _ _ _ _ _ _ _ _ _ _ _ _ _ Hs He) in Hb.
  apply bind_inv in Hb as ([] & s1 & H1 & _).
  assert (SX : ncols X = d).
  { destruct (Nat.eq_dec (ncols X) d) as [E|N]; [exact E|].
    rewrite (first_epoch_wrong_columns fig Y Y_test epochs learning_rate
               regularization _ _ _ _ _ _ _ _ _ _ Eh Ev) in H1 by lia.
    discriminate. }
  split; [exact SX|].
  pose proof (forward_run_setup _ _ _ _ _ _ _ _ _ _ Eh Ev En
                ltac:(lia) Shw2 Sow1 Sow2) as Hf.
  destruct (first_epoch_targets _ Y _ _ _ _ _ _ _ _ _ Eh Ev En)
    as (t1 & Ht1 & Ht2).
  pose proof H1 as H1'.
  unfold epoch in H1. rewrite (bind_ok _ _ _ _ _ Hf) in H1.
  apply bind_inv in H1 as ([] & s2 & H2 & H3).
  unfold backpropagation in H2. rewrite (bind_ok _ _ _ _ _ Ht1) in H2.
  apply bind_inv in H2 as ([] & t2 & H2 & _).
  rewrite Ht2 in H2. apply bind_inv in H2 as (m & t3 & H2 & _).
  apply lift_inv in H2 as [H2 _].
  unfold fancy_isub in H2.
  destruct (fancy_positions (probs_v X hw (zeros 1 h) ow (zeros 1 k))
              (nrows X) Y) as [ps|] eqn:Eps; [|discriminate].
  apply fancy_positions_ok_inv in Eps as (HL & _ & Hbr).
  cbn [probs_v Np.bcast ncols] in HL. rewrite Sow2 in HL.
  split; [exact HL|]. split; [exact Hbr|].
  apply bind_inv in H3 as ([] & s3 & _ & H3).
  apply bind_inv in H3 as ([] & s4 & _ & H3).
  apply bind_inv in H3 as ([] & s5 & _ & H3).
  apply bind_inv in H3 as ([] & s6 & _ & H3).
  rewrite record_losses_steps in H3.
  destruct (load_matrix "X_test" s6) as [[Xq ?]|]; [|discriminate].
  destruct (cross_entropy predict _ Xq Y_test regularization) as [l1|] eqn:E1;
    [|discriminate].
  destruct (load_matrix "X_train" s6) as [[Xr ?]|]; [|discriminate].
  destruct (cross_entropy predict _ Xr Y regularization) as [l2|] eqn:E2;
    [|discriminate].
  apply cross_entropy_ok_inv in E1 as (_ & _ & _ & _ & _ & _ & [L1 _] & _).
  apply cross_entropy_ok_inv in E2 as (_ & _ & _ & _ & _ & _ & [L2 _] & _).
  split; assumption.
Qed.

End Misfit.

(** ** The statements at the small call *)

Lemma call_plotting_returns :
  (forall c w, exists hs w', Call.plotting c w = Ok (hs, w')) /\
  (forall A w, exists a b w', Call.plotting (MeshGrid A) w = Ok ([a; b], w')) /\
  (forall w, exists f a b c w',
     Call.plotting Subplots w = Ok ([f; a; b; c], w')).
Proof.
  split; [|split].
  - intros c w. destruct c; eexists _, _; reflexivity.
  - intros A w. eexists _, _, _. reflexivity.
  - intros w. eexists _, _, _, _, _. reflexivity.
Qed.

Lemma call_predict_returns (d h k : nat) :
  k = 2 ->
  forall hw hb ow ob Xq : matrix,
    (nrows hw = d /\ ncols hw = h) -> (nrows hb = 1 /\ ncols hb = h) ->
    (nrows ow = h /\ ncols ow = k) -> (nrows ob = 1 /\ ncols ob = k) ->
    ncols Xq = d ->
    exists p,
      Example.predict (<["OB" := ob]> (<["OW" := ow]> (<["HB" := hb]>
                         (<["HW" := hw]> ∅)))) Xq = Ok p /\
      nrows p = nrows Xq /\ ncols p = k.
Proof.
  intros -> hw hb ow ob Xq _ _ _ _ _. eexists. split; [reflexivity|].
  split; reflexivity.
Qed.

Lemma call_labels : Forall (fun y => (- Z.of_nat 2 <= y < Z.of_nat 2)%Z) Call.Y.
Proof. repeat constructor; simpl; lia. Qed.

Lemma call_setup_returns (Y : list Z) (d : nat) :
  exists fig s0,
    setup Call.extract_data Call.randn Call.plotting (Call.X, Y)
      (Call.X, Call.Y) d 1 2 Call.start = Ok ((fig, (Y, Call.Y)), s0).
Proof.
  destruct call_plotting_returns as (Hall & Hmesh & Hsub).
  apply (setup_returns Call.extract_data Call.randn Call.plotting
           (Call.X, Y) (Call.X, Call.Y) d 1 2 Call.start Call.X Y Call.X
           Call.Y); try reflexivity; try assumption; simpl; lia.
Qed.

Lemma call_returns :
  exists s',
    build_model Call.extract_data Example.predict Call.randn Call.plotting
      Call.plot_due (Call.X, Call.Y) (Call.X, Call.Y) 2 1 2 1 1 1 Call.start =
    Ok (tt, s').
Proof.
  destruct call_plotting_returns as (Hall & Hmesh & Hsub).
  destruct (build_model_runs Call.extract_data Example.predict Call.randn
              Call.plotting Call.plot_due (Call.X, Call.Y) (Call.X, Call.Y)
              2 1 2 1 1 1 Call.start Call.X Call.Y Call.X Call.Y)
    as (s' & hw & hb & ow & ob & Hrun & _);
    try reflexivity; try assumption; try exact call_labels;
    try (simpl; lia).
  - apply map_Forall_empty.
  - apply call_predict_returns. reflexivity.
  - exists s'. exact Hrun.
Qed.

Lemma call_training_state :
  training_state Call.Y Call.X Call.hw (zeros 1 1) Call.ow (zeros 1 2)
    Call.state.
Proof.
  apply (setup_store_training_state 0 Call.Y Call.X Call.X Call.hw Call.ow
           2 1 2 Call.state ∅ ∅); try reflexivity.
  - apply map_Forall_empty.
  - split; reflexivity.
  - split; reflexivity.
  - exact call_labels.
Qed.

Lemma call_loop_store : loop_store 0 Call.X Call.state.
Proof.
  apply (setup_loop_store 0 Call.X Call.X Call.hw Call.ow 1 2 Call.state ∅ ∅);
    reflexivity.
Qed.

Lemma call_epoch_returns (fig : figure unit) :
  exists s',
    epoch Example.predict Call.plotting Call.plot_due fig Call.Y Call.Y 1 1 1
      1 Call.state = Ok (tt, s').
Proof.
  destruct call_plotting_returns as (Hall & _).
  apply (epoch_returns Example.predict Call.plotting Call.plot_due 2 1 2
           Call.X Call.X Call.Y Call.Y Hall (call_predict_returns 2 1 2 eq_refl)
           eq_refl eq_refl) with (hw := Call.hw) (hb := zeros 1 1)
           (ow := Call.ow) (ob := zeros 1 2) (b := 0);
    try reflexivity; try exact call_labels; try (simpl; lia).
  - exact call_training_state.
  - exact call_loop_store.
Qed.

Lemma loss_histories_witness :
  exists s',
    build_model Call.extract_data Example.predict Call.randn Call.plotting
      Call.plot_due (Call.X, Call.Y) (Call.X, Call.Y) 2 1 2 1 1 1 Call.start =
    Ok (tt, s') /\
    length (test_loss s') = 1 /\ length (train_loss s') = 1.
Proof.
  destruct call_returns as (s' & Hb). exists s'. split; [exact Hb|].
  exact (proj2 (loss_histories Call.extract_data Example.predict Call.randn
                  Call.plotting Call.plot_due (Call.X, Call.Y)
                  (Call.X, Call.Y) 2 1 2 1 1 1 Call.start) s' Hb).
Defined.

Lemma recorded_losses_use_updated_parameters_witness :
  exists s' ow' l2,
    epoch Example.predict Call.plotting Call.plot_due Call.fig Call.Y Call.Y
      1 1 1 1 Call.state =
    Ok (tt, s') /\
    array_at s' "output_weights" = Some (Arr2 ow') /\
    arrays_of (model s') (heap s') !! "OW" = Some ow' /\
    cross_entropy Example.predict (arrays_of (model s') (heap s')) Call.X
      Call.Y 1 = Ok l2 /\
    train_loss s' = [l2].
Proof.
  destruct (call_epoch_returns Call.fig) as (s' & He).
  destruct (recorded_losses_use_updated_parameters Example.predict
              Call.plotting Call.plot_due Call.fig
              Call.Y Call.Y 1 1 1 1 Call.X Call.hw (zeros 1 1) Call.ow
              (zeros 1 2) Call.state s' call_training_state He)
    as (hw' & hb' & ow' & ob' & Xt & l1 & l2 & (_ & _ & How & _) & Hm & _ &
        _ & E2 & _ & Et).
  exists s', ow', l2. split; [exact He|]. split; [exact How|].
  split; [rewrite Hm; reflexivity|]. split; [exact E2 | exact Et].
Defined.

Lemma epoch_ignores_model_witness :
  epoch Example.predict Call.plotting Call.plot_due
    Call.fig Call.Y Call.Y 1 1 1 1
    (set_model (<["Hb" := 3]> ∅) Call.state) =
  epoch Example.predict Call.plotting Call.plot_due
    Call.fig Call.Y Call.Y 1 1 1 1 Call.state.
Proof.
  apply (epoch_ignores_model Example.predict Call.plotting Call.plot_due
           Call.fig Call.Y Call.Y 1 1 1 1 Call.X Call.hw
           (zeros 1 1) Call.ow (zeros 1 2) Call.state (<["Hb" := 3]> ∅)
           call_training_state).
Defined.

Lemma loop_keeps_arrays_witness :
  exists fig s0,
    setup Call.extract_data Call.randn Call.plotting (Call.X, Call.Y)
      (Call.X, Call.Y) 2 1 2 Call.start = Ok ((fig, (Call.Y, Call.Y)), s0) /\
    array_at s0 "X_train" = Some (Arr2 Call.X) /\
    array_at s0 "X_test" = Some (Arr2 Call.X).
Proof.
  destruct (call_setup_returns Call.Y 2) as (fig & s0 & Hs).
  exists fig, s0. split; [exact Hs|].
  destruct (loop_keeps_arrays Call.extract_data Example.predict Call.randn
              Call.plotting Call.plot_due (Call.X, Call.Y) (Call.X, Call.Y)
              2 1 2 1 1 1 Call.start fig Call.Y Call.Y s0 Call.X Call.X 1 s0
              Hs)
    as (_ & HX & HXt & _).
  - apply map_Forall_empty.
  - reflexivity.
  - reflexivity.
  - reflexivity.
  - reflexivity.
  - exact call_labels.
  - apply reaches_here.
  - split; [exact HX | exact HXt].
Defined.


Lemma build_model_returns_witness :
  exists s',
    build_model Call.extract_data Example.predict Call.randn Call.plotting
      Call.plot_due (Call.X, Call.Y) (Call.X, Call.Y) 2 1 2 1 1 1 Call.start =
    Ok (tt, s').
Proof.
  apply (build_model_returns Call.extract_data Example.predict Call.randn
           Call.plotting Call.plot_due (Call.X, Call.Y) (Call.X, Call.Y)
           2 1 2 1 1 1 Call.start Call.X Call.Y Call.X Call.Y).
  - reflexivity.
  - reflexivity.
  - reflexivity.
  - reflexivity.
  - lia.
  - simpl. lia.
  - simpl. lia.
  - exact call_labels.
  - exact call_labels.
  - apply map_Forall_empty.
  - apply call_plotting_returns.
  - apply call_plotting_returns.
  - apply call_plotting_returns.
  - apply call_predict_returns. reflexivity.
Defined.

Lemma wrong_input_dimensions_raise_witness :
  build_model Call.extract_data Example.predict Call.randn Call.plotting
    Call.plot_due (Call.X, Call.Y) (Call.X, Call.Y) 3 1 2 1 1 1 Call.start =
  Raise ValueError.
Proof.
  destruct (call_setup_returns Call.Y 3) as (fig & s0 & Hs).
  apply (wrong_input_dimensions_raise Call.extract_data Example.predict
           Call.randn Call.plotting Call.plot_due (Call.X, Call.Y)
           (Call.X, Call.Y) 3 1 2 1 1 1 Call.start fig Call.Y Call.Y s0
           Call.X Hs).
  - reflexivity.
  - simpl. lia.
  - lia.
Defined.

Lemma invalid_label_raises_witness :
  build_model Call.extract_data Example.predict Call.randn Call.plotting
    Call.plot_due (Call.X, [2%Z]) (Call.X, Call.Y) 2 1 2 1 1 1 Call.start =
  Raise IndexError.
Proof.
  destruct (call_setup_returns [2%Z] 2) as (fig & s0 & Hs).
  apply (invalid_label_raises Call.extract_data Example.predict
           Call.randn Call.plotting Call.plot_due (Call.X, [2%Z])
           (Call.X, Call.Y) 2 1 2 1 1 1 Call.start fig [2%Z] Call.Y s0
           Call.X Hs).
  - reflexivity.
  - reflexivity.
  - intros H. apply Forall_cons in H as [H _]. simpl in H. lia.
  - lia.
Defined.

Lemma build_model_returns_only_if_witness :
  exists X Y, Call.extract_data (Call.X, Call.Y) = Ok (X, Y) /\
    2 <= ncols X /\ 0 < length Y.
Proof.
  destruct call_returns as (s' & Hb).
  destruct (build_model_returns_only_if Call.extract_data Example.predict
              Call.randn Call.plotting Call.plot_due (Call.X, Call.Y)
              (Call.X, Call.Y) 2 1 2 1 1 1 Call.start s' Hb)
    as (X & Y & Xt & Yt & E1 & _ & C1 & _ & H).
  exists X, Y. split; [exact E1|]. split; [exact C1|].
  apply H. lia.
Defined.

(** With a [predict] that fails, the first loss computation raises. *)
Lemma call_no_predict_raises :
  build_model Call.extract_data Call.no_predict Call.randn Call.plotting
    Call.plot_due (Call.X, Call.Y) (Call.X, Call.Y) 2 1 2 1 1 1 Call.start =
  Raise (LibraryError 1).
Proof.
  destruct (call_setup_returns Call.Y 2) as (fig & s0 & Hs).
  rewrite (build_model_first_epoch Call.extract_data Call.no_predict
             Call.randn Call.plotting Call.plot_due _ _ _ _ _ _ _ _ _ _ _ _
             _ Hs) by lia.
  apply bind_raise.
  destruct (loop_state_start Call.extract_data Call.randn Call.plotting
              _ _ _ _ _ _ _ _ _ _ Call.X Call.X Hs)
    as (hw & hb & ow & ob & T & L & _);
    try reflexivity; try exact call_labels; try apply map_Forall_empty.
  rewrite (epoch_from_training_state Call.no_predict Call.plotting
             Call.plot_due fig Call.Y Call.Y 1 1 1 1 Call.X hw hb ow ob s0 T).
  change (Call.plot_due 1 1) with true. cbv iota.
  set (u := rebuilt_state Call.Y Call.X hw hb ow ob 1 1 s0).
  pose proof (updated_training_state (fun _ _ => true) _ _ _ _ _ _ 1%R 1%R _ T)
    as [UX _ _ _ _ _ _ _ _ _ _ _ _].
  pose proof (updated_loop_store Call.Y Call.X hw hb ow ob 1 1 _ _ _ L)
    as [_ V2 _ _ _ _ Ht _].
  assert (HXt : array_at u "X_test" = Some (Arr2 Call.X)).
  { unfold array_at. cbn [vars heap u rebuilt_state set_model].
    rewrite V2. exact Ht. }
  destruct call_plotting_returns as (Hall & _).
  destruct (plot_results_returns Call.plotting fig Call.Y Call.Y u Call.X
              Call.X Hall UX HXt) as (s6 & H6).
  rewrite (bind_ok _ _ _ _ _ H6).
  pose proof (libs_plot_results _ _ _ _ _ _ _ H6) as E6.
  assert (Eh : heap s6 = heap u) by (rewrite E6; reflexivity).
  assert (Ev : vars s6 = vars u) by (rewrite E6; reflexivity).
  assert (Ed : model s6 = model u) by (rewrite E6; reflexivity).
  clear E6.
  rewrite record_losses_steps.
  rewrite (array_at_load_matrix "X_test" s6 Call.X)
    by (unfold array_at in HXt |- *; rewrite Ev, Eh; exact HXt).
  rewrite Ed, Eh. unfold u. rewrite (rebuilt_arrays _ _ _ _ _ _ _ _ _ T).
  unfold cross_entropy, getitem.
  rewrite updated_model_HW, updated_model_OW. reflexivity.
Qed.

Lemma training_statements_do_not_raise_witness :
  setup Call.extract_data Call.randn Call.plotting (Call.X, Call.Y)
    (Call.X, Call.Y) 2 1 2 Call.start = Raise (LibraryError 1) \/
  exists fig Y_test s0 i si u,
    setup Call.extract_data Call.randn Call.plotting (Call.X, Call.Y)
      (Call.X, Call.Y) 2 1 2 Call.start = Ok ((fig, (Call.Y, Y_test)), s0) /\
    reaches (epoch Call.no_predict Call.plotting Call.plot_due fig Call.Y
               Y_test 1 1 1) (seq 1 1) s0 i si /\
    bind forward_propagation (fun _ =>
      bind (backpropagation Call.Y) (fun _ =>
        bind (add_regularization 1) (fun _ =>
          bind (update_weights 1) (fun _ => rebuild_model)))) si =
      Ok (tt, u) /\
    ((if Call.plot_due i 1 then plot_results Call.plotting fig Call.Y Y_test
      else ret tt) u = Raise (LibraryError 1) \/
     exists u',
       (if Call.plot_due i 1 then plot_results Call.plotting fig Call.Y Y_test
        else ret tt) u = Ok (tt, u') /\
       record_losses Call.no_predict Call.Y Y_test 1 u' =
         Raise (LibraryError 1)).
Proof.
  apply (training_statements_do_not_raise Call.extract_data
           Call.no_predict Call.randn Call.plotting Call.plot_due
           (Call.X, Call.Y) (Call.X, Call.Y) 2 1 2 1 1 1 Call.start
           Call.X Call.Y (LibraryError 1)).
  - reflexivity.
  - reflexivity.
  - reflexivity.
  - exact call_labels.
  - apply map_Forall_empty.
  - exact call_no_predict_raises.
Defined.

(** ** The recorded loss and the objective of the updates *)

Section Reported.
Variable predict : gmap string matrix -> matrix -> exc matrix.
Local Open Scope R_scope.

(** X14: the loss that [cross_entropy] reports is the objective of the
    updates divided by the number of examples.  When [predict] returns
    the probabilities of the forward pass for the parameters in the
    dictionary and there is one valid label per point, [cross_entropy]
    returns 1 / len(Y) times the summed cross-entropy of the forward pass
    plus (regularization / 2) times the sum of the squares of the two
    weight arrays, that is 1 / len(Y) times the sum whose derivatives
    the updates of the loop take. *)
Theorem reported_loss_is_objective_per_example (model : gmap string matrix)
    (X : matrix) (Y : list Z) (r : R) (hw hb ow ob p : matrix) :
  model !! "HW" = Some hw ->
  model !! "OW" = Some ow ->
  predict model X = Ok p ->
  (nrows p = nrows X /\ ncols p = ncols ow)%nat ->
  (forall i c, (i < nrows X)%nat -> (c < ncols ow)%nat ->
     item p i c = prob X hw hb ow ob i c) ->
  (0 < length Y)%nat -> length Y = nrows X ->
  Forall (fun y => (- Z.of_nat (ncols ow) <= y < Z.of_nat (ncols ow))%Z) Y ->
  cross_entropy predict model X Y r =
  Ok (1 / INR (length Y) * regularized_objective X Y r hw hb ow ob).
Proof.
  intros Hhw How Hp [Sp1 Sp2] Hprob Hn HY HL.
  unfold cross_entropy, getitem. rewrite Hhw, How. simpl. rewrite Hp. simpl.
  destruct (fancy_get_ok p Y) as (v & Hv & Hlen & Hitem);
    [lia | rewrite Sp2; exact HL |].
  rewrite Hv. simpl.
  destruct (Nat.eqb_spec (length Y) 0) as [E|_]; [lia|].
  f_equal. f_equal. unfold regularized_objective. f_equal.
  unfold Np.vsum, summed_cross_entropy. cbn [Np.vmap vlen vitem].
  rewrite Hlen, HY. apply rsum_ext. intros i Hi.
  rewrite Hitem by lia. rewrite Sp2.
  rewrite Hprob; [reflexivity | exact Hi |].
  apply label_lt; [exact HL | lia].
Qed.

End Reported.

Lemma reported_loss_is_objective_per_example_witness :
  cross_entropy Call.forward_predict
    (<["OW" := Call.ow]> (<["HW" := Call.hw]> ∅)) Call.X Call.Y 1 =
  Ok (1 / INR 1 *
      regularized_objective Call.X Call.Y 1 Call.hw (zeros 1 1) Call.ow
        (zeros 1 2))%R.
Proof.
  apply (reported_loss_is_objective_per_example Call.forward_predict
           (<["OW" := Call.ow]> (<["HW" := Call.hw]> ∅)) Call.X Call.Y 1
           Call.hw (zeros 1 1) Call.ow (zeros 1 2)
           (Matrix 1 2 (prob Call.X Call.hw (zeros 1 1) Call.ow (zeros 1 2)))).
  - reflexivity.
  - reflexivity.
  - reflexivity.
  - split; reflexivity.
  - intros i c _ _. reflexivity.
  - simpl. lia.
  - reflexivity.
  - exact call_labels.
Defined.

(** ** The mini-batches of the notebook on Keras *)

Section Batches.

Lemma range_batch B i :
  Minibatch.range (i * B) ((i + 1) * B) = seq (i * B) B.
Proof. unfold Minibatch.range. f_equal. lia. Qed.

Lemma take_ok n idx :
  Forall (fun j => j < n) idx -> Minibatch.take n idx = Ok idx.
Proof.
  intros H. unfold Minibatch.take.
  replace (forallb (fun j => j <? n) idx) with true; [reflexivity|].
  symmetry. apply forallb_forall. intros j Hj.
  apply Nat.ltb_lt. rewrite List.Forall_forall in H. apply H, Hj.
Qed.

Lemma floor_batches n B : 0 < B -> n / B * B = n - n mod B.
Proof.
  intros HB. pose proof (Nat.div_mod n B ltac:(lia)) as H. lia.
Qed.

Lemma batch_in_range n m B i :
  0 < B -> i < n / B -> n / B * B <= m ->
  Forall (fun j => j < m) (seq (i * B) B).
Proof.
  intros HB Hi Hm. apply List.Forall_forall. intros j Hj.
  apply in_seq in Hj.
  assert ((i + 1) * B <= n / B * B) by (apply Nat.mul_le_mono_r; lia).
  lia.
Qed.

Lemma concat_batches B k :
  concat (List.map (fun i => seq (i * B) B) (seq 0 k)) = seq 0 (k * B).
Proof.
  induction k as [|k IH]; [reflexivity|].
  rewrite seq_S, List.map_app, concat_app, IH. simpl.
  rewrite app_nil_r.
  replace (B + k * B) with (k * B + B) by lia.
  rewrite seq_app. reflexivity.
Qed.

(** X15: the batches of an epoch are the consecutive blocks of
    [batch_size] rows of [x_train], as many as fit.  For a positive
    [batch_size], [num_batches_train] is the quotient, the index range of
    every batch is inside the array (so [x_train[idx]] does not raise),
    and the ranges of the batches, one after the other, are the indices
    0, ..., num_samples_train - num_samples_train % batch_size - 1, each
    once: the last num_samples_train % batch_size rows are in no batch. *)
Theorem batches_cover_a_prefix (num_samples_train batch_size : nat) :
  0 < batch_size ->
  Minibatch.floordiv num_samples_train batch_size =
    Ok (num_samples_train / batch_size) /\
  (forall i, i < num_samples_train / batch_size ->
     Minibatch.take num_samples_train
       (Minibatch.range (i * batch_size) ((i + 1) * batch_size)) =
     Ok (seq (i * batch_size) batch_size)) /\
  concat (List.map
            (fun i => Minibatch.range (i * batch_size) ((i + 1) * batch_size))
            (seq 0 (num_samples_train / batch_size))) =
    seq 0 (num_samples_train - num_samples_train mod batch_size).
Proof.
  intros HB. split; [|split].
  - unfold Minibatch.floordiv.
    destruct (Nat.eqb_spec batch_size 0); [lia | reflexivity].
  - intros i Hi. rewrite range_batch. apply take_ok.
    apply (batch_in_range num_samples_train); try assumption.
    rewrite floor_batches by exact HB. lia.
  - rewrite (List.map_ext _ (fun i => seq (i * batch_size) batch_size))
      by (intros i; apply range_batch).
    rewrite concat_batches, floor_batches by exact HB. reflexivity.
Qed.

End Batches.

Lemma batches_cover_a_prefix_witness :
  Minibatch.floordiv 1050 100 = Ok 10 /\
  concat (List.map (fun i => Minibatch.range (i * 100) ((i + 1) * 100))
            (seq 0 (1050 / 100))) = seq 0 (1050 - 1050 mod 100).
Proof.
  destruct (batches_cover_a_prefix 1050 100) as (H1 & _ & H3); [lia|].
  split; [exact H1 | exact H3].
Defined.

Section Minibatches.
Context {world : Type}.
Variable session : Minibatch.session_call -> world -> exc (R * world).
Hypothesis session_returns : forall c w, exists r, session c w = Ok r.

Lemma train_batches_returns n m B (batches : list nat) k c w :
  0 < B -> k * B <= n -> k * B <= m ->
  Forall (fun i => i < k) batches ->
  exists r, Minibatch.train_batches world session n m B batches c w = Ok r.
Proof.
  intros HB Hn Hm. revert c w.
  induction batches as [|i rest IH]; intros c w HF; simpl.
  - eexists. reflexivity.
  - apply Forall_cons in HF as [Hi HF].
    assert (Hle : (i + 1) * B <= k * B) by (apply Nat.mul_le_mono_r; lia).
    rewrite range_batch.
    rewrite !take_ok
      by (apply List.Forall_forall; intros j Hj; apply in_seq in Hj; lia).
    simpl. destruct (session_returns
      (Minibatch.TrainStep (seq (i * B) B) (seq (i * B) B)) w) as (r & Hr).
    rewrite Hr. simpl. apply IH, HF.
Qed.

(** With a graph that reports the loss [l] for every batch, the loop
    adds [l] once per batch. *)
Lemma train_batches_constant n m B (batches : list nat) c w l r :
  (forall xb tb w1 r1, session (Minibatch.TrainStep xb tb) w1 = Ok r1 ->
     fst r1 = l) ->
  Minibatch.train_batches world session n m B batches c w = Ok r ->
  fst r = (c + INR (length batches) * l)%R.
Proof.
  intros Hl. revert c w.
  induction batches as [|i rest IH]; intros c w; simpl.
  - intros [= <-]. simpl. ring.
  - destruct (Minibatch.take n _) as [xb|]; simpl; [|discriminate].
    destruct (Minibatch.take m _) as [tb|]; simpl; [|discriminate].
    destruct (session (Minibatch.TrainStep xb tb) w) as [r1|] eqn:E1; simpl;
      [|discriminate].
    intros H. rewrite (IH _ _ H), (Hl _ _ _ _ E1).
    destruct (length rest); [simpl; ring|].
    rewrite !S_INR. ring.
Qed.

Lemma evaluate_batches_returns train n m B (batches : list nat) k w :
  0 < B -> k * B <= n -> k * B <= m ->
  Forall (fun i => i < k) batches ->
  exists w',
    Minibatch.evaluate_batches world session train n m B batches w = Ok w'.
Proof.
  intros HB Hn Hm. revert w.
  induction batches as [|i rest IH]; intros w HF; simpl.
  - eexists. reflexivity.
  - apply Forall_cons in HF as [Hi HF].
    assert (Hle : (i + 1) * B <= k * B) by (apply Nat.mul_le_mono_r; lia).
    rewrite range_batch.
    rewrite !take_ok
      by (apply List.Forall_forall; intros j Hj; apply in_seq in Hj; lia).
    simpl. destruct (session_returns
      (Minibatch.Evaluate train (seq (i * B) B) (seq (i * B) B)) w)
      as (r & Hr).
    rewrite Hr. simpl. apply IH, HF.
Qed.

Lemma seq_below k : Forall (fun i => i < k) (seq 0 k).
Proof. apply List.Forall_forall. intros i Hi. apply in_seq in Hi. lia. Qed.

(** What an epoch appends, when the targets are as many as the rows
    that are used and the number of epochs is not 10. *)
Lemma epoch_body_returns n m nv mv B E epoch h w :
  0 < B -> n / B * B <= m -> nv / B * B <= mv -> E <> 10 ->
  exists c ta va w',
    Minibatch.train_batches world session n m B (seq 0 (n / B)) 0%R w =
      Ok c /\
    Minibatch.epoch_body world session
      (Minibatch.Sizes n m nv mv B E (n / B) (nv / B)) epoch (h, w) =
    Ok (Minibatch.Histories
          (Minibatch.loss h ++ [(fst c / INR B)%R])
          (Minibatch.train_acc h ++ [ta])
          (Minibatch.valid_acc h ++ [va]), w').
Proof.
  intros HB Hm Hmv HE.
  assert (Hn : n / B * B <= n) by (rewrite floor_batches by exact HB; lia).
  assert (Hnv : nv / B * B <= nv) by (rewrite floor_batches by exact HB; lia).
  destruct (train_batches_returns n m B (seq 0 (n / B)) (n / B) 0%R w HB Hn Hm
              (seq_below _)) as (c & Hc).
  unfold Minibatch.epoch_body.
  cbn [fst snd Minibatch.num_samples_train Minibatch.num_targets_train
       Minibatch.num_samples_valid Minibatch.num_targets_valid
       Minibatch.batch_size Minibatch.num_epochs Minibatch.num_batches_train
       Minibatch.num_batches_valid].
  rewrite Hc. simpl exc_bind.
  destruct (session_returns (Minibatch.NewConfusion false) (snd c))
    as (c1 & H1). rewrite H1. simpl exc_bind.
  destruct (session_returns (Minibatch.NewConfusion true) (snd c1))
    as (c2 & H2). rewrite H2. simpl exc_bind.
  destruct (evaluate_batches_returns true n m B (seq 0 (n / B)) (n / B)
              (snd c2) HB Hn Hm (seq_below _)) as (w3 & H3).
  rewrite H3. simpl exc_bind.
  destruct (session_returns (Minibatch.NewConfusion false) w3) as (c4 & H4).
  rewrite H4. simpl exc_bind.
  destruct (evaluate_batches_returns false nv mv B (seq 0 (nv / B)) (nv / B)
              (snd c4) HB Hnv Hmv (seq_below _)) as (w5 & H5).
  rewrite H5. simpl exc_bind.
  destruct (session_returns (Minibatch.Accuracy true) w5) as (a6 & H6).
  rewrite H6. simpl exc_bind.
  destruct (session_returns (Minibatch.Accuracy false) (snd a6))
    as (a7 & H7). rewrite H7. simpl exc_bind.
  match goal with |- context [session (Minibatch.Print ?a ?b ?c ?d) ?w] =>
    destruct (session_returns (Minibatch.Print a b c d) w) as (p8 & H8)
  end.
  rewrite H8. simpl exc_bind.
  unfold Minibatch.pymod.
  destruct (Z.eqb_spec (Z.of_nat E - 10) 0) as [E0|_]; [lia|].
  simpl exc_bind.
  exists c, (fst a6), (fst a7).
  destruct (Z.of_nat epoch mod (Z.of_nat E - 10) =? 0)%Z.
  - destruct (session_returns Minibatch.ClearOutput (snd p8)) as (c9 & H9).
    rewrite H9. simpl. eexists. split; reflexivity.
  - simpl. eexists. split; reflexivity.
Qed.

Lemma for_epochs_returns n m nv mv B E (epochs : list nat) h w :
  0 < B -> n / B * B <= m -> nv / B * B <= mv -> E <> 10 ->
  exists h' w',
    Minibatch.for_epochs world session
      (Minibatch.Sizes n m nv mv B E (n / B) (nv / B)) epochs (h, w) =
      Ok (h', w') /\
    length (Minibatch.loss h') = length (Minibatch.loss h) + length epochs /\
    length (Minibatch.train_acc h') =
      length (Minibatch.train_acc h) + length epochs /\
    length (Minibatch.valid_acc h') =
      length (Minibatch.valid_acc h) + length epochs /\
    (forall l,
       (forall xb tb w1 r1, session (Minibatch.TrainStep xb tb) w1 = Ok r1 ->
          fst r1 = l) ->
       Forall (fun x => x = (INR (n / B) * l / INR B)%R) (Minibatch.loss h) ->
       Forall (fun x => x = (INR (n / B) * l / INR B)%R) (Minibatch.loss h')).
Proof.
  intros HB Hm Hmv HE. revert h w.
  induction epochs as [|e rest IH]; intros h w; simpl.
  - exists h, w. split; [reflexivity|]. repeat split; try lia.
    intros l _ H. exact H.
  - destruct (epoch_body_returns n m nv mv B E e h w HB Hm Hmv HE)
      as (c & ta & va & w1 & Hc & He).
    rewrite He. simpl exc_bind.
    destruct (IH (Minibatch.Histories
                    (Minibatch.loss h ++ [(fst c / INR B)%R])
                    (Minibatch.train_acc h ++ [ta])
                    (Minibatch.valid_acc h ++ [va])) w1)
      as (h' & w' & Hrun & L1 & L2 & L3 & Hl).
    exists h', w'. split; [exact Hrun|].
    cbn [Minibatch.loss Minibatch.train_acc Minibatch.valid_acc] in *.
    rewrite length_app in L1, L2, L3. simpl in L1, L2, L3.
    repeat split; try lia.
    intros l Hconst HF. apply (Hl l Hconst).
    apply Forall_app. split; [exact HF|].
    constructor; [|constructor].
    rewrite (train_batches_constant _ _ _ _ _ _ l _ Hconst Hc).
    rewrite length_seq. unfold Rdiv. ring.
Qed.

End Minibatches.

Section RecordedLoss.
Context {world : Type}.
Variable session : Minibatch.session_call -> world -> exc (R * world).

Lemma epoch_body_loss z epoch h w h' w' :
  Minibatch.epoch_body world session z epoch (h, w) = Ok (h', w') ->
  exists c,
    Minibatch.train_batches world session (Minibatch.num_samples_train z)
      (Minibatch.num_targets_train z) (Minibatch.batch_size z)
      (seq 0 (Minibatch.num_batches_train z)) 0%R w = Ok c /\
    Minibatch.loss h' =
      (Minibatch.loss h ++ [(fst c / INR (Minibatch.batch_size z))%R])%list.
Proof.
  unfold Minibatch.epoch_body. cbn [fst snd].
  destruct (Minibatch.train_batches _ _ _ _ _ _ _ _) as [c|]; simpl exc_bind;
    [|discriminate].
  repeat match goal with
  | |- exc_bind ?c _ = Ok _ -> _ =>
      destruct c; simpl exc_bind; [|discriminate]
  end.
  intros [= <- _]. exists c. split; reflexivity.
Qed.

Lemma for_epochs_loss z (epochs : list nat) h w h' w' l :
  (forall xb tb w1 r1, session (Minibatch.TrainStep xb tb) w1 = Ok r1 ->
     fst r1 = l) ->
  Minibatch.for_epochs world session z epochs (h, w) = Ok (h', w') ->
  Forall (fun x => x = (INR (Minibatch.num_batches_train z) * l /
                        INR (Minibatch.batch_size z))%R) (Minibatch.loss h) ->
  Forall (fun x => x = (INR (Minibatch.num_batches_train z) * l /
                        INR (Minibatch.batch_size z))%R) (Minibatch.loss h').
Proof.
  intros Hl. revert h w.
  induction epochs as [|e rest IH]; intros h w; simpl.
  - intros [= <- _] H. exact H.
  - destruct (Minibatch.epoch_body world session z e (h, w))
      as [[h1 w1]|] eqn:E1; simpl exc_bind; [|discriminate].
    intros Hrun HF. apply (IH _ _ Hrun).
    destruct (epoch_body_loss _ _ _ _ _ _ E1) as (c & Hc & ->).
    apply Forall_app. split; [exact HF|].
    constructor; [|constructor].
    rewrite (train_batches_constant session _ _ _ _ _ _ l _ Hl Hc).
    rewrite length_seq. unfold Rdiv. ring.
Qed.

(** X16: what the cell records as the loss of an epoch is the sum of the
    losses of its batches divided by [batch_size], not by the number of
    batches.  With a graph that reports the loss [l] for every batch,
    every entry of [loss] is
    (num_samples_train // batch_size) * l / batch_size. *)
Theorem recorded_loss_is_divided_by_batch_size
    n m nv mv B E w (l : R) h w' :
  (forall x_batch target_batch w1 r,
     session (Minibatch.TrainStep x_batch target_batch) w1 = Ok r ->
     fst r = l) ->
  Minibatch.training_cell world session n m nv mv B E w = Ok (h, w') ->
  Forall (fun x => x = (INR (n / B) * l / INR B)%R) (Minibatch.loss h).
Proof.
  intros Hl. unfold Minibatch.training_cell, Minibatch.floordiv.
  destruct (B =? 0); simpl exc_bind; [discriminate|].
  intros Hrun.
  apply (for_epochs_loss _ _ _ _ _ _ l Hl Hrun). constructor.
Qed.

End RecordedLoss.

Section CellOutcome.
Context {world : Type}.
Variable session : Minibatch.session_call -> world -> exc (R * world).
Hypothesis session_returns : forall c w, exists r, session c w = Ok r.

Lemma take_raise n idx j :
  In j idx -> n <= j -> Minibatch.take n idx = Raise IndexError.
Proof.
  intros Hin Hj. unfold Minibatch.take.
  destruct (forallb (fun j => j <? n) idx) eqn:E; [|reflexivity].
  rewrite forallb_forall in E. apply E, Nat.ltb_lt in Hin. lia.
Qed.

Lemma batch_short m B a :
  0 < B -> m < (a + 1) * B ->
  Minibatch.take m (seq (a * B) B) = Raise IndexError.
Proof.
  intros HB Hm. apply (take_raise _ _ (a * B + (B - 1))); [|lia].
  apply in_seq. lia.
Qed.

Lemma train_batches_short n m B len a c w :
  0 < B -> (a + len) * B <= n -> a * B <= m -> m < (a + len) * B ->
  Minibatch.train_batches world session n m B (seq a len) c w =
    Raise IndexError.
Proof.
  intros HB. revert a c w.
  induction len as [|len IH]; intros a c w Hn Ha Hm; [lia|].
  simpl. rewrite range_batch.
  rewrite (take_ok n)
    by (apply List.Forall_forall; intros j Hj; apply in_seq in Hj; nia).
  simpl exc_bind.
  destruct (le_lt_dec ((a + 1) * B) m) as [Hin|Hout].
  - rewrite (take_ok m)
      by (apply List.Forall_forall; intros j Hj; apply in_seq in Hj; lia).
    simpl exc_bind.
    destruct (session_returns
      (Minibatch.TrainStep (seq (a * B) B) (seq (a * B) B)) w) as (r & Hr).
    rewrite Hr. simpl exc_bind.
    apply IH; [| |]; try (replace (S a + len) with (a + S len) by lia);
      try assumption.
    replace (S a) with (a + 1) by lia. exact Hin.
  - rewrite batch_short by assumption. reflexivity.
Qed.

Lemma evaluate_batches_short train n m B len a w :
  0 < B -> (a + len) * B <= n -> a * B <= m -> m < (a + len) * B ->
  Minibatch.evaluate_batches world session train n m B (seq a len) w =
    Raise IndexError.
Proof.
  intros HB. revert a w.
  induction len as [|len IH]; intros a w Hn Ha Hm; [lia|].
  simpl. rewrite range_batch.
  rewrite (take_ok n)
    by (apply List.Forall_forall; intros j Hj; apply in_seq in Hj; nia).
  simpl exc_bind.
  destruct (le_lt_dec ((a + 1) * B) m) as [Hin|Hout].
  - rewrite (take_ok m)
      by (apply List.Forall_forall; intros j Hj; apply in_seq in Hj; lia).
    simpl exc_bind.
    destruct (session_returns
      (Minibatch.Evaluate train (seq (a * B) B) (seq (a * B) B)) w)
      as (r & Hr).
    rewrite Hr. simpl exc_bind.
    apply IH; [| |]; try (replace (S a + len) with (a + S len) by lia);
      try assumption.
    replace (S a) with (a + 1) by lia. exact Hin.
  - rewrite batch_short by assumption. reflexivity.
Qed.

Lemma floor_le n B : n / B * B <= n.
Proof.
  destruct B as [|B]; [simpl; lia|].
  rewrite floor_batches by lia. lia.
Qed.

(** The first epoch with targets that are too few. *)
Lemma epoch_body_short n m nv mv B E epoch h w :
  0 < B -> m < n / B * B \/ mv < nv / B * B ->
  Minibatch.epoch_body world session
    (Minibatch.Sizes n m nv mv B E (n / B) (nv / B)) epoch (h, w) =
  Raise IndexError.
Proof.
  intros HB Hshort.
  pose proof (floor_le n B) as Hn. pose proof (floor_le nv B) as Hnv.
  unfold Minibatch.epoch_body.
  cbn [fst snd Minibatch.num_samples_train Minibatch.num_targets_train
       Minibatch.num_samples_valid Minibatch.num_targets_valid
       Minibatch.batch_size Minibatch.num_epochs Minibatch.num_batches_train
       Minibatch.num_batches_valid].
  destruct (le_lt_dec (n / B * B) m) as [Hm|Hm].
  - destruct Hshort as [Hs|Hs]; [lia|].
    destruct (train_batches_returns session session_returns n m B
                (seq 0 (n / B)) (n / B) 0%R w HB Hn Hm (seq_below _))
      as (c & Hc).
    rewrite Hc. simpl exc_bind.
    destruct (session_returns (Minibatch.NewConfusion false) (snd c))
      as (c1 & H1). rewrite H1. simpl exc_bind.
    destruct (session_returns (Minibatch.NewConfusion true) (snd c1))
      as (c2 & H2). rewrite H2. simpl exc_bind.
    destruct (evaluate_batches_returns session session_returns true n m B
                (seq 0 (n / B)) (n / B) (snd c2) HB Hn Hm (seq_below _))
      as (w3 & H3).
    rewrite H3. simpl exc_bind.
    destruct (session_returns (Minibatch.NewConfusion false) w3)
      as (c4 & H4).
    rewrite H4. simpl exc_bind.
    rewrite evaluate_batches_short; [reflexivity|assumption|simpl; lia|lia|
      simpl; lia].
  - rewrite train_batches_short; [reflexivity|assumption|simpl; lia|lia|
      simpl; lia].
Qed.

(** The first epoch when [num_epochs] is 10. *)
Lemma epoch_body_ten n m nv mv B epoch h w :
  0 < B -> n / B * B <= m -> nv / B * B <= mv ->
  Minibatch.epoch_body world session
    (Minibatch.Sizes n m nv mv B 10 (n / B) (nv / B)) epoch (h, w) =
  Raise ZeroDivisionError.
Proof.
  intros HB Hm Hmv.
  pose proof (floor_le n B) as Hn. pose proof (floor_le nv B) as Hnv.
  unfold Minibatch.epoch_body.
  cbn [fst snd Minibatch.num_samples_train Minibatch.num_targets_train
       Minibatch.num_samples_valid Minibatch.num_targets_valid
       Minibatch.batch_size Minibatch.num_epochs Minibatch.num_batches_train
       Minibatch.num_batches_valid].
  destruct (train_batches_returns session session_returns n m B
              (seq 0 (n / B)) (n / B) 0%R w HB Hn Hm (seq_below _))
    as (c & Hc).
  rewrite Hc. simpl exc_bind.
  destruct (session_returns (Minibatch.NewConfusion false) (snd c))
    as (c1 & H1). rewrite H1. simpl exc_bind.
  destruct (session_returns (Minibatch.NewConfusion true) (snd c1))
    as (c2 & H2). rewrite H2. simpl exc_bind.
  destruct (evaluate_batches_returns session session_returns true n m B
              (seq 0 (n / B)) (n / B) (snd c2) HB Hn Hm (seq_below _))
    as (w3 & H3).
  rewrite H3. simpl exc_bind.
  destruct (session_returns (Minibatch.NewConfusion false) w3) as (c4 & H4).
  rewrite H4. simpl exc_bind.
  destruct (evaluate_batches_returns session session_returns false nv mv B
              (seq 0 (nv / B)) (nv / B) (snd c4) HB Hnv Hmv (seq_below _))
    as (w5 & H5).
  rewrite H5. simpl exc_bind.
  destruct (session_returns (Minibatch.Accuracy true) w5) as (a6 & H6).
  rewrite H6. simpl exc_bind.
  destruct (session_returns (Minibatch.Accuracy false) (snd a6))
    as (a7 & H7). rewrite H7. simpl exc_bind.
  match goal with |- context [session (Minibatch.Print ?a ?b ?c ?d) ?w] =>
    destruct (session_returns (Minibatch.Print a b c d) w) as (p8 & H8)
  end.
  rewrite H8. simpl exc_bind. reflexivity.
Qed.

Lemma cell_runs n m nv mv B E w :
  0 < B -> n / B * B <= m -> nv / B * B <= mv -> E <> 10 ->
  exists h w',
    Minibatch.training_cell world session n m nv mv B E w = Ok (h, w') /\
    length (Minibatch.loss h) = E /\
    length (Minibatch.train_acc h) = E /\
    length (Minibatch.valid_acc h) = E.
Proof.
  intros HB Hm Hmv HE.
  unfold Minibatch.training_cell, Minibatch.floordiv.
  destruct (Nat.eqb_spec B 0) as [->|_]; [lia|]. simpl exc_bind.
  destruct (for_epochs_returns session session_returns n m nv mv B E
              (seq 0 E) (Minibatch.Histories [] [] []) w HB Hm Hmv HE)
    as (h & w' & Hrun & L1 & L2 & L3 & _).
  rewrite length_seq in L1, L2, L3. simpl in L1, L2, L3.
  exists h, w'. repeat split; assumption.
Qed.

(** X17: the cell runs to its end, and records one loss and two
    accuracies for every epoch, when [batch_size] is positive,
    [num_epochs] is not 10, the targets are as many as the rows that the
    batches use, and the calls of the graph return. *)
Theorem training_cell_returns n m nv mv B E w :
  0 < B -> n / B * B <= m -> nv / B * B <= mv -> E <> 10 ->
  exists h w',
    Minibatch.training_cell world session n m nv mv B E w = Ok (h, w') /\
    length (Minibatch.loss h) = E /\
    length (Minibatch.train_acc h) = length (Minibatch.loss h) /\
    length (Minibatch.valid_acc h) = length (Minibatch.loss h).
Proof.
  intros HB Hm Hmv HE.
  destruct (cell_runs n m nv mv B E w HB Hm Hmv HE)
    as (h & w' & Hrun & L1 & L2 & L3).
  exists h, w'. rewrite L1, L2, L3. repeat split. exact Hrun.
Qed.

(** X18: with targets as many as the rows that the batches use and a
    graph whose calls return, the cell raises ZeroDivisionError exactly
    when [batch_size] is 0 (at [num_samples_train // batch_size]) or
    [num_epochs] is 10 (at [epoch % (num_epochs - 10)], at the end of
    the first epoch). *)
Theorem training_cell_division_by_zero n m nv mv B E w :
  n / B * B <= m -> nv / B * B <= mv ->
  Minibatch.training_cell world session n m nv mv B E w = Raise ZeroDivisionError <->
  B = 0 \/ E = 10.
Proof.
  intros Hm Hmv. split.
  - intros Hraise.
    destruct (Nat.eq_dec B 0) as [HB|HB]; [left; exact HB|].
    destruct (Nat.eq_dec E 10) as [HE|HE]; [right; exact HE|].
    destruct (cell_runs n m nv mv B E w ltac:(lia) Hm Hmv HE)
      as (h & w' & Hrun & _).
    rewrite Hrun in Hraise. discriminate.
  - intros [->| ->]; [reflexivity|].
    unfold Minibatch.training_cell, Minibatch.floordiv.
    destruct (Nat.eqb_spec B 0) as [_|HB]; [reflexivity|].
    simpl exc_bind.
    change (seq 0 10) with (0 :: seq 1 9).
    cbn [Minibatch.for_epochs].
    rewrite epoch_body_ten by (assumption || lia). reflexivity.
Qed.

(** X19: with a positive [batch_size], at least one epoch and a graph
    whose calls return, targets that are fewer than the rows that the
    batches use make the cell raise IndexError (at [targets_train[idx]]
    or [targets_valid[idx]] of the first batch that reaches beyond
    them). *)
Theorem short_targets_raise n m nv mv B E w :
  0 < B -> 0 < E ->
  m < n / B * B \/ mv < nv / B * B ->
  Minibatch.training_cell world session n m nv mv B E w = Raise IndexError.
Proof.
  intros HB HE Hshort.
  unfold Minibatch.training_cell, Minibatch.floordiv.
  destruct (Nat.eqb_spec B 0) as [->|_]; [lia|]. simpl exc_bind.
  destruct E as [|E]; [lia|].
  cbn [seq Minibatch.for_epochs].
  rewrite epoch_body_short by assumption. reflexivity.
Qed.

End CellOutcome.

Lemma steady_returns l c w : exists r, Minibatch.steady l c w = Ok r.
Proof. eexists. reflexivity. Qed.

Lemma training_cell_returns_witness :
  exists h w',
    Minibatch.training_cell unit (Minibatch.steady 1) 250 250 120 120 100 3 tt =
      Ok (h, w') /\
    length (Minibatch.loss h) = 3 /\
    length (Minibatch.train_acc h) = length (Minibatch.loss h) /\
    length (Minibatch.valid_acc h) = length (Minibatch.loss h).
Proof.
  apply (training_cell_returns (Minibatch.steady 1) (steady_returns 1)
           250 250 120 120 100 3 tt).
  - lia.
  - apply Nat.leb_le. reflexivity.
  - apply Nat.leb_le. reflexivity.
  - lia.
Defined.

Lemma recorded_loss_is_divided_by_batch_size_witness :
  exists h w',
    Minibatch.training_cell unit (Minibatch.steady 1) 250 250 120 120 100 3 tt =
      Ok (h, w') /\
    Forall (fun x => x = (INR (250 / 100) * 1 / INR 100)%R)
      (Minibatch.loss h).
Proof.
  destruct (cell_runs (Minibatch.steady 1) (steady_returns 1)
              250 250 120 120 100 3 tt)
    as (h & w' & Hrun & _).
  - lia.
  - apply Nat.leb_le. reflexivity.
  - apply Nat.leb_le. reflexivity.
  - lia.
  - exists h, w'. split; [exact Hrun|].
    apply (recorded_loss_is_divided_by_batch_size (Minibatch.steady 1)
             250 250 120 120 100 3 tt 1 h w').
    + intros x_batch target_batch w1 r [= <-]. reflexivity.
    + exact Hrun.
Defined.

Lemma training_cell_division_by_zero_witness :
  Minibatch.training_cell unit (Minibatch.steady 1) 250 250 120 120 100 10 tt =
    Raise ZeroDivisionError.
Proof.
  apply (training_cell_division_by_zero (Minibatch.steady 1)
           (steady_returns 1) 250 250 120 120 100 10 tt).
  - apply Nat.leb_le. reflexivity.
  - apply Nat.leb_le. reflexivity.
  - right. reflexivity.
Defined.

Lemma short_targets_raise_witness :
  Minibatch.training_cell unit (Minibatch.steady 1) 250 150 120 120 100 3 tt =
    Raise IndexError.
Proof.
  apply (short_targets_raise (Minibatch.steady 1) (steady_returns 1)
           250 150 120 120 100 3 tt).
  - lia.
  - lia.
  - left. apply Nat.ltb_lt. reflexivity.
Defined.

(** ** The picture of the first digits *)

Section Tiles.
Variable x_train : matrix.

Lemma tile_step i j canvas idx :
  idx < nrows x_train -> ncols x_train = 784 -> i < 10 -> j < 10 ->
  idx = 10 * i + j ->
  shown x_train idx canvas ->
  exists canvas',
    exc_bind (Canvas.row x_train idx) (fun v =>
      exc_bind (Canvas.reshape v 28 28) (fun image =>
        Canvas.set_slice canvas (i * 28) ((i + 1) * 28)
          (j * 28) ((j + 1) * 28) image)) = Ok canvas' /\
    shown x_train (idx + 1) canvas'.
Proof.
  intros Hn Hc Hi Hj Hidx (Hr & Hcc & Hitem).
  unfold Canvas.row.
  destruct (Nat.ltb_spec idx (nrows x_train)) as [_|]; [|lia].
  cbn [exc_bind]. unfold Canvas.reshape. cbn [vlen vitem].
  destruct (Nat.eqb_spec (ncols x_train) (28 * 28)) as [_|]; [|lia].
  cbn [exc_bind]. unfold Canvas.set_slice. cbn [nrows ncols].
  rewrite Hr, Hcc.
  assert (Canvas.slice_len (i * 28) ((i + 1) * 28) 280 = 28) as ->
    by (unfold Canvas.slice_len; lia).
  assert (Canvas.slice_len (j * 28) ((j + 1) * 28) 280 = 28) as ->
    by (unfold Canvas.slice_len; lia).
  assert (Canvas.slice_start (i * 28) 280 = i * 28) as ->
    by (unfold Canvas.slice_start; lia).
  assert (Canvas.slice_start (j * 28) 280 = j * 28) as ->
    by (unfold Canvas.slice_start; lia).
  unfold Canvas.fits. rewrite Nat.eqb_refl. cbn [orb andb].
  eexists. split; [reflexivity|].
  split; [reflexivity|]. split; [reflexivity|].
  intros r c Hr' Hc'. cbn [item].
  unfold Np.bidx. change (28 =? 1) with false. cbv iota.
  pose proof (Nat.div_mod r 28 ltac:(lia)) as Dr.
  pose proof (Nat.mod_upper_bound r 28 ltac:(lia)) as Mr.
  pose proof (Nat.div_mod c 28 ltac:(lia)) as Dc.
  pose proof (Nat.mod_upper_bound c 28 ltac:(lia)) as Mc.
  destruct (Nat.leb_spec (i * 28) r) as [R1|R1];
  destruct (Nat.ltb_spec r (i * 28 + 28)) as [R2|R2];
  destruct (Nat.leb_spec (j * 28) c) as [C1|C1];
  destruct (Nat.ltb_spec c (j * 28 + 28)) as [C2|C2];
  cbn [andb];
  try (rewrite (Hitem r c Hr' Hc');
       destruct (Nat.ltb_spec (10 * (r / 28) + c / 28) idx);
       destruct (Nat.ltb_spec (10 * (r / 28) + c / 28) (idx + 1));
       try reflexivity; lia).
  assert (r / 28 = i) as Ei by lia.
  assert (c / 28 = j) as Ej by lia.
  destruct (Nat.ltb_spec (10 * (r / 28) + c / 28) (idx + 1)); [|lia].
  f_equal; lia.
Qed.

Lemma shown_zeros : shown x_train 0 (zeros (28 * 10) (10 * 28)).
Proof.
  split; [reflexivity|]. split; [reflexivity|]. intros r c _ _. reflexivity.
Qed.

Lemma columns_shown i len j canvas :
  10 * i + 10 <= nrows x_train -> ncols x_train = 784 -> i < 10 ->
  j + len = 10 ->
  shown x_train (10 * i + j) canvas ->
  exists canvas',
    Canvas.columns x_train i (seq j len) (canvas, 10 * i + j) =
      Ok (canvas', 10 * i + 10) /\
    shown x_train (10 * i + 10) canvas'.
Proof.
  intros Hn Hc Hi. revert j canvas.
  induction len as [|len IH]; intros j canvas Hj Hs.
  - replace j with 10 in * by lia. exists canvas. split; [reflexivity|exact Hs].
  - cbn [seq Canvas.columns fst snd].
    destruct (tile_step i j canvas (10 * i + j)) as (c1 & H1 & S1);
      try assumption; try lia.
    destruct (Canvas.row x_train (10 * i + j)) as [v|]; cbn [exc_bind] in *;
      [|discriminate].
    destruct (Canvas.reshape v 28 28) as [image|]; cbn [exc_bind] in *;
      [|discriminate].
    rewrite H1. cbn [exc_bind].
    replace (10 * i + j + 1) with (10 * i + S j) in * by lia.
    apply IH; [lia|exact S1].
Qed.

Lemma rows_shown len i canvas :
  100 <= nrows x_train -> ncols x_train = 784 -> i + len = 10 ->
  shown x_train (10 * i) canvas ->
  exists canvas',
    Canvas.rows x_train (seq i len) (canvas, 10 * i) = Ok (canvas', 100) /\
    shown x_train 100 canvas'.
Proof.
  intros Hn Hc. revert i canvas.
  induction len as [|len IH]; intros i canvas Hi Hs.
  - replace (10 * i) with 100 in * by lia.
    exists canvas. split; [reflexivity|exact Hs].
  - change (seq i (S len)) with (i :: seq (S i) len). cbn [Canvas.rows].
    destruct (columns_shown i 10 0 canvas) as (c1 & H1 & S1);
      try assumption; try lia.
    { replace (10 * i + 0) with (10 * i) by lia. exact Hs. }
    replace (10 * i + 0) with (10 * i) in H1 by lia.
    rewrite H1. cbn [exc_bind].
    replace (10 * i + 10) with (10 * S i) in * by lia.
    apply IH; [lia|exact S1].
Qed.

(** X20: the picture shows the first hundred examples, ten in a row, in
    the order of [x_train].  For an [x_train] with at least 100 rows of
    784 pixels the statements run to their end with [idx = 100] and a
    canvas of 280 times 280 pixels; its pixel in row [r] and column [c]
    is the pixel (r % 28, c % 28) of the example number
    10 * (r // 28) + c // 28, which is the entry 28 * (r % 28) + c % 28
    of its row.  No pixel of the canvas is left at 0 by the loop. *)
Theorem canvas_shows_first_hundred :
  100 <= nrows x_train -> ncols x_train = 784 ->
  exists canvas,
    Canvas.tile x_train = Ok (canvas, 100) /\
    nrows canvas = 280 /\ ncols canvas = 280 /\
    forall r c, r < 280 -> c < 280 ->
      item canvas r c =
        item x_train (10 * (r / 28) + c / 28) (28 * (r mod 28) + c mod 28).
Proof.
  intros Hn Hc. unfold Canvas.tile.
  destruct (rows_shown 10 0 (zeros (28 * 10) (10 * 28))) as (canvas & H & S);
    try assumption; try lia.
  { apply shown_zeros. }
  exists canvas. split; [exact H|].
  destruct S as (Hr & Hcc & Hitem).
  split; [exact Hr|]. split; [exact Hcc|].
  intros r c Hr' Hc'. rewrite (Hitem r c Hr' Hc').
  pose proof (Nat.div_mod r 28 ltac:(lia)) as Dr.
  pose proof (Nat.mod_upper_bound r 28 ltac:(lia)) as Mr.
  pose proof (Nat.div_mod c 28 ltac:(lia)) as Dc.
  pose proof (Nat.mod_upper_bound c 28 ltac:(lia)) as Mc.
  destruct (Nat.ltb_spec (10 * (r / 28) + c / 28) 100); [reflexivity|lia].
Qed.

Lemma columns_raise i len j canvas :
  ncols x_train = 784 -> i < 10 -> j + len = 10 ->
  10 * i + j <= nrows x_train < 10 * i + 10 ->
  shown x_train (10 * i + j) canvas ->
  Canvas.columns x_train i (seq j len) (canvas, 10 * i + j) =
    Raise IndexError.
Proof.
  intros Hc Hi. revert j canvas.
  induction len as [|len IH]; intros j canvas Hj Hn Hs; [lia|].
  cbn [seq Canvas.columns fst snd].
  destruct (le_lt_dec (nrows x_train) (10 * i + j)) as [Hout|Hin].
  - unfold Canvas.row.
    destruct (Nat.ltb_spec (10 * i + j) (nrows x_train)); [lia|reflexivity].
  - destruct (tile_step i j canvas (10 * i + j)) as (c1 & H1 & S1);
      try assumption; try lia.
    destruct (Canvas.row x_train (10 * i + j)) as [v|]; cbn [exc_bind] in *;
      [|discriminate].
    destruct (Canvas.reshape v 28 28) as [image|]; cbn [exc_bind] in *;
      [|discriminate].
    rewrite H1. cbn [exc_bind].
    replace (10 * i + j + 1) with (10 * i + S j) in * by lia.
    apply IH; [lia|lia|exact S1].
Qed.

Lemma rows_raise len i canvas :
  ncols x_train = 784 -> i + len = 10 ->
  10 * i <= nrows x_train < 100 ->
  shown x_train (10 * i) canvas ->
  Canvas.rows x_train (seq i len) (canvas, 10 * i) = Raise IndexError.
Proof.
  intros Hc. revert i canvas.
  induction len as [|len IH]; intros i canvas Hi Hn Hs; [lia|].
  change (seq i (S len)) with (i :: seq (S i) len). cbn [Canvas.rows].
  replace (10 * i) with (10 * i + 0) in Hs |- * by lia.
  destruct (le_lt_dec (10 * i + 10) (nrows x_train)) as [Hin|Hout].
  - destruct (columns_shown i 10 0 canvas) as (c1 & H1 & S1);
      try assumption; try lia.
    rewrite H1. cbn [exc_bind].
    replace (10 * i + 10) with (10 * S i) in * by lia.
    apply IH; [lia|lia|exact S1].
  - rewrite columns_raise; try assumption; try lia. reflexivity.
Qed.

(** X21: with fewer than 100 examples, or examples that do not have 784
    pixels, the statements raise.  The error is the ValueError of
    [reshape] when [x_train] is not empty and its rows have another
    length than 784, and else the IndexError of [x_train[idx]] at the
    first [idx] that is not a row. *)
Theorem canvas_needs_hundred_examples :
  nrows x_train < 100 \/ ncols x_train <> 784 ->
  Canvas.tile x_train =
    Raise (if (0 <? nrows x_train) && negb (ncols x_train =? 784)
           then ValueError else IndexError).
Proof.
  intros H. unfold Canvas.tile.
  destruct (Nat.ltb_spec 0 (nrows x_train)) as [Hpos|Hzero].
  - destruct (Nat.eqb_spec (ncols x_train) 784) as [Hc|Hc]; cbn [andb negb].
    + destruct H as [H|H]; [|contradiction].
      apply (rows_raise 10 0); try assumption; try lia.
      apply shown_zeros.
    + change (seq 0 10) with (0 :: seq 1 9). cbn [Canvas.rows].
      change (seq 0 10) with (0 :: seq 1 9). cbn [Canvas.columns fst snd].
      unfold Canvas.row.
      destruct (Nat.ltb_spec 0 (nrows x_train)); [|lia].
      cbn [exc_bind]. unfold Canvas.reshape. cbn [vlen].
      destruct (Nat.eqb_spec (ncols x_train) (28 * 28)) as [E|_];
        [|reflexivity].
      exfalso. apply Hc. rewrite E. reflexivity.
  - cbn [andb].
    change (seq 0 10) with (0 :: seq 1 9). cbn [Canvas.rows].
    change (seq 0 10) with (0 :: seq 1 9). cbn [Canvas.columns fst snd].
    unfold Canvas.row.
    destruct (Nat.ltb_spec 0 (nrows x_train)); [lia|reflexivity].
Qed.

End Tiles.

Lemma canvas_shows_first_hundred_witness :
  exists canvas,
    Canvas.tile (Matrix 100 784 (fun i j => INR (i + j))) =
      Ok (canvas, 100) /\
    nrows canvas = 280 /\ ncols canvas = 280 /\
    forall r c, r < 280 -> c < 280 ->
      item canvas r c =
        INR (10 * (r / 28) + c / 28 + (28 * (r mod 28) + c mod 28)).
Proof.
  apply (canvas_shows_first_hundred (Matrix 100 784 (fun i j => INR (i + j)))).
  - cbn [nrows]. lia.
  - reflexivity.
Defined.

Lemma canvas_needs_hundred_examples_witness :
  Canvas.tile (Matrix 50 784 (fun i j => INR (i + j))) = Raise IndexError.
Proof.
  apply (canvas_needs_hundred_examples
           (Matrix 50 784 (fun i j => INR (i + j)))).
  left. cbn [nrows]. lia.
Defined.
